(** * OpenShift MCP server: tool dispatch, query routing and LLM provider selection

    A shallow embedding of the decision logic of the repository:
    - the keyword router of [mcp_client/direct_mcp_client.py] and
      [mcp_client/working_mcp_client.py] ([process_user_query]);
    - the conversation history of the clients and hosts ([add_to_history],
      [_show_history], [get_history_summary]);
    - the provider classes and the [LLMManager] of [old/llm_integration.py];
    - the cluster gateway [OpenShiftCluster] of [openshift_cluster.py];
    - the dispatcher [call_tool] of [old/openshift_mcp_server_with_llm.py];
    - the dispatcher [handle_call_tool] of [openshift_mcp_server.py];
    - the simulated tools of the direct client ([simulate_mcp_tool_execution],
      [test_direct_openshift_access]);
    - the quantities and the usage report of [openshift_cluster.py]
      ([_parse_cpu_value], [_parse_memory_value], [get_resource_usage]);
    - the answering of a query in [mcp_host/working_host_app.py]
      ([process_user_query], [_generate_intelligent_response]).

    Python values are a small JSON-like universe, exceptions are data, and the
    code that talks to the outside world (Kubernetes client, vendor SDKs,
    [str()], [int()], the clock) is a record of oracles, [Externals], over which
    every statement is quantified.  Stateful code runs in a state-and-exception
    monad over the process-wide [World]: the global cluster handle and the
    trace of outbound calls. *)

From Stdlib Require Import ZArith String Ascii List Bool Lia Floats DecimalString Uint63.
From stdpp Require Import base option list strings gmap.

Open Scope string_scope.
Open Scope list_scope.
Set Warnings "-register-all".

(* ===================================================================== *)
(** * Part I: the embedding                                               *)
(* ===================================================================== *)

(** ** Python values and exceptions *)

(** The values that travel through argument bags, gateway results and result
    envelopes: [None], booleans, integers, floats, strings, lists and
    dictionaries (in insertion order). *)
Inductive Value : Type :=
| VNone
| VBool (b : bool)
| VInt (z : Z)
| VFloat (f : float)
| VStr (s : string)
| VList (l : list Value)
| VDict (d : list (string * Value)).

(** A Python [dict] with string keys, in insertion order. *)
Abbreviation Dict := (list (string * Value)).

(** The argument bag of a tool call: a JSON object. *)
Abbreviation ArgumentBag := (gmap string Value).

(** An exception instance: its class name and what [str(e)] gives. *)
Record PyExn : Type := mkExn { exn_class : string; exn_str : string }.

Inductive Outcome (A : Type) : Type :=
| Ret (a : A)
| Raise (e : PyExn).
Arguments Ret {A} a.
Arguments Raise {A} e.

Definition KeyError (k : string) : PyExn := mkExn "KeyError" ("'" +:+ k +:+ "'").
Definition NameError (n : string) : PyExn :=
  mkExn "NameError" ("name '" +:+ n +:+ "' is not defined").
Definition TypeError (msg : string) : PyExn := mkExn "TypeError" msg.
Definition ValueError (msg : string) : PyExn := mkExn "ValueError" msg.
Definition AttributeError (cls attr : string) : PyExn :=
  mkExn "AttributeError" ("'" +:+ cls +:+ "' object has no attribute '" +:+ attr +:+ "'").

(** Truth value testing: [if v], [not v], [a and b], [a or b]. *)
Definition truthy (v : Value) : bool :=
  match v with
  | VNone => false
  | VBool b => b
  | VInt z => negb (z =? 0)%Z
  | VFloat f => negb (PrimFloat.eqb f 0%float)
  | VStr s => negb (String.eqb s "")
  | VList l => match l with [] => false | _ => true end
  | VDict d => match d with [] => false | _ => true end
  end.

(** [d.get(k)] on an argument bag: [None] when the key is missing. *)
Definition args_get (arguments : ArgumentBag) (k : string) : Value :=
  default VNone (arguments !! k).

(** [d.get(k, dflt)]. *)
Definition args_get_default (arguments : ArgumentBag) (k : string) (dflt : Value) : Value :=
  default dflt (arguments !! k).

(** [d[k]] on an argument bag: raises [KeyError(k)] when the key is missing. *)
Definition args_getitem (arguments : ArgumentBag) (k : string) : Outcome Value :=
  match arguments !! k with
  | Some v => Ret v
  | None => Raise (KeyError k)
  end.

Fixpoint dict_lookup (d : Dict) (k : string) : option Value :=
  match d with
  | [] => None
  | (k', v) :: rest => if String.eqb k' k then Some v else dict_lookup rest k
  end.

(** [k in d]. *)
Definition dict_has (d : Dict) (k : string) : bool :=
  match dict_lookup d k with Some _ => true | None => false end.

(** [d[k]]. *)
Definition dict_getitem (d : Dict) (k : string) : Outcome Value :=
  match dict_lookup d k with
  | Some v => Ret v
  | None => Raise (KeyError k)
  end.

(** [v[k]] for a value that should be a dictionary. *)
Definition py_getitem (v : Value) (k : string) : Outcome Value :=
  match v with
  | VDict d => dict_getitem d k
  | _ => Raise (TypeError "object is not subscriptable")
  end.

(** Python slicing [l[start:]]: a negative start counts from the end and is
    clamped at the beginning of the list, a large one at its end. *)
Definition py_slice_from {A : Type} (start : Z) (l : list A) : list A :=
  let n := Z.of_nat (length l) in
  let i := if (start <? 0)%Z then Z.max (n + start) 0 else Z.min start n in
  drop (Z.to_nat i) l.

(** Python slicing [l[:stop]] for a non-negative [stop]. *)
Definition py_slice_to {A : Type} (stop : nat) (l : list A) : list A := take stop l.

(** [s[:stop]] on a string.  Text is held as UTF-8 bytes and Python counts
    code points: a byte of the form [10xxxxxx] continues the code point that
    was begun before it, every other byte begins one. *)
Definition is_continuation (c : ascii) : bool :=
  let n := nat_of_ascii c in
  (128 <=? n)%nat && (n <? 192)%nat.

Fixpoint str_slice_to (stop : nat) (s : string) : string :=
  match s with
  | EmptyString => EmptyString
  | String c rest =>
      if is_continuation c then String c (str_slice_to stop rest)
      else match stop with
           | O => EmptyString
           | S stop' => String c (str_slice_to stop' rest)
           end
  end.

(** ** Strings: [str.lower] and the substring test [sub in s]

    Text is held as UTF-8 bytes; [lower] folds the ASCII capitals, every
    other byte is left as it is. *)

Definition ascii_lower (c : ascii) : ascii :=
  let n := nat_of_ascii c in
  if (65 <=? n)%nat && (n <=? 90)%nat then ascii_of_nat (n + 32) else c.

Fixpoint lower (s : string) : string :=
  match s with
  | EmptyString => EmptyString
  | String c rest => String (ascii_lower c) (lower rest)
  end.

(** [sub in s]: [sub] occurs in [s] as a contiguous substring. *)
Fixpoint py_in (sub s : string) : bool :=
  String.prefix sub s ||
  match s with
  | EmptyString => false
  | String _ rest => py_in sub rest
  end.

Definition NL : string := String (ascii_of_nat 10) EmptyString.

(** [v[:stop]] on a value: strings and lists can be sliced. *)
Definition py_prefix (stop : nat) (v : Value) : Outcome Value :=
  match v with
  | VStr s => Ret (VStr (str_slice_to stop s))
  | VList l => Ret (VList (py_slice_to stop l))
  | _ => Raise (TypeError "object is not subscriptable")
  end.

(** ** The process-wide state and the outside world *)

(** [OpenShiftCluster]: the handle keeps the URL and the token it was built
    from; the two client objects it holds belong to the Kubernetes library. *)
Record OpenShiftCluster : Type := mkCluster { cluster_url : Value; token : Value }.

Inductive LLMProvider : Type := GEMINI | OPENAI | CLAUDE | CUSTOM.

(** [LLMProvider.value]. *)
Definition LLMProvider_value (p : LLMProvider) : string :=
  match p with
  | GEMINI => "gemini"
  | OPENAI => "openai"
  | CLAUDE => "claude"
  | CUSTOM => "custom"
  end.

Record LLMConfig : Type := mkLLMConfig {
  cfg_provider : LLMProvider;
  cfg_api_key : string;
  cfg_model : string;
  cfg_base_url : option string;
  cfg_max_tokens : option Z;
  cfg_temperature : float;
  cfg_timeout : Z
}.

(** Outbound calls, in the order in which they are issued. *)
Inductive Event : Type :=
| EvConnect (url tok : Value)                    (* OpenShiftCluster._connect *)
| EvCluster (method : string) (args : list Value) (* a method of the cluster handle *)
| EvGenerate (provider : string) (full_prompt : Value) (* a vendor generation request *)
| EvProbe (provider : string).                   (* a vendor connectivity probe *)

(** The module-level globals that the handlers share. *)
Record World : Type := mkWorld {
  cluster : option OpenShiftCluster;  (* [cluster: Optional[OpenShiftCluster] = None] *)
  trace : list Event
}.

(** What the libraries outside the repository do.  Each oracle sees the calls
    issued so far, so that an answer may change from one call to the next. *)
Record Externals : Type := mkExternals {
  py_str : Value -> string;                (* [str(v)], also inside f-strings *)
  py_int : string -> option Z;             (* [int(s)]; [None] stands for ValueError *)
  py_float : string -> option float;       (* [float(s)] *)
  fmt_2f_float : float -> string;          (* [format(x, ".2f")] for a float *)
  fmt_2f_int : Z -> string;                (* [format(n, ".2f")] for an integer *)
  clock_elapsed : list Event -> float;     (* [time.time() - start_time] *)
  k8s_connect : list Event -> Value -> Value -> Outcome unit;
  k8s_list : list Event -> string -> OpenShiftCluster -> list Value -> Outcome (list Value);
  k8s_text : list Event -> string -> OpenShiftCluster -> list Value -> Outcome Value;
  k8s_dict : list Event -> string -> OpenShiftCluster -> list Value -> Outcome Dict;
  genai_generate_content : list Event -> LLMConfig -> Value -> Outcome Value;
  openai_chat_create : list Event -> LLMConfig -> Value -> Outcome (Value * option Z);
  anthropic_messages_create : list Event -> LLMConfig -> Value -> Outcome (Value * option Z);
  requests_post_generate : list Event -> LLMConfig -> Value -> Outcome Dict;
  vendor_probe : list Event -> LLMConfig -> Outcome Z;
  vendor_client : LLMConfig -> Outcome unit; (* the SDK objects built by a provider's [__init__] *)
  render_text : string -> list Value -> Outcome string
}.

(** The format specification [:.2f]: numbers are formatted, anything else is
    refused. *)
Definition format_2f (X : Externals) (v : Value) : Outcome string :=
  match v with
  | VFloat f => Ret (fmt_2f_float X f)
  | VInt z => Ret (fmt_2f_int X z)
  | VBool b => Ret (fmt_2f_int X (if b then 1 else 0)%Z)
  | VStr _ => Raise (ValueError "Unknown format code 'f' for object of type 'str'")
  | _ => Raise (TypeError "unsupported format string passed to __format__")
  end.

(** ** A monad for exceptions alone, and one for the handlers *)

Definition obind {A B : Type} (c : Outcome A) (k : A -> Outcome B) : Outcome B :=
  match c with
  | Ret a => k a
  | Raise e => Raise e
  end.

Notation "x <~ c ;; k" := (obind c (fun x => k))
  (at level 100, c at next level, right associativity).

(** A computation of the server: it reads and writes the [World] and either
    returns a value or raises; the world it leaves behind is kept in both
    cases. *)
Definition M (A : Type) : Type := World -> Outcome A * World.

Definition ret {A : Type} (a : A) : M A := fun w => (Ret a, w).
Definition raise {A : Type} (e : PyExn) : M A := fun w => (Raise e, w).
Definition bind {A B : Type} (c : M A) (k : A -> M B) : M B :=
  fun w => match c w with
           | (Ret a, w') => k a w'
           | (Raise e, w') => (Raise e, w')
           end.
Definition lift {A : Type} (o : Outcome A) : M A := fun w => (o, w).

Notation "x <- c ;; k" := (bind c (fun x => k))
  (at level 100, c at next level, right associativity).

(** [try: body / except Exception as e: handler(e)]. *)
Definition try_except {A : Type} (body : M A) (handler : PyExn -> M A) : M A :=
  fun w => match body w with
           | (Ret a, w') => (Ret a, w')
           | (Raise e, w') => handler e w'
           end.

Definition get_cluster : M (option OpenShiftCluster) := fun w => (Ret (cluster w), w).
Definition set_cluster (c : OpenShiftCluster) : M unit :=
  fun w => (Ret tt, mkWorld (Some c) (trace w)).
Definition get_trace : M (list Event) := fun w => (Ret (trace w), w).
Definition emit (ev : Event) : M unit :=
  fun w => (Ret tt, mkWorld (cluster w) (trace w ++ [ev])).

(** An outbound call: the oracle is asked with the trace so far, and the call
    is recorded. *)
Definition outbound {A : Type} (ev : Event) (oracle : list Event -> Outcome A) : M A :=
  fun w => (oracle (trace w), mkWorld (cluster w) (trace w ++ [ev])).

(** ** The clients: keyword routing and the conversation history

    [process_user_query] of [DirectMCPClient] (and, with the same chain of
    tests, of the working client) picks a tool and its argument bag by an
    [if]/[elif] chain of substring tests on the lower-cased query. *)

Module DirectMCPClient.

(** The [if]/[elif] chain of [process_user_query]: the tool that is run (the
    value stored as [tool_used]) and the argument bag handed to it. *)
Definition process_user_query_route (user_query : string) : string * ArgumentBag :=
  let q := lower user_query in
  if py_in "namespace" q && py_in "list" q then
    ("list_namespaces", ∅)
  else if py_in "pod" q && py_in "list" q then
    let namespace := "default" in
    let namespace :=
      if py_in "namespace" q then
        if py_in "production" q then "production"
        else if py_in "development" q then "development"
        else namespace
      else namespace in
    ("list_pods", {[ "namespace" := VStr namespace ]})
  else if py_in "connect" q || py_in "cluster" q then
    ("connect_cluster", ∅)
  else if py_in "ai" q || py_in "llm" q || py_in "help" q then
    ("ask_llm", {[ "question" := VStr user_query ]})
  else
    ("ask_llm", {[ "question" := VStr user_query ]}).

(** [add_to_history]: one dictionary is appended to [conversation_history].
    [timestamp] is the value of [datetime.now().isoformat()] at the call. *)
Definition add_to_history (timestamp : string) (conversation_history : list Dict)
    (user_query response tool_used : string) (execution_time : float) : list Dict :=
  conversation_history ++
  [ [ ("timestamp", VStr timestamp);
      ("user_query", VStr user_query);
      ("response", VStr response);
      ("tool_used", VStr tool_used);
      ("execution_time", VFloat execution_time) ] ].

(** [process_user_query]: route, run the tool, append to the history, return
    the response.  [run_tool] stands for [simulate_mcp_tool_execution]; an
    exception that escapes it is recorded with the tool name ["error"]. *)
Definition process_user_query
    (run_tool : string -> ArgumentBag -> Outcome string)
    (timestamp : string) (execution_time : float)
    (conversation_history : list Dict) (user_query : string)
    : string * list Dict :=
  let '(tool_used, arguments) := process_user_query_route user_query in
  match run_tool tool_used arguments with
  | Ret response =>
      (response,
       add_to_history timestamp conversation_history user_query response tool_used execution_time)
  | Raise e =>
      let error_msg := "❌ Error processing query: " +:+ exn_str e in
      (error_msg,
       add_to_history timestamp conversation_history user_query error_msg "error" execution_time)
  end.

(** The entries that the history display walks over:
    [self.conversation_history[-5:]]. *)
Definition last_entries (conversation_history : list Dict) : list Dict :=
  py_slice_from (-5) conversation_history.

(** The two lines and the blank line printed for entry number [i]. *)
Definition show_entry (X : Externals) (i : Z) (entry : Dict) : Outcome (list string) :=
  q <~ dict_getitem entry "user_query" ;;
  q50 <~ py_prefix 50 q ;;
  tool <~ dict_getitem entry "tool_used" ;;
  t <~ dict_getitem entry "execution_time" ;;
  time <~ format_2f X t ;;
  Ret [ py_str X (VInt i) +:+ ". Query: " +:+ py_str X q50 +:+ "...";
        "   Tool: " +:+ py_str X tool +:+ " | Time: " +:+ time +:+ "s";
        "" ].

(** [for i, entry in enumerate(entries, start)]: the lines printed. *)
Fixpoint show_entries (X : Externals) (i : Z) (entries : list Dict) : Outcome (list string) :=
  match entries with
  | [] => Ret []
  | entry :: rest =>
      lines <~ show_entry X i entry ;;
      more <~ show_entries X (i + 1) rest ;;
      Ret (lines ++ more)
  end.

(** [_show_history]: the lines it prints. *)
Definition _show_history (X : Externals) (conversation_history : list Dict)
    : Outcome (list string) :=
  match conversation_history with
  | [] => Ret [ "No conversation history yet." ]
  | _ =>
      lines <~ show_entries X 1 (last_entries conversation_history) ;;
      Ret ((NL +:+ "📚 Conversation History (" +:+
            py_str X (VInt (Z.of_nat (length conversation_history))) +:+
            " interactions):") :: lines)
  end.

End DirectMCPClient.

(** [mcp_host/working_host_app.py]: the same history, summarised as one
    string. *)
Module WorkingOpenShiftHostApp.

Definition add_to_history (timestamp : string) (conversation_history : list Dict)
    (user_query response tool_used : string) (execution_time : float) : list Dict :=
  conversation_history ++
  [ [ ("timestamp", VStr timestamp);
      ("user_query", VStr user_query);
      ("response", VStr response);
      ("tool_used", VStr tool_used);
      ("execution_time", VFloat execution_time) ] ].

(** The body of the [for] loop of [get_history_summary]: the entry is read
    under the key ['query']. *)
Definition summary_entry (X : Externals) (i : Z) (entry : Dict) : Outcome string :=
  q <~ dict_getitem entry "query" ;;
  q50 <~ py_prefix 50 q ;;
  tool <~ dict_getitem entry "tool_used" ;;
  t <~ dict_getitem entry "execution_time" ;;
  time <~ format_2f X t ;;
  Ret (py_str X (VInt i) +:+ ". " +:+ py_str X q50 +:+ "..." +:+ NL +:+
       "   Tool: " +:+ py_str X tool +:+ " | Time: " +:+ time +:+ "s" +:+ NL).

Fixpoint summary_entries (X : Externals) (i : Z) (entries : list Dict) (summary : string)
    : Outcome string :=
  match entries with
  | [] => Ret summary
  | entry :: rest =>
      piece <~ summary_entry X i entry ;;
      summary_entries X (i + 1) rest (summary +:+ piece)
  end.

Definition get_history_summary (X : Externals) (conversation_history : list Dict)
    : Outcome string :=
  match conversation_history with
  | [] => Ret "No conversation history yet."
  | _ =>
      summary_entries X 1 (py_slice_from (-5) conversation_history)
        ("Conversation History (" +:+
         py_str X (VInt (Z.of_nat (length conversation_history))) +:+
         " interactions):" +:+ NL)
  end.

End WorkingOpenShiftHostApp.

(** ** [old/llm_integration.py]: the providers and the manager *)

Module LLM.

Record LLMResponse : Type := mkLLMResponse {
  content : Value;
  provider : string;
  model : string;
  tokens_used : option Z;
  response_time : option float;
  error : option string
}.

(** The four subclasses of [BaseLLMProvider]; each object keeps its [config],
    and [provider_name] is [config.provider.value]. *)
Inductive BaseLLMProvider : Type :=
| GeminiProvider (config : LLMConfig)
| OpenAIProvider (config : LLMConfig)
| ClaudeProvider (config : LLMConfig)
| CustomLLMProvider (config : LLMConfig).

Definition config (p : BaseLLMProvider) : LLMConfig :=
  match p with
  | GeminiProvider c | OpenAIProvider c | ClaudeProvider c | CustomLLMProvider c => c
  end.

Definition provider_name (p : BaseLLMProvider) : string :=
  LLMProvider_value (cfg_provider (config p)).

(** The constructors of the other three providers build the SDK objects of
    their vendor: [genai.configure] and [genai.GenerativeModel],
    [openai.AsyncOpenAI], [anthropic.AsyncAnthropic].  These calls are inside
    no [try]: what they raise leaves the constructor. *)
Definition new_GeminiProvider (X : Externals) (c : LLMConfig) : Outcome BaseLLMProvider :=
  match vendor_client X c with
  | Ret _ => Ret (GeminiProvider c)
  | Raise e => Raise e
  end.

Definition new_OpenAIProvider (X : Externals) (c : LLMConfig) : Outcome BaseLLMProvider :=
  match vendor_client X c with
  | Ret _ => Ret (OpenAIProvider c)
  | Raise e => Raise e
  end.

Definition new_ClaudeProvider (X : Externals) (c : LLMConfig) : Outcome BaseLLMProvider :=
  match vendor_client X c with
  | Ret _ => Ret (ClaudeProvider c)
  | Raise e => Raise e
  end.

(** [CustomLLMProvider.__init__] refuses a configuration without a base URL. *)
Definition new_CustomLLMProvider (c : LLMConfig) : Outcome BaseLLMProvider :=
  match cfg_base_url c with
  | Some u => if String.eqb u "" then Raise (ValueError "Custom LLM requires base_url configuration")
              else Ret (CustomLLMProvider c)
  | None => Raise (ValueError "Custom LLM requires base_url configuration")
  end.

(** [f"{context}\n\n{prompt}" if context else prompt]. *)
Definition full_prompt (X : Externals) (prompt context : Value) : Value :=
  if truthy context then VStr (py_str X context +:+ NL +:+ NL +:+ py_str X prompt)
  else prompt.

Definition elapsed (X : Externals) : M float :=
  fun w => (Ret (clock_elapsed X (trace w)), w).

(** The [except Exception as e] branch shared by the four providers. *)
Definition error_response (p : BaseLLMProvider) (e : PyExn) : LLMResponse :=
  {| content := VStr ""; provider := provider_name p; model := cfg_model (config p);
     tokens_used := None; response_time := None; error := Some (exn_str e) |}.

(** [generate_response] of each provider class: the vendor call and the
    construction of the response sit in one [try], whose [except] builds the
    error response. *)
Definition provider_generate_response (X : Externals) (p : BaseLLMProvider)
    (prompt context : Value) : M LLMResponse :=
  let fp := full_prompt X prompt context in
  let ev := EvGenerate (provider_name p) fp in
  try_except
    (match p with
     | GeminiProvider c =>
         text <- outbound ev (fun tr => genai_generate_content X tr c fp) ;;
         t <- elapsed X ;;
         ret {| content := text; provider := provider_name p; model := cfg_model c;
                tokens_used := None; response_time := Some t; error := None |}
     | OpenAIProvider c =>
         r <- outbound ev (fun tr => openai_chat_create X tr c fp) ;;
         t <- elapsed X ;;
         ret {| content := fst r; provider := provider_name p; model := cfg_model c;
                tokens_used := snd r; response_time := Some t; error := None |}
     | ClaudeProvider c =>
         r <- outbound ev (fun tr => anthropic_messages_create X tr c fp) ;;
         t <- elapsed X ;;
         ret {| content := fst r; provider := provider_name p; model := cfg_model c;
                tokens_used := snd r; response_time := Some t; error := None |}
     | CustomLLMProvider c =>
         result <- outbound ev (fun tr => requests_post_generate X tr c fp) ;;
         t <- elapsed X ;;
         ret {| content := default (default (VStr "") (dict_lookup result "content"))
                                   (dict_lookup result "response");
                provider := provider_name p; model := cfg_model c;
                tokens_used := None; response_time := Some t; error := None |}
     end)
    (fun e => ret (error_response p e)).

(** [test_connection]: any exception means [False]; the custom provider also
    wants status 200. *)
Definition test_connection (X : Externals) (p : BaseLLMProvider) : M bool :=
  try_except
    (status <- outbound (EvProbe (provider_name p)) (fun tr => vendor_probe X tr (config p)) ;;
     ret (match p with
          | CustomLLMProvider _ => (status =? 200)%Z
          | _ => true
          end))
    (fun _ => ret false).

(** [LLMManager]: [providers] in insertion order, and [default_provider]. *)
Record LLMManager : Type := mkLLMManager {
  providers : list (string * BaseLLMProvider);
  default_provider : option string
}.

Fixpoint providers_lookup (ps : list (string * BaseLLMProvider)) (k : string)
    : option BaseLLMProvider :=
  match ps with
  | [] => None
  | (k', p) :: rest => if String.eqb k' k then Some p else providers_lookup rest k
  end.

(** [self.providers[k] = p]: an existing key keeps its place. *)
Fixpoint providers_set (ps : list (string * BaseLLMProvider)) (k : string) (p : BaseLLMProvider)
    : list (string * BaseLLMProvider) :=
  match ps with
  | [] => [(k, p)]
  | (k', p') :: rest =>
      if String.eqb k' k then (k, p) :: rest else (k', p') :: providers_set rest k p
  end.

(** The process environment, [os.environ]. *)
Definition getenv (env : gmap string string) (k : string) : option string := env !! k.

(** [if key:] for the result of [os.getenv]. *)
Definition env_truthy (v : option string) : bool :=
  match v with
  | Some s => negb (String.eqb s "")
  | None => false
  end.

(** [int(os.getenv(k, dflt))]. *)
Definition getenv_int (X : Externals) (env : gmap string string) (k dflt : string) : Outcome Z :=
  let s := default dflt (env !! k) in
  match py_int X s with
  | Some z => Ret z
  | None => Raise (ValueError ("invalid literal for int() with base 10: '" +:+ s +:+ "'"))
  end.

(** [float(os.getenv(k, dflt))]. *)
Definition getenv_float (X : Externals) (env : gmap string string) (k dflt : string)
    : Outcome float :=
  let s := default dflt (env !! k) in
  match py_float X s with
  | Some f => Ret f
  | None => Raise (ValueError ("could not convert string to float: '" +:+ s +:+ "'"))
  end.

(** [LLMManager.__init__] followed by [setup_providers]: the four blocks run
    in this order on the manager under construction. *)
Definition setup_providers (X : Externals) (env : gmap string string) : Outcome LLMManager :=
  let self := mkLLMManager [] None in
  (* Gemini (default) *)
  self <~ (let gemini_key := getenv env "GEMINI_API_KEY" in
           if env_truthy gemini_key then
             max_tokens <~ getenv_int X env "GEMINI_MAX_TOKENS" "2048" ;;
             temperature <~ getenv_float X env "GEMINI_TEMPERATURE" "0.7" ;;
             let gemini_config :=
               mkLLMConfig GEMINI (default "" gemini_key)
                 (default "gemini-1.5-flash" (getenv env "GEMINI_MODEL"))
                 None (Some max_tokens) temperature 30 in
             p <~ new_GeminiProvider X gemini_config ;;
             Ret (mkLLMManager (providers_set (providers self) "gemini" p) (Some "gemini"))
           else Ret self) ;;
  (* OpenAI *)
  self <~ (let openai_key := getenv env "OPENAI_API_KEY" in
           if env_truthy openai_key then
             max_tokens <~ getenv_int X env "OPENAI_MAX_TOKENS" "2048" ;;
             temperature <~ getenv_float X env "OPENAI_TEMPERATURE" "0.7" ;;
             let openai_config :=
               mkLLMConfig OPENAI (default "" openai_key)
                 (default "gpt-4" (getenv env "OPENAI_MODEL"))
                 (getenv env "OPENAI_BASE_URL") (Some max_tokens) temperature 30 in
             p <~ new_OpenAIProvider X openai_config ;;
             Ret (mkLLMManager (providers_set (providers self) "openai" p)
                               (default_provider self))
           else Ret self) ;;
  (* Claude *)
  self <~ (let claude_key := getenv env "ANTHROPIC_API_KEY" in
           if env_truthy claude_key then
             max_tokens <~ getenv_int X env "CLAUDE_MAX_TOKENS" "2048" ;;
             temperature <~ getenv_float X env "CLAUDE_TEMPERATURE" "0.7" ;;
             let claude_config :=
               mkLLMConfig CLAUDE (default "" claude_key)
                 (default "claude-3-sonnet-20240229" (getenv env "CLAUDE_MODEL"))
                 None (Some max_tokens) temperature 30 in
             p <~ new_ClaudeProvider X claude_config ;;
             Ret (mkLLMManager (providers_set (providers self) "claude" p)
                               (default_provider self))
           else Ret self) ;;
  (* Custom LLM *)
  self <~ (let custom_key := getenv env "CUSTOM_LLM_API_KEY" in
           let custom_url := getenv env "CUSTOM_LLM_BASE_URL" in
           if env_truthy custom_key && env_truthy custom_url then
             max_tokens <~ getenv_int X env "CUSTOM_LLM_MAX_TOKENS" "2048" ;;
             temperature <~ getenv_float X env "CUSTOM_LLM_TEMPERATURE" "0.7" ;;
             let custom_config :=
               mkLLMConfig CUSTOM (default "" custom_key)
                 (default "custom" (getenv env "CUSTOM_LLM_MODEL"))
                 custom_url (Some max_tokens) temperature 30 in
             p <~ new_CustomLLMProvider custom_config ;;
             Ret (mkLLMManager (providers_set (providers self) "custom" p)
                               (default_provider self))
           else Ret self) ;;
  Ret self.

(** The response of the manager when nothing can be selected. *)
Definition no_provider_response : LLMResponse :=
  {| content := VStr ""; provider := "none"; model := "none";
     tokens_used := None; response_time := None;
     error := Some "No LLM provider available" |}.

(** [self.providers[selected_provider].generate_response(prompt, context)]. *)
Definition generate_with (X : Externals) (self : LLMManager) (selected_provider : string)
    (prompt context : Value) : M LLMResponse :=
  match providers_lookup (providers self) selected_provider with
  | Some p => provider_generate_response X p prompt context
  | None => raise (KeyError selected_provider)
  end.

(** The [elif self.default_provider: ... else: ...] part of the selection. *)
Definition generate_with_default (X : Externals) (self : LLMManager)
    (prompt context : Value) : M LLMResponse :=
  match default_provider self with
  | Some d =>
      if negb (String.eqb d "") then generate_with X self d prompt context
      else ret no_provider_response
  | None => ret no_provider_response
  end.

(** [LLMManager.generate_response].  The test
    [provider and provider in self.providers] is false for [None] and for the
    empty string, list and dictionary; a number or boolean is no key of the
    dictionary; a non-empty list or dictionary cannot be hashed. *)
Definition generate_response (X : Externals) (self : LLMManager)
    (prompt context provider : Value) : M LLMResponse :=
  match provider with
  | VStr s =>
      if negb (String.eqb s "") &&
         (match providers_lookup (providers self) s with Some _ => true | None => false end)
      then generate_with X self s prompt context
      else generate_with_default X self prompt context
  | VList (_ :: _) => raise (TypeError "unhashable type: 'list'")
  | VDict (_ :: _) => raise (TypeError "unhashable type: 'dict'")
  | _ => generate_with_default X self prompt context
  end.

Definition get_available_providers (self : LLMManager) : list string :=
  map fst (providers self).

Definition get_default_provider (self : LLMManager) : option string :=
  default_provider self.

(** [test_all_connections]: one probe per provider, in insertion order. *)
Fixpoint test_connections (X : Externals) (ps : list (string * BaseLLMProvider)) : M Dict :=
  match ps with
  | [] => ret []
  | (name, p) :: rest =>
      status <- test_connection X p ;;
      results <- test_connections X rest ;;
      ret ((name, VBool status) :: results)
  end.

Definition test_all_connections (X : Externals) (self : LLMManager) : M Dict :=
  test_connections X (providers self).

End LLM.

(** ** [openshift_cluster.py]: the cluster gateway

    Every method of [OpenShiftCluster] wraps its calls to the Kubernetes
    client in [try]/[except Exception] and answers with a fixed fallback when
    the client raises; only [_connect] re-raises. *)

Module Gateway.

(** The constructor call: [__init__(self, cluster_url, token)] takes two
    arguments besides [self]; it stores them and calls [_connect]. *)
Definition new_OpenShiftCluster (X : Externals) (args : list Value) : M OpenShiftCluster :=
  match args with
  | [url; tok] =>
      _ <- outbound (EvConnect url tok) (fun tr => k8s_connect X tr url tok) ;;
      ret (mkCluster url tok)
  | [] | [_] =>
      raise (TypeError "OpenShiftCluster.__init__() missing required positional arguments")
  | _ =>
      raise (TypeError ("OpenShiftCluster.__init__() takes 3 positional arguments but " +:+
                        NilEmpty.string_of_uint (Nat.to_uint (S (length args))) +:+
                        " were given"))
  end.

(** A method that returns a list, and [[]] when the client raises. *)
Definition list_method (X : Externals) (name : string) (self : OpenShiftCluster)
    (args : list Value) : M (list Value) :=
  try_except
    (outbound (EvCluster name args) (fun tr => k8s_list X tr name self args))
    (fun _ => ret []).

(** A method that returns a dictionary, and [on_error e] when the client
    raises. *)
Definition dict_method (X : Externals) (name : string) (self : OpenShiftCluster)
    (args : list Value) (on_error : PyExn -> Dict) : M Dict :=
  try_except
    (outbound (EvCluster name args) (fun tr => k8s_dict X tr name self args))
    (fun e => ret (on_error e)).

Definition error_dict (e : PyExn) : Dict := [("error", VStr (exn_str e))].
Definition failure_dict (e : PyExn) : Dict :=
  [("success", VBool false); ("error", VStr (exn_str e))].

Definition list_namespaces X self := list_method X "list_namespaces" self [].
Definition list_applications X self namespace := list_method X "list_applications" self [namespace].
Definition list_pods X self namespace := list_method X "list_pods" self [namespace].
Definition list_services X self namespace := list_method X "list_services" self [namespace].
Definition list_routes X self namespace := list_method X "list_routes" self [namespace].
Definition list_configmaps X self namespace := list_method X "list_configmaps" self [namespace].
Definition list_secrets X self namespace := list_method X "list_secrets" self [namespace].

Definition get_pod_logs (X : Externals) (self : OpenShiftCluster)
    (namespace pod_name tail_lines : Value) : M Value :=
  let args := [namespace; pod_name; tail_lines] in
  try_except
    (outbound (EvCluster "get_pod_logs" args) (fun tr => k8s_text X tr "get_pod_logs" self args))
    (fun e => ret (VStr ("Error retrieving logs: " +:+ exn_str e))).

Definition describe_resource X self namespace resource_type resource_name :=
  dict_method X "describe_resource" self [namespace; resource_type; resource_name] error_dict.
Definition get_namespace_info X self namespace :=
  dict_method X "get_namespace_info" self [namespace] error_dict.
Definition scale_deployment X self namespace deployment_name replicas :=
  dict_method X "scale_deployment" self [namespace; deployment_name; replicas] failure_dict.
Definition restart_deployment X self namespace deployment_name :=
  dict_method X "restart_deployment" self [namespace; deployment_name] failure_dict.
Definition get_cluster_health X self := dict_method X "get_cluster_health" self [] error_dict.
Definition get_resource_usage X self namespace :=
  dict_method X "get_resource_usage" self [namespace] error_dict.

(** The class defines no [delete_pod], [create_namespace] or
    [delete_namespace]: looking one of them up on a handle raises. *)
Definition missing_method {A : Type} (name : string) : M A :=
  raise (AttributeError "OpenShiftCluster" name).

End Gateway.

(** [str.strip()]: leading and trailing ASCII whitespace is removed. *)
Definition is_space (c : ascii) : bool :=
  let n := nat_of_ascii c in
  ((9 <=? n)%nat && (n <=? 13)%nat) || ((28 <=? n)%nat && (n <=? 32)%nat).

Fixpoint lstrip (s : string) : string :=
  match s with
  | EmptyString => EmptyString
  | String c rest => if is_space c then lstrip rest else s
  end.

Fixpoint rstrip (s : string) : string :=
  match s with
  | EmptyString => EmptyString
  | String c rest =>
      match rstrip rest with
      | EmptyString => if is_space c then EmptyString else String c EmptyString
      | r => String c r
      end
  end.

Definition py_strip (s : string) : string := rstrip (lstrip s).

Definition of_option_Z (o : option Z) : Value :=
  match o with Some z => VInt z | None => VNone end.
Definition of_option_float (o : option float) : Value :=
  match o with Some f => VFloat f | None => VNone end.
Definition of_option_str (o : option string) : Value :=
  match o with Some s => VStr s | None => VNone end.

(** [if response.error:] for an optional string. *)
Definition error_set (o : option string) : bool :=
  match o with Some s => negb (String.eqb s "") | None => false end.

(** ** [old/openshift_mcp_server_with_llm.py]: the LLM-enabled server *)

Module EnhancedOpenShiftMCPServer.

Import LLM.

Section Handlers.

Variable X : Externals.
(** The module-level [llm_manager], built once when the module is loaded. *)
Variable llm_manager : LLMManager.

Definition not_connected : Dict :=
  [("error", VStr "Not connected to cluster. Use connect_cluster first.")].

Definition error_result (msg : string) : Dict := [("error", VStr msg)].

(** The guard that opens every cluster handler: [if not cluster: return ...]. *)
Definition with_cluster (k : OpenShiftCluster -> M Dict) : M Dict :=
  c <- get_cluster ;;
  match c with
  | None => ret not_connected
  | Some h => k h
  end.

Definition _handle_connect_cluster (arguments : ArgumentBag) : M Dict :=
  let cluster_url := args_get arguments "cluster_url" in
  let token := args_get arguments "token" in
  let verify_ssl := args_get_default arguments "verify_ssl" (VBool true) in
  if negb (truthy cluster_url) || negb (truthy token) then
    ret (error_result "cluster_url and token are required")
  else
    c <- Gateway.new_OpenShiftCluster X [cluster_url; token; verify_ssl] ;;
    _ <- set_cluster c ;;
    ret [("message", VStr ("Successfully connected to cluster: " +:+ py_str X cluster_url))].

Definition _handle_list_namespaces : M Dict :=
  with_cluster (fun cluster =>
    namespaces <- Gateway.list_namespaces X cluster ;;
    ret [("namespaces", VList namespaces)]).

(** The shape shared by the six listings that take a namespace. *)
Definition handle_listing (arguments : ArgumentBag)
    (method : Externals -> OpenShiftCluster -> Value -> M (list Value)) (key : string)
    : M Dict :=
  with_cluster (fun cluster =>
    let namespace := args_get arguments "namespace" in
    if negb (truthy namespace) then ret (error_result "namespace is required")
    else
      items <- method X cluster namespace ;;
      ret [(key, VList items)]).

Definition _handle_list_applications arguments :=
  handle_listing arguments Gateway.list_applications "applications".
Definition _handle_list_pods arguments :=
  handle_listing arguments Gateway.list_pods "pods".
Definition _handle_list_services arguments :=
  handle_listing arguments Gateway.list_services "services".
Definition _handle_list_routes arguments :=
  handle_listing arguments Gateway.list_routes "routes".
Definition _handle_list_configmaps arguments :=
  handle_listing arguments Gateway.list_configmaps "configmaps".
Definition _handle_list_secrets arguments :=
  handle_listing arguments Gateway.list_secrets "secrets".

Definition _handle_get_pod_logs (arguments : ArgumentBag) : M Dict :=
  with_cluster (fun cluster =>
    let namespace := args_get arguments "namespace" in
    let pod_name := args_get arguments "pod_name" in
    let tail_lines := args_get_default arguments "tail_lines" (VInt 100) in
    if negb (truthy namespace) || negb (truthy pod_name) then
      ret (error_result "namespace and pod_name are required")
    else
      logs <- Gateway.get_pod_logs X cluster namespace pod_name tail_lines ;;
      ret [("logs", logs)]).

Definition _handle_get_resource_usage (arguments : ArgumentBag) : M Dict :=
  with_cluster (fun cluster =>
    let namespace := args_get arguments "namespace" in
    if negb (truthy namespace) then ret (error_result "namespace is required")
    else
      usage <- Gateway.get_resource_usage X cluster namespace ;;
      ret [("resource_usage", VDict usage)]).

Definition _handle_scale_deployment (arguments : ArgumentBag) : M Dict :=
  with_cluster (fun cluster =>
    let namespace := args_get arguments "namespace" in
    let deployment_name := args_get arguments "deployment_name" in
    let replicas := args_get arguments "replicas" in
    if negb (truthy namespace) || negb (truthy deployment_name) ||
       (match replicas with VNone => true | _ => false end) then
      ret (error_result "namespace, deployment_name, and replicas are required")
    else
      result <- Gateway.scale_deployment X cluster namespace deployment_name replicas ;;
      ret [("result", VDict result)]).

Definition _handle_delete_pod (arguments : ArgumentBag) : M Dict :=
  with_cluster (fun cluster =>
    let namespace := args_get arguments "namespace" in
    let pod_name := args_get arguments "pod_name" in
    if negb (truthy namespace) || negb (truthy pod_name) then
      ret (error_result "namespace and pod_name are required")
    else
      result <- Gateway.missing_method "delete_pod" ;;
      ret [("result", result)]).

Definition _handle_create_namespace (arguments : ArgumentBag) : M Dict :=
  with_cluster (fun cluster =>
    let name := args_get arguments "name" in
    let labels := args_get_default arguments "labels" (VDict []) in
    if negb (truthy name) then ret (error_result "name is required")
    else
      result <- Gateway.missing_method "create_namespace" ;;
      ret [("result", result)]).

Definition _handle_delete_namespace (arguments : ArgumentBag) : M Dict :=
  with_cluster (fun cluster =>
    let name := args_get arguments "name" in
    if negb (truthy name) then ret (error_result "name is required")
    else
      result <- Gateway.missing_method "delete_namespace" ;;
      ret [("result", result)]).

Definition _handle_ask_llm (arguments : ArgumentBag) : M Dict :=
  let question := args_get arguments "question" in
  let context := args_get_default arguments "context" (VStr "") in
  let provider := args_get arguments "provider" in
  if negb (truthy question) then ret (error_result "question is required")
  else
    c <- get_cluster ;;
    let context :=
      match c with
      | Some cluster =>
          let cluster_context :=
            "Connected to OpenShift cluster: " +:+ py_str X (cluster_url cluster) in
          if truthy context
          then VStr (cluster_context +:+ NL +:+ NL +:+ py_str X context)
          else VStr cluster_context
      | None => context
      end in
    response <- generate_response X llm_manager question context provider ;;
    if error_set (error response) then
      ret (error_result ("LLM error: " +:+ default "" (error response)))
    else
      ret [("response", content response);
           ("provider", VStr (LLM.provider response));
           ("model", VStr (model response));
           ("response_time", of_option_float (response_time response));
           ("tokens_used", of_option_Z (tokens_used response))].

Definition _handle_get_llm_providers : M Dict :=
  let providers := get_available_providers llm_manager in
  let dflt := get_default_provider llm_manager in
  ret [("available_providers", VList (map VStr providers));
       ("default_provider", of_option_str dflt);
       ("total_providers", VInt (Z.of_nat (length providers)))].

Definition _handle_test_llm_connection (arguments : ArgumentBag) : M Dict :=
  let provider := args_get arguments "provider" in
  if truthy provider then
    match provider with
    | VStr s =>
        match providers_lookup (providers llm_manager) s with
        | Some p =>
            status <- test_connection X p ;;
            ret [(s, VBool status)]
        | None => ret (error_result ("Provider '" +:+ py_str X provider +:+ "' not found"))
        end
    | VList _ => raise (TypeError "unhashable type: 'list'")
    | VDict _ => raise (TypeError "unhashable type: 'dict'")
    | _ => ret (error_result ("Provider '" +:+ py_str X provider +:+ "' not found"))
    end
  else
    results <- test_all_connections X llm_manager ;;
    ret [("connection_results", VDict results)].

(** [[ns['name'] for ns in namespaces[:5]]]. *)
Fixpoint names_of (namespaces : list Value) : Outcome (list Value) :=
  match namespaces with
  | [] => Ret []
  | ns :: rest =>
      n <~ py_getitem ns "name" ;;
      ns' <~ names_of rest ;;
      Ret (n :: ns')
  end.

Definition count (l : list Value) : string := py_str X (VInt (Z.of_nat (length l))).

Definition _handle_intelligent_cluster_analysis (arguments : ArgumentBag) : M Dict :=
  with_cluster (fun cluster =>
    let namespace := args_get arguments "namespace" in
    let provider := args_get arguments "provider" in
    try_except
      (namespaces <- Gateway.list_namespaces X cluster ;;
       context <-
         (if truthy namespace then
            pods <- Gateway.list_pods X cluster namespace ;;
            services <- Gateway.list_services X cluster namespace ;;
            routes <- Gateway.list_routes X cluster namespace ;;
            ret (NL +:+ "Cluster Information:" +:+ NL +:+
                 "- Total namespaces: " +:+ count namespaces +:+ NL +:+
                 "- Current namespace: " +:+ py_str X namespace +:+ NL +:+
                 "- Pods in namespace: " +:+ count pods +:+ NL +:+
                 "- Services in namespace: " +:+ count services +:+ NL +:+
                 "- Routes in namespace: " +:+ count routes +:+ NL)
          else
            names <- lift (names_of (py_slice_to 5 namespaces)) ;;
            ret (NL +:+ "Cluster Information:" +:+ NL +:+
                 "- Total namespaces: " +:+ count namespaces +:+ NL +:+
                 "- Namespace names: " +:+ py_str X (VList names) +:+ NL)) ;;
       let prompt :=
         NL +:+ "Please analyze this OpenShift cluster and provide:" +:+ NL +:+
         "1. Overall health assessment" +:+ NL +:+
         "2. Key observations" +:+ NL +:+
         "3. Recommendations for optimization" +:+ NL +:+
         "4. Potential issues to watch for" +:+ NL +:+ NL +:+
         context +:+ NL in
       response <- generate_response X llm_manager (VStr prompt) (VStr context) provider ;;
       if error_set (error response) then
         ret (error_result ("LLM analysis failed: " +:+ default "" (error response)))
       else
         ret [("analysis", content response);
              ("provider", VStr (LLM.provider response));
              ("model", VStr (model response));
              ("cluster_info", VStr (py_strip context));
              ("response_time", of_option_float (response_time response))])
      (fun e => ret (error_result ("Failed to gather cluster information: " +:+ exn_str e)))).

Definition _handle_get_troubleshooting_help (arguments : ArgumentBag) : M Dict :=
  let issue_description := args_get arguments "issue_description" in
  let error_messages := args_get_default arguments "error_messages" (VStr "") in
  let provider := args_get arguments "provider" in
  if negb (truthy issue_description) then ret (error_result "issue_description is required")
  else
    c <- get_cluster ;;
    context <-
      match c with
      | Some cluster =>
          try_except
            (namespaces <- Gateway.list_namespaces X cluster ;;
             ret ("Connected to OpenShift cluster with " +:+ count namespaces +:+ " namespaces."))
            (fun _ => ret "Connected to OpenShift cluster.")
      | None => ret ""
      end ;;
    let prompt :=
      NL +:+ "I'm experiencing an OpenShift issue and need help troubleshooting:" +:+ NL +:+ NL +:+
      "Issue: " +:+ py_str X issue_description +:+ NL +:+ NL +:+
      (if truthy error_messages then "Error messages/logs: " +:+ py_str X error_messages else "")
      +:+ NL +:+ NL +:+
      context +:+ NL +:+ NL +:+
      "Please provide:" +:+ NL +:+
      "1. Possible causes of this issue" +:+ NL +:+
      "2. Step-by-step troubleshooting steps" +:+ NL +:+
      "3. Commands to run for diagnosis" +:+ NL +:+
      "4. Prevention tips for the future" +:+ NL +:+
      "5. When to contact support" +:+ NL in
    response <- generate_response X llm_manager (VStr prompt) (VStr context) provider ;;
    if error_set (error response) then
      ret (error_result ("Troubleshooting help failed: " +:+ default "" (error response)))
    else
      ret [("troubleshooting_help", content response);
           ("provider", VStr (LLM.provider response));
           ("model", VStr (model response));
           ("response_time", of_option_float (response_time response))].

(** The [if]/[elif] chain inside the [try] of [call_tool]. *)
Definition call_tool_body (name : string) (arguments : ArgumentBag) : M Dict :=
  if String.eqb name "connect_cluster" then _handle_connect_cluster arguments
  else if String.eqb name "list_namespaces" then _handle_list_namespaces
  else if String.eqb name "list_applications" then _handle_list_applications arguments
  else if String.eqb name "list_pods" then _handle_list_pods arguments
  else if String.eqb name "list_services" then _handle_list_services arguments
  else if String.eqb name "list_routes" then _handle_list_routes arguments
  else if String.eqb name "list_configmaps" then _handle_list_configmaps arguments
  else if String.eqb name "list_secrets" then _handle_list_secrets arguments
  else if String.eqb name "get_pod_logs" then _handle_get_pod_logs arguments
  else if String.eqb name "get_resource_usage" then _handle_get_resource_usage arguments
  else if String.eqb name "scale_deployment" then _handle_scale_deployment arguments
  else if String.eqb name "delete_pod" then _handle_delete_pod arguments
  else if String.eqb name "create_namespace" then _handle_create_namespace arguments
  else if String.eqb name "delete_namespace" then _handle_delete_namespace arguments
  else if String.eqb name "ask_llm" then _handle_ask_llm arguments
  else if String.eqb name "get_llm_providers" then _handle_get_llm_providers
  else if String.eqb name "test_llm_connection" then _handle_test_llm_connection arguments
  else if String.eqb name "intelligent_cluster_analysis" then
    _handle_intelligent_cluster_analysis arguments
  else if String.eqb name "get_troubleshooting_help" then
    _handle_get_troubleshooting_help arguments
  else ret (error_result ("Unknown tool: " +:+ name)).

(** [call_tool]: the chain runs inside [try]; [except Exception as e] answers
    [{"error": str(e)}]. *)
Definition call_tool (name : string) (arguments : ArgumentBag) : M Dict :=
  try_except (call_tool_body name arguments)
             (fun e => ret (error_result (exn_str e))).

End Handlers.

(** The [required] lists of the input schemas published by [list_tools]. *)
Definition tool_schemas : list (string * list string) :=
  [ ("connect_cluster", ["cluster_url"; "token"]);
    ("list_namespaces", []);
    ("list_applications", ["namespace"]);
    ("list_pods", ["namespace"]);
    ("list_services", ["namespace"]);
    ("list_routes", ["namespace"]);
    ("list_configmaps", ["namespace"]);
    ("list_secrets", ["namespace"]);
    ("get_pod_logs", ["namespace"; "pod_name"]);
    ("get_resource_usage", ["namespace"]);
    ("scale_deployment", ["namespace"; "deployment_name"; "replicas"]);
    ("delete_pod", ["namespace"; "pod_name"]);
    ("create_namespace", ["name"]);
    ("delete_namespace", ["name"]);
    ("ask_llm", ["question"]);
    ("get_llm_providers", []);
    ("test_llm_connection", []);
    ("intelligent_cluster_analysis", []);
    ("get_troubleshooting_help", ["issue_description"]) ].

(** The tools whose handler starts with the [if not cluster] guard and
    that the dispatcher contract calls cluster tools. *)
Definition cluster_tools : list string :=
  [ "list_namespaces"; "list_applications"; "list_pods"; "list_services"; "list_routes";
    "list_configmaps"; "list_secrets"; "get_pod_logs"; "get_resource_usage";
    "scale_deployment"; "delete_pod"; "create_namespace"; "delete_namespace" ].

(** [main]: the auto-connect at start-up passes three arguments to the
    constructor as well, inside [try]/[except Exception] that only logs. *)
Definition main_auto_connect (X : Externals) (env : gmap string string) : M unit :=
  let cluster_url := getenv env "OPENSHIFT_CLUSTER_URL" in
  let token := getenv env "OPENSHIFT_TOKEN" in
  let verify_ssl :=
    String.eqb (lower (default "true" (getenv env "OPENSHIFT_VERIFY_SSL"))) "true" in
  if env_truthy cluster_url && env_truthy token then
    try_except
      (c <- Gateway.new_OpenShiftCluster X
              [of_option_str cluster_url; of_option_str token; VBool verify_ssl] ;;
       set_cluster c)
      (fun _ => ret tt)
  else ret tt.

End EnhancedOpenShiftMCPServer.

(** ** [openshift_mcp_server.py]: the base server

    [handle_call_tool] is a module-level function; it answers with one text
    block.  The texts that are assembled from well-formed gateway data are
    left to the oracle [render_text]; guards, argument look-ups, fixed
    messages and the order of evaluation are written out. *)

Module OpenShiftMCPServer.

Section Handler.

Variable X : Externals.

Definition not_connected : string :=
  "Error: Not connected to a cluster. Please connect first using connect_cluster.".

(** Names bound in the body of [handle_call_tool]: its parameters, the
    targets of its assignments and loops, and the nested [def] that follows
    the [try] statement. *)
Definition handler_locals : list string :=
  [ "name"; "arguments"; "cluster_url"; "token"; "namespaces"; "result"; "ns";
    "namespace"; "applications"; "app"; "pods"; "pod"; "services"; "service";
    "ports_str"; "routes"; "route"; "pod_name"; "tail_lines"; "logs";
    "resource_type"; "resource_name"; "resource_info"; "namespace_info";
    "configmaps"; "configmap"; "secrets"; "secret"; "deployment_name"; "replicas";
    "response"; "health_info"; "node"; "status_icon"; "usage_info"; "e";
    "_format_memory" ].

(** Names bound at module level. *)
Definition module_globals : list string :=
  [ "asyncio"; "json"; "logging"; "os"; "Any"; "Dict"; "List"; "Optional"; "Sequence";
    "urlparse"; "mcp"; "client"; "config"; "ApiException"; "openshift_client";
    "DynamicClient"; "BaseModel"; "logger"; "server"; "OpenShiftCluster"; "cluster";
    "handle_list_tools"; "handle_call_tool"; "main" ].

(** The built-in names that the handler uses. *)
Definition builtins : list string := [ "len"; "str"; "Exception"; "ImportError" ].

(** Loading a name inside [handle_call_tool]: locals, then globals, then
    built-ins; anything else is a [NameError]. *)
Definition load_name (n : string) : Outcome unit :=
  if existsb (String.eqb n) (handler_locals ++ module_globals ++ builtins) then Ret tt
  else Raise (NameError n).

(** The guard of every branch but [connect_cluster]. *)
Definition with_cluster (k : OpenShiftCluster -> M string) : M string :=
  c <- get_cluster ;;
  match c with
  | None => ret not_connected
  | Some h => k h
  end.

(** A listing of one namespace: the gateway list is rendered when it is not
    empty. *)
Definition handle_listing (tool what : string) (arguments : ArgumentBag)
    (method : Externals -> OpenShiftCluster -> Value -> M (list Value)) : M string :=
  with_cluster (fun cluster =>
    namespace <- lift (args_getitem arguments "namespace") ;;
    items <- method X cluster namespace ;;
    if truthy (VList items) then lift (render_text X tool [namespace; VList items])
    else ret ("No " +:+ what +:+ " found in namespace '" +:+ py_str X namespace +:+
              "' or error occurred.")).

(** The branch for [get_resource_usage]. *)
Definition handle_get_resource_usage (arguments : ArgumentBag) : M string :=
  with_cluster (fun cluster =>
    namespace <- lift (args_getitem arguments "namespace") ;;
    usage_info <- Gateway.get_resource_usage X cluster namespace ;;
    if negb (dict_has usage_info "error") then
      (* response = f"... **Resource Usage for namespace '{namespace}'**\n\n"
         response += f"... **Total Resource Requests:**\n"
         response += f"- CPU: {usage_info['total_cpu_request']:.2f} cores\n" *)
      cpu <- lift (dict_getitem usage_info "total_cpu_request") ;;
      cpu_text <- lift (format_2f X cpu) ;;
      (* response += f"- Memory: {self._format_memory(...)}\n\n":
         the callee is evaluated first, and with it the name [self] *)
      _ <- lift (load_name "self") ;;
      lift (render_text X "get_resource_usage" [namespace; VDict usage_info])
    else
      ret ("âŒ **Error getting resource usage**: " +:+
           py_str X (default VNone (dict_lookup usage_info "error")))).

(** The [if]/[elif] chain inside the [try] of [handle_call_tool]. *)
Definition handle_call_tool_body (name : string) (arguments : ArgumentBag) : M string :=
  if String.eqb name "connect_cluster" then
    cluster_url <- lift (args_getitem arguments "cluster_url") ;;
    token <- lift (args_getitem arguments "token") ;;
    c <- Gateway.new_OpenShiftCluster X [cluster_url; token] ;;
    _ <- set_cluster c ;;
    ret ("Successfully connected to OpenShift cluster: " +:+ py_str X cluster_url)
  else if String.eqb name "list_namespaces" then
    with_cluster (fun cluster =>
      namespaces <- Gateway.list_namespaces X cluster ;;
      if truthy (VList namespaces) then lift (render_text X name [VList namespaces])
      else ret "No namespaces found or error occurred.")
  else if String.eqb name "list_applications" then
    handle_listing name "applications" arguments Gateway.list_applications
  else if String.eqb name "list_pods" then
    handle_listing name "pods" arguments Gateway.list_pods
  else if String.eqb name "list_services" then
    handle_listing name "services" arguments Gateway.list_services
  else if String.eqb name "list_routes" then
    handle_listing name "routes" arguments Gateway.list_routes
  else if String.eqb name "get_pod_logs" then
    with_cluster (fun cluster =>
      namespace <- lift (args_getitem arguments "namespace") ;;
      pod_name <- lift (args_getitem arguments "pod_name") ;;
      let tail_lines := args_get_default arguments "tail_lines" (VInt 100) in
      logs <- Gateway.get_pod_logs X cluster namespace pod_name tail_lines ;;
      ret ("**Logs for pod '" +:+ py_str X pod_name +:+ "' in namespace '" +:+
           py_str X namespace +:+ "':**" +:+ NL +:+ NL +:+ "```" +:+ NL +:+
           py_str X logs +:+ NL +:+ "```"))
  else if String.eqb name "describe_resource" then
    with_cluster (fun cluster =>
      namespace <- lift (args_getitem arguments "namespace") ;;
      resource_type <- lift (args_getitem arguments "resource_type") ;;
      resource_name <- lift (args_getitem arguments "resource_name") ;;
      resource_info <- Gateway.describe_resource X cluster namespace resource_type resource_name ;;
      lift (render_text X name [namespace; resource_type; resource_name; VDict resource_info]))
  else if String.eqb name "get_namespace_info" then
    with_cluster (fun cluster =>
      namespace <- lift (args_getitem arguments "namespace") ;;
      namespace_info <- Gateway.get_namespace_info X cluster namespace ;;
      if negb (dict_has namespace_info "error") then
        lift (render_text X name [namespace; VDict namespace_info])
      else
        ret ("Error getting namespace info: " +:+
             py_str X (default VNone (dict_lookup namespace_info "error"))))
  else if String.eqb name "list_configmaps" then
    handle_listing name "configmaps" arguments Gateway.list_configmaps
  else if String.eqb name "list_secrets" then
    handle_listing name "secrets" arguments Gateway.list_secrets
  else if String.eqb name "scale_deployment" then
    with_cluster (fun cluster =>
      namespace <- lift (args_getitem arguments "namespace") ;;
      deployment_name <- lift (args_getitem arguments "deployment_name") ;;
      replicas <- lift (args_getitem arguments "replicas") ;;
      result <- Gateway.scale_deployment X cluster namespace deployment_name replicas ;;
      success <- lift (dict_getitem result "success") ;;
      if truthy success then lift (render_text X name [VDict result])
      else
        err <- lift (dict_getitem result "error") ;;
        ret ("âŒ **Error scaling deployment**: " +:+ py_str X err))
  else if String.eqb name "restart_deployment" then
    with_cluster (fun cluster =>
      namespace <- lift (args_getitem arguments "namespace") ;;
      deployment_name <- lift (args_getitem arguments "deployment_name") ;;
      result <- Gateway.restart_deployment X cluster namespace deployment_name ;;
      success <- lift (dict_getitem result "success") ;;
      if truthy success then lift (render_text X name [VDict result])
      else
        err <- lift (dict_getitem result "error") ;;
        ret ("âŒ **Error restarting deployment**: " +:+ py_str X err))
  else if String.eqb name "get_cluster_health" then
    with_cluster (fun cluster =>
      health_info <- Gateway.get_cluster_health X cluster ;;
      if negb (dict_has health_info "error") then
        lift (render_text X name [VDict health_info])
      else
        ret ("âŒ **Error getting cluster health**: " +:+
             py_str X (default VNone (dict_lookup health_info "error"))))
  else if String.eqb name "get_resource_usage" then
    handle_get_resource_usage arguments
  else ret ("Unknown tool: " +:+ name).

(** [handle_call_tool]: [except Exception as e] answers with the catch-all
    text. *)
Definition handle_call_tool (name : string) (arguments : ArgumentBag) : M string :=
  try_except (handle_call_tool_body name arguments)
             (fun e => ret ("Error executing tool '" +:+ name +:+ "': " +:+ exn_str e)).

End Handler.

(** The tools of this server that need a cluster handle. *)
Definition cluster_tools : list string :=
  [ "list_namespaces"; "list_applications"; "list_pods"; "list_services"; "list_routes";
    "get_pod_logs"; "describe_resource"; "get_namespace_info"; "list_configmaps";
    "list_secrets"; "scale_deployment"; "restart_deployment"; "get_cluster_health";
    "get_resource_usage" ].

End OpenShiftMCPServer.

(** ** A concrete outside world, to run the definitions on examples *)

(** Decimal digits with an optional sign. *)
Fixpoint digits_value (s : string) (acc : Z) : option Z :=
  match s with
  | EmptyString => Some acc
  | String c rest =>
      let n := nat_of_ascii c in
      if (48 <=? n)%nat && (n <=? 57)%nat
      then digits_value rest (acc * 10 + Z.of_nat (n - 48))
      else None
  end.

Definition parse_decimal (s : string) : option Z :=
  match s with
  | EmptyString => None
  | String "-" rest => match rest with
                       | EmptyString => None
                       | _ => option_map Z.opp (digits_value rest 0)
                       end
  | _ => digits_value s 0
  end.

(** A quiet world: every outbound call succeeds with an empty answer, vendors
    answer ["ok"], and only the strings among the values are printed. *)
Definition quiet_world : Externals :=
  {| py_str := fun v => match v with VStr s => s | _ => "" end;
     py_int := parse_decimal;
     py_float := fun _ => Some 0.5%float;
     fmt_2f_float := fun _ => "0.00";
     fmt_2f_int := fun _ => "0.00";
     clock_elapsed := fun _ => 0%float;
     k8s_connect := fun _ _ _ => Ret tt;
     k8s_list := fun _ _ _ _ => Ret [];
     k8s_text := fun _ _ _ _ => Ret (VStr "");
     k8s_dict := fun _ _ _ _ => Ret [];
     genai_generate_content := fun _ _ _ => Ret (VStr "ok");
     openai_chat_create := fun _ _ _ => Ret (VStr "ok", None);
     anthropic_messages_create := fun _ _ _ => Ret (VStr "ok", None);
     requests_post_generate := fun _ _ _ => Ret [("response", VStr "ok")];
     vendor_probe := fun _ _ => Ret 200%Z;
     vendor_client := fun _ => Ret tt;
     render_text := fun _ _ => Ret "" |}.

(** A world in which every outbound call raises; the SDK objects of the
    providers can still be built. *)
Definition failing_world : Externals :=
  let boom := mkExn "RuntimeError" "connection refused" in
  {| py_str := fun v => match v with VStr s => s | _ => "" end;
     py_int := parse_decimal;
     py_float := fun _ => Some 0.5%float;
     fmt_2f_float := fun _ => "0.00";
     fmt_2f_int := fun _ => "0.00";
     clock_elapsed := fun _ => 0%float;
     k8s_connect := fun _ _ _ => Raise boom;
     k8s_list := fun _ _ _ _ => Raise boom;
     k8s_text := fun _ _ _ _ => Raise boom;
     k8s_dict := fun _ _ _ _ => Raise boom;
     genai_generate_content := fun _ _ _ => Raise boom;
     openai_chat_create := fun _ _ _ => Raise boom;
     anthropic_messages_create := fun _ _ _ => Raise boom;
     requests_post_generate := fun _ _ _ => Raise boom;
     vendor_probe := fun _ _ => Raise boom;
     vendor_client := fun _ => Ret tt;
     render_text := fun _ _ => Raise boom |}.

Definition no_cluster : World := mkWorld None [].
Definition some_cluster : World :=
  mkWorld (Some (mkCluster (VStr "https://api.example:6443") (VStr "sha256~t"))) [].

(** ** Vocabulary of the statements *)

(** One interaction, as [add_to_history] receives it: time stamp, query,
    response, tool and elapsed time. *)
Record Interaction : Type := mkInteraction {
  i_timestamp : string;
  i_query : string;
  i_response : string;
  i_tool : string;
  i_time : float
}.

(** The dictionary that [add_to_history] stores for an interaction. *)
Definition record_of (x : Interaction) : Dict :=
  [ ("timestamp", VStr (i_timestamp x));
    ("user_query", VStr (i_query x));
    ("response", VStr (i_response x));
    ("tool_used", VStr (i_tool x));
    ("execution_time", VFloat (i_time x)) ].

(** A session of the direct client: [add_to_history] once per interaction,
    oldest first. *)
Definition client_session (xs : list Interaction) (history : list Dict) : list Dict :=
  fold_left
    (fun h x => DirectMCPClient.add_to_history (i_timestamp x) h
                  (i_query x) (i_response x) (i_tool x) (i_time x))
    xs history.

(** The same for the working host. *)
Definition host_session (xs : list Interaction) (history : list Dict) : list Dict :=
  fold_left
    (fun h x => WorkingOpenShiftHostApp.add_to_history (i_timestamp x) h
                  (i_query x) (i_response x) (i_tool x) (i_time x))
    xs history.

(** The lines that the direct client prints for interaction number [i]. *)
Definition entry_lines (X : Externals) (i : Z) (x : Interaction) : list string :=
  [ py_str X (VInt i) +:+ ". Query: " +:+ py_str X (VStr (str_slice_to 50 (i_query x))) +:+ "...";
    "   Tool: " +:+ py_str X (VStr (i_tool x)) +:+ " | Time: " +:+ fmt_2f_float X (i_time x) +:+ "s";
    "" ].

Fixpoint numbered_lines (X : Externals) (i : Z) (xs : list Interaction) : list string :=
  match xs with
  | [] => []
  | x :: rest => entry_lines X i x ++ numbered_lines X (i + 1) rest
  end.

(** Seven interactions, numbered in their text. *)
Definition interaction (n : string) : Interaction :=
  mkInteraction ("2024-01-01T00:00:0" +:+ n) ("query " +:+ n) ("response " +:+ n) "ask_llm" 0%float.

Definition seven_interactions : list Interaction :=
  map interaction ["1"; "2"; "3"; "4"; "5"; "6"; "7"].

(** An error message names a key and says that it is required. *)
Definition says_required (msg key : string) : bool :=
  py_in key msg && (py_in " is required" msg || py_in " are required" msg).

(** The explicit provider argument names no configured provider: it is absent
    or a string that is no key of [providers]. *)
Definition names_no_provider (self : LLM.LLMManager) (provider : Value) : Prop :=
  provider = VNone \/
  exists s, provider = VStr s /\ LLM.providers_lookup (LLM.providers self) s = None.

(** The provider keys in the order in which [setup_providers] visits them. *)
Definition preference_order : list string := ["gemini"; "openai"; "claude"; "custom"].

(** A provider key is configured when its API key (and, for the custom
    provider, its base URL) is set to a non-empty string. *)
Definition configured (env : gmap string string) (k : string) : bool :=
  if String.eqb k "gemini" then LLM.env_truthy (LLM.getenv env "GEMINI_API_KEY")
  else if String.eqb k "openai" then LLM.env_truthy (LLM.getenv env "OPENAI_API_KEY")
  else if String.eqb k "claude" then LLM.env_truthy (LLM.getenv env "ANTHROPIC_API_KEY")
  else if String.eqb k "custom" then
    LLM.env_truthy (LLM.getenv env "CUSTOM_LLM_API_KEY") &&
    LLM.env_truthy (LLM.getenv env "CUSTOM_LLM_BASE_URL")
  else false.

(** [if response.error:] implies [response.content == ""]. *)
Definition error_implies_empty (r : LLM.LLMResponse) : Prop :=
  error_set (LLM.error r) = true -> LLM.content r = VStr "".

(** The tool is one of the cluster tools of the LLM-enabled server. *)
Definition needs_cluster (name : string) : bool :=
  existsb (String.eqb name) EnhancedOpenShiftMCPServer.cluster_tools.

(** Example environments and managers. *)
Definition gemini_openai_env : gmap string string :=
  {[ "GEMINI_API_KEY" := "g-key"; "OPENAI_API_KEY" := "sk-key" ]}.

Definition openai_only_env : gmap string string :=
  {[ "OPENAI_API_KEY" := "sk-test" ]}.

Definition no_providers : LLM.LLMManager := LLM.mkLLMManager [] None.

Definition gemini_manager : LLM.LLMManager :=
  LLM.mkLLMManager
    [("gemini", LLM.GeminiProvider
                  (mkLLMConfig GEMINI "g-key" "gemini-1.5-flash" None (Some 2048%Z) 0.5%float 30))]
    (Some "gemini").

(** A usage dictionary as [OpenShiftCluster.get_resource_usage] builds it for
    a namespace without pods, and a world whose cluster answers with it. *)
Definition usage_ok : Dict :=
  [ ("namespace", VStr "demo"); ("pods", VList []);
    ("total_cpu_request", VInt 0); ("total_memory_request", VInt 0);
    ("total_cpu_limit", VInt 0); ("total_memory_limit", VInt 0) ].

Definition usage_world : Externals :=
  {| py_str := py_str quiet_world;
     py_int := py_int quiet_world;
     py_float := py_float quiet_world;
     fmt_2f_float := fmt_2f_float quiet_world;
     fmt_2f_int := fmt_2f_int quiet_world;
     clock_elapsed := clock_elapsed quiet_world;
     k8s_connect := k8s_connect quiet_world;
     k8s_list := k8s_list quiet_world;
     k8s_text := k8s_text quiet_world;
     k8s_dict := fun _ _ _ _ => Ret usage_ok;
     genai_generate_content := genai_generate_content quiet_world;
     openai_chat_create := openai_chat_create quiet_world;
     anthropic_messages_create := anthropic_messages_create quiet_world;
     requests_post_generate := requests_post_generate quiet_world;
     vendor_probe := vendor_probe quiet_world;
     vendor_client := vendor_client quiet_world;
     render_text := fun _ _ => Ret "formatted report" |}.

(** ** Further vocabulary: sessions, traces and tables of tools *)

(** A computation leaves the global cluster handle as it found it. *)
Definition keeps_handle {A : Type} (m : M A) : Prop :=
  forall w, cluster (snd (m w)) = cluster w.

(** What a listing method of the gateway hands back: the list of the
    Kubernetes client, or the empty list when the client raised. *)
Definition client_list (X : Externals) (tr : list Event) (name : string)
    (h : OpenShiftCluster) (args : list Value) : list Value :=
  match k8s_list X tr name h args with Ret l => l | Raise _ => [] end.

(** The six listings that take a namespace, with the key (LLM-enabled
    server) or the noun (base server) of their answer. *)
Definition listing_tools : list (string * string) :=
  [ ("list_applications", "applications"); ("list_pods", "pods");
    ("list_services", "services"); ("list_routes", "routes");
    ("list_configmaps", "configmaps"); ("list_secrets", "secrets") ].

(** The tools of the base server that start by reading
    [arguments["namespace"]]. *)
Definition namespace_tools : list string :=
  [ "list_applications"; "list_pods"; "list_services"; "list_routes"; "get_pod_logs";
    "describe_resource"; "get_namespace_info"; "list_configmaps"; "list_secrets";
    "scale_deployment"; "restart_deployment"; "get_resource_usage" ].

(** The cluster calls with which [intelligent_cluster_analysis] gathers its
    snapshot, in order. *)
Definition analysis_calls (ns : Value) : list Event :=
  EvCluster "list_namespaces" [] ::
  (if truthy ns
   then [ EvCluster "list_pods" [ns]; EvCluster "list_services" [ns];
          EvCluster "list_routes" [ns] ]
   else []).

(** Tool calls handled one after the other by the LLM-enabled server: the
    answers, oldest first, and the world that is left. *)
Fixpoint serve (X : Externals) (mgr : LLM.LLMManager)
    (calls : list (string * ArgumentBag)) (w : World) : list (Outcome Dict) * World :=
  match calls with
  | [] => ([], w)
  | (name, arguments) :: rest =>
      let '(r, w') := EnhancedOpenShiftMCPServer.call_tool X mgr name arguments w in
      let '(rs, w'') := serve X mgr rest w' in
      (r :: rs, w'')
  end.

(** The environment variable that holds the API key of a provider. *)
Definition api_key_variable (k : string) : string :=
  if String.eqb k "gemini" then "GEMINI_API_KEY"
  else if String.eqb k "openai" then "OPENAI_API_KEY"
  else if String.eqb k "claude" then "ANTHROPIC_API_KEY"
  else "CUSTOM_LLM_API_KEY".

(** The tools that [simulate_mcp_tool_execution] of the direct client knows. *)
Definition simulated_tools : list string :=
  [ "list_namespaces"; "list_pods"; "connect_cluster"; "ask_llm" ].

(** One query of a client session: the text, and the clock readings taken
    while it is processed. *)
Record Query : Type := mkQuery {
  q_text : string;
  q_timestamp : string;
  q_time : float
}.

(** A session of the direct client: [process_user_query] once per query. *)
Definition query_session (run_tool : string -> ArgumentBag -> Outcome string)
    (qs : list Query) (history : list Dict) : list Dict :=
  fold_left
    (fun h q => snd (DirectMCPClient.process_user_query run_tool
                       (q_timestamp q) (q_time q) h (q_text q)))
    qs history.

(** ** The tools of the direct client

    [simulate_mcp_tool_execution] of [mcp_client/direct_mcp_client.py] and the
    direct cluster access behind it.  [json_dumps] stands for
    [json.dumps(..., indent=2)], [test_llm_integration] for the method of
    that name, which runs the LLM on an event loop of its own, and
    [import_OpenShiftCluster] for the outcome of the statement
    [from openshift_cluster import OpenShiftCluster]. *)

Module DirectMCPClientTools.

Section Tools.

Variable X : Externals.
Variable json_dumps : Value -> Outcome string.
Variable test_llm_integration : M string.
(** The process environment. *)
Variable env : gmap string string.
Variable import_OpenShiftCluster : Outcome unit.

Definition test_direct_openshift_access : M string :=
  try_except
    (_ <- lift import_OpenShiftCluster ;;
     let cluster_url := LLM.getenv env "OPENSHIFT_CLUSTER_URL" in
     let token := LLM.getenv env "OPENSHIFT_TOKEN" in
     let verify_ssl :=
       String.eqb (lower (default "true" (LLM.getenv env "OPENSHIFT_VERIFY_SSL"))) "true" in
     if negb (LLM.env_truthy cluster_url) || negb (LLM.env_truthy token) then
       ret "❌ Missing cluster credentials in environment variables"
     else
       cluster <- Gateway.new_OpenShiftCluster X
                    [of_option_str cluster_url; of_option_str token; VBool verify_ssl] ;;
       namespaces <- Gateway.list_namespaces X cluster ;;
       let data :=
         [ ("message", VStr "Successfully connected to OpenShift cluster");
           ("cluster_url", of_option_str cluster_url);
           ("namespaces_found", VInt (Z.of_nat (length namespaces)));
           ("namespaces", VList (py_slice_to 5 namespaces)) ] in
       text <- lift (json_dumps (VDict data)) ;;
       ret ("✅ Direct OpenShift Access Result:" +:+ NL +:+ text))
    (fun e => ret ("❌ Error testing direct OpenShift access: " +:+ exn_str e)).

(** [simulate_mcp_tool_execution(tool_name, arguments)]; a missing argument
    bag is the empty one. *)
Definition simulate_mcp_tool_execution (tool_name : string) (arguments : ArgumentBag)
    : M string :=
  try_except
    (if String.eqb tool_name "list_namespaces" then test_direct_openshift_access
     else if String.eqb tool_name "list_pods" then
       let namespace := args_get_default arguments "namespace" (VStr "default") in
       ret ("✅ Simulated MCP Tool Result for list_pods:" +:+ NL +:+
            "Namespace: " +:+ py_str X namespace +:+ NL +:+
            "Status: Would list pods in " +:+ py_str X namespace +:+ " namespace")
     else if String.eqb tool_name "connect_cluster" then test_direct_openshift_access
     else if String.eqb tool_name "ask_llm" then
       let question := args_get_default arguments "question" (VStr "What is OpenShift?") in
       test_llm_integration
     else ret ("❌ Unknown tool: " +:+ tool_name))
    (fun e => ret ("❌ Error simulating MCP tool: " +:+ exn_str e)).

End Tools.

End DirectMCPClientTools.

(** ** [openshift_cluster.py]: quantities and the usage report *)

Module ResourceUsage.

(** [s.endswith(suffix)]. *)
Definition endswith (s suffix : string) : bool :=
  let n := String.length s in
  let m := String.length suffix in
  (m <=? n)%nat && String.eqb (String.substring (n - m) m s) suffix.

(** [s[:-k]] for a positive [k]. *)
Definition drop_last (k : nat) (s : string) : string :=
  String.substring 0 (String.length s - k) s.

(** [int(s)] and [float(s)] as outcomes. *)
Definition int_of (X : Externals) (s : string) : Outcome Z :=
  match py_int X s with
  | Some z => Ret z
  | None => Raise (ValueError ("invalid literal for int() with base 10: '" +:+ s +:+ "'"))
  end.

Definition float_of (X : Externals) (s : string) : Outcome float :=
  match py_float X s with
  | Some f => Ret f
  | None => Raise (ValueError ("could not convert string to float: '" +:+ s +:+ "'"))
  end.

(** [_parse_cpu_value]: millicores are divided by 1000. *)
Definition _parse_cpu_value (X : Externals) (cpu_str : string) : Outcome float :=
  if endswith cpu_str "m" then
    f <~ float_of X (drop_last 1 cpu_str) ;;
    Ret (PrimFloat.div f 1000%float)
  else float_of X cpu_str.

(** [_parse_memory_value]: binary suffixes first, then decimal ones, then a
    plain number of bytes. *)
Definition _parse_memory_value (X : Externals) (memory_str : string) : Outcome Z :=
  if endswith memory_str "Ki" then
    n <~ int_of X (drop_last 2 memory_str) ;; Ret (n * 1024)%Z
  else if endswith memory_str "Mi" then
    n <~ int_of X (drop_last 2 memory_str) ;; Ret (n * 1024 * 1024)%Z
  else if endswith memory_str "Gi" then
    n <~ int_of X (drop_last 2 memory_str) ;; Ret (n * 1024 * 1024 * 1024)%Z
  else if endswith memory_str "Ti" then
    n <~ int_of X (drop_last 2 memory_str) ;; Ret (n * 1024 * 1024 * 1024 * 1024)%Z
  else if endswith memory_str "K" || endswith memory_str "k" then
    n <~ int_of X (drop_last 1 memory_str) ;; Ret (n * 1000)%Z
  else if endswith memory_str "M" then
    n <~ int_of X (drop_last 1 memory_str) ;; Ret (n * 1000 * 1000)%Z
  else if endswith memory_str "G" then
    n <~ int_of X (drop_last 1 memory_str) ;; Ret (n * 1000 * 1000 * 1000)%Z
  else if endswith memory_str "T" then
    n <~ int_of X (drop_last 1 memory_str) ;; Ret (n * 1000 * 1000 * 1000 * 1000)%Z
  else int_of X memory_str.

(** What the usage report reads of a container and of a pod: the [requests]
    and [limits] of [container.resources] (a mapping of quantity strings, or
    [None]), the pod's name and phase, and its containers.  Every container
    is taken to have a [resources] object, and every quantity to be a
    string, as the Kubernetes client delivers them. *)
Record Container : Type := mkContainer {
  requests : option (list (string * string));
  limits : option (list (string * string))
}.

Record Pod : Type := mkPod {
  pod_name : Value;
  pod_phase : Value;
  containers : list Container
}.

(** The four running sums, of a pod or of the namespace.  The CPU sums start
    as the integer [0] and become floats with the first addition; the memory
    sums are integers throughout. *)
Record Sums : Type := mkSums {
  cpu_request : Value;
  memory_request : Z;
  cpu_limit : Value;
  memory_limit : Z
}.

Definition zero_sums : Sums := mkSums (VInt 0) 0 (VInt 0) 0.

(** [acc += x] for a float [x]. *)
Definition add_float (acc : Value) (x : float) : Value :=
  match acc with
  | VInt z => VFloat (PrimFloat.add (PrimFloat.of_uint63 (Uint63.of_Z z)) x)
  | VFloat f => VFloat (PrimFloat.add f x)
  | _ => acc
  end.

Fixpoint quantity (resources : list (string * string)) (k : string) : option string :=
  match resources with
  | [] => None
  | (k', v) :: rest => if String.eqb k' k then Some v else quantity rest k
  end.

(** [if container.resources.requests:] — a mapping that is present and not
    empty. *)
Definition present (resources : option (list (string * string)))
    : option (list (string * string)) :=
  match resources with
  | Some ((_ :: _) as r) => Some r
  | _ => None
  end.

(** The body of [for container in pod.spec.containers]: requests first (CPU,
    then memory), then limits; each quantity is added to the pod's sum and to
    the namespace's. *)
Definition add_container (X : Externals) (c : Container) (pod_usage usage_info : Sums)
    : Outcome (Sums * Sums) :=
  st <~ (match present (requests c) with
         | Some r =>
             st <~ (match quantity r "cpu" with
                    | Some q =>
                        cpu_req <~ _parse_cpu_value X q ;;
                        Ret (mkSums (add_float (cpu_request pod_usage) cpu_req)
                                    (memory_request pod_usage)
                                    (cpu_limit pod_usage) (memory_limit pod_usage),
                             mkSums (add_float (cpu_request usage_info) cpu_req)
                                    (memory_request usage_info)
                                    (cpu_limit usage_info) (memory_limit usage_info))
                    | None => Ret (pod_usage, usage_info)
                    end) ;;
             (match quantity r "memory" with
              | Some q =>
                  mem_req <~ _parse_memory_value X q ;;
                  Ret (mkSums (cpu_request (fst st)) (memory_request (fst st) + mem_req)
                              (cpu_limit (fst st)) (memory_limit (fst st)),
                       mkSums (cpu_request (snd st)) (memory_request (snd st) + mem_req)
                              (cpu_limit (snd st)) (memory_limit (snd st)))
              | None => Ret st
              end)
         | None => Ret (pod_usage, usage_info)
         end) ;;
  match present (limits c) with
  | Some l =>
      st <~ (match quantity l "cpu" with
             | Some q =>
                 cpu_lim <~ _parse_cpu_value X q ;;
                 Ret (mkSums (cpu_request (fst st)) (memory_request (fst st))
                             (add_float (cpu_limit (fst st)) cpu_lim) (memory_limit (fst st)),
                      mkSums (cpu_request (snd st)) (memory_request (snd st))
                             (add_float (cpu_limit (snd st)) cpu_lim) (memory_limit (snd st)))
             | None => Ret st
             end) ;;
      (match quantity l "memory" with
       | Some q =>
           mem_lim <~ _parse_memory_value X q ;;
           Ret (mkSums (cpu_request (fst st)) (memory_request (fst st))
                       (cpu_limit (fst st)) (memory_limit (fst st) + mem_lim),
                mkSums (cpu_request (snd st)) (memory_request (snd st))
                       (cpu_limit (snd st)) (memory_limit (snd st) + mem_lim))
       | None => Ret st
       end)
  | None => Ret st
  end.

Fixpoint add_containers (X : Externals) (cs : list Container) (pod_usage usage_info : Sums)
    : Outcome (Sums * Sums) :=
  match cs with
  | [] => Ret (pod_usage, usage_info)
  | c :: rest =>
      st <~ add_container X c pod_usage usage_info ;;
      add_containers X rest (fst st) (snd st)
  end.

(** The dictionary [pod_usage] that is appended to [usage_info['pods']]. *)
Definition pod_usage_dict (p : Pod) (s : Sums) : Dict :=
  [ ("name", pod_name p); ("status", pod_phase p);
    ("cpu_request", cpu_request s); ("memory_request", VInt (memory_request s));
    ("cpu_limit", cpu_limit s); ("memory_limit", VInt (memory_limit s)) ].

(** [for pod in pods.items]. *)
Fixpoint add_pods (X : Externals) (pods : list Pod) (listed : list Dict) (usage_info : Sums)
    : Outcome (list Dict * Sums) :=
  match pods with
  | [] => Ret (listed, usage_info)
  | p :: rest =>
      st <~ add_containers X (containers p) zero_sums usage_info ;;
      add_pods X rest (listed ++ [pod_usage_dict p (fst st)]) (snd st)
  end.

(** The body of the [try] of [get_resource_usage], from the pods that the
    client has returned, and the method's answer for it. *)
Definition usage_report (X : Externals) (namespace : Value) (pods : list Pod) : Outcome Dict :=
  st <~ add_pods X pods [] zero_sums ;;
  Ret [ ("namespace", namespace);
        ("pods", VList (map VDict (fst st)));
        ("total_cpu_request", cpu_request (snd st));
        ("total_memory_request", VInt (memory_request (snd st)));
        ("total_cpu_limit", cpu_limit (snd st));
        ("total_memory_limit", VInt (memory_limit (snd st))) ].

Definition get_resource_usage_answer (X : Externals) (namespace : Value) (pods : list Pod)
    : Dict :=
  match usage_report X namespace pods with
  | Ret usage_info => usage_info
  | Raise e => [("error", VStr (exn_str e))]
  end.

End ResourceUsage.

(** The suffixes that [_parse_memory_value] knows, with their factors, and
    some that it does not know. *)
Definition memory_units : list (string * Z) :=
  [ ("Ki", 1024); ("Mi", 1024 * 1024); ("Gi", 1024 * 1024 * 1024);
    ("Ti", 1024 * 1024 * 1024 * 1024);
    ("K", 1000); ("k", 1000); ("M", 1000 * 1000); ("G", 1000 * 1000 * 1000);
    ("T", 1000 * 1000 * 1000 * 1000) ]%Z.

Definition unknown_memory_units : list string := [ "Pi"; "Ei"; "P"; "E"; "m"; "g"; "t"; "B" ].

(** The integer stored under a key of a pod's usage dictionary. *)
Definition int_field (k : string) (d : Dict) : Z :=
  match dict_lookup d k with
  | Some (VInt z) => z
  | _ => 0%Z
  end.

Definition sum_field (k : string) (ds : list Dict) : Z :=
  fold_right (fun d acc => (int_field k d + acc)%Z) 0%Z ds.

(** Two pods of a namespace ["shop"]: a web pod of two containers and a
    database pod that sets limits only. *)
Definition sample_pods : list ResourceUsage.Pod :=
  [ ResourceUsage.mkPod (VStr "web") (VStr "Running")
      [ ResourceUsage.mkContainer (Some [("memory", "128Mi")]) (Some [("memory", "1Gi")]);
        ResourceUsage.mkContainer (Some [("memory", "64Mi")]) None ];
    ResourceUsage.mkPod (VStr "db") (VStr "Pending")
      [ ResourceUsage.mkContainer None (Some [("cpu", "500m"); ("memory", "2G")]) ] ].

(** The last character of a string. *)
Fixpoint last_char (s : string) : option ascii :=
  match s with
  | EmptyString => None
  | String c rest => match rest with EmptyString => Some c | _ => last_char rest end
  end.

(** ** [mcp_host/working_host_app.py]: answering a query

    [_generate_intelligent_response] imports the module-level [llm_manager]
    of [llm_integration], which is built by [LLMManager()] when the module is
    first loaded; [llm_integration_found] says whether the module can be
    loaded at all, and [env] is the process environment. *)

Module WorkingHost.

Section Queries.

Variable X : Externals.
Variable llm_integration_found : bool.
Variable env : gmap string string.

(** [from llm_integration import llm_manager]. *)
Definition import_llm_manager : Outcome LLM.LLMManager :=
  if llm_integration_found then LLM.setup_providers X env
  else Raise (mkExn "ModuleNotFoundError" "No module named 'llm_integration'").

Definition expert_context : string :=
  "You are an OpenShift cluster management expert with access to cluster information and tools.".

Definition full_prompt (context query : string) : string :=
  NL +:+ context +:+ NL +:+ NL +:+
  "User Question: " +:+ query +:+ NL +:+ NL +:+
  "Please provide a helpful, detailed response about OpenShift management. Include:" +:+ NL +:+
  "1. Direct answer to the question" +:+ NL +:+
  "2. Best practices if applicable" +:+ NL +:+
  "3. Commands or steps if relevant" +:+ NL +:+
  "4. Any important considerations" +:+ NL +:+ NL +:+
  "Make your response practical and actionable." +:+ NL.

(** The text of the [except Exception] branch. *)
Definition fallback_response (query : string) : string :=
  "💡 **Response to: " +:+ query +:+ "**" +:+ NL +:+ NL +:+
  "I understand you're asking about OpenShift management. While I can't directly execute MCP tools at the moment, I can provide general guidance." +:+ NL +:+ NL +:+
  "For specific cluster operations, you can:" +:+ NL +:+
  "1. Use the MCP server directly with proper MCP clients" +:+ NL +:+
  "2. Connect via Claude Desktop or other MCP-compatible tools" +:+ NL +:+
  "3. Use the OpenShift CLI (oc) for direct cluster management" +:+ NL +:+ NL +:+
  "Your MCP server is running and ready with 20 powerful tools for OpenShift management!".

Definition _generate_intelligent_response (query : string) : M string :=
  try_except
    (llm_manager <- lift import_llm_manager ;;
     let context := expert_context in
     let cluster_url := LLM.getenv env "OPENSHIFT_CLUSTER_URL" in
     let context :=
       if LLM.env_truthy cluster_url
       then context +:+ " You are connected to OpenShift cluster: " +:+ default "" cluster_url
       else context in
     let full_prompt := full_prompt context query in
     response <- LLM.generate_response X llm_manager (VStr full_prompt) (VStr context)
                   (VStr "gemini") ;;
     if error_set (LLM.error response) then
       ret ("❌ LLM Error: " +:+ default "" (LLM.error response))
     else
       time <- lift (format_2f X (of_option_float (LLM.response_time response))) ;;
       ret ("🤖 **AI-Powered Response** (via " +:+ LLM.provider response +:+ "/" +:+
            LLM.model response +:+ ")" +:+ NL +:+ NL +:+
            py_str X (LLM.content response) +:+ NL +:+ NL +:+
            "*Response generated in " +:+ time +:+ " seconds*"))
    (fun e => ret (fallback_response query)).

(** [process_user_query]: the response and the history after the call.
    [timestamp] is the value of [datetime.now().isoformat()] when the entry is
    appended. *)
Definition process_user_query (timestamp : string) (conversation_history : list Dict)
    (user_query : string) : M (string * list Dict) :=
  try_except
    (response <- _generate_intelligent_response user_query ;;
     execution_time <- LLM.elapsed X ;;
     ret (response,
          WorkingOpenShiftHostApp.add_to_history timestamp conversation_history
            user_query response "intelligent_response" execution_time))
    (fun e =>
       execution_time <- LLM.elapsed X ;;
       let error_msg := "❌ Error processing query: " +:+ exn_str e in
       ret (error_msg,
            WorkingOpenShiftHostApp.add_to_history timestamp conversation_history
              user_query error_msg "error" execution_time)).

End Queries.

End WorkingHost.

(** ** Vocabulary for the argument checks and for [ask_llm] *)

(** The words of a message: the maximal runs of characters other than the
    space and the comma. *)
Definition is_separator (c : ascii) : bool :=
  Ascii.eqb c " "%char || Ascii.eqb c ","%char.

Fixpoint words_from (current : string) (s : string) : list string :=
  match s with
  | EmptyString => if String.eqb current "" then [] else [current]
  | String c rest =>
      if is_separator c then
        if String.eqb current "" then words_from "" rest
        else current :: words_from "" rest
      else words_from (current +:+ String c "") rest
  end.

Definition words (s : string) : list string := words_from "" s.

(** An error message names a key: the key is one of its words. *)
Definition names_key (msg key : string) : bool :=
  existsb (String.eqb key) (words msg).

(** The messages with which the handlers of the LLM-enabled server refuse an
    argument bag that lacks a required key. *)
Definition required_messages : list string :=
  [ "namespace is required"; "name is required"; "question is required";
    "issue_description is required"; "cluster_url and token are required";
    "namespace and pod_name are required";
    "namespace, deployment_name, and replicas are required" ].

(** The form of the message for a key [k] of a tool with the required keys
    [required]: "<k> is required" when [k] is the only one, and a message
    that names [k] and ends in " are required" when there are several. *)
Definition required_form (required : list string) (k msg : string) : Prop :=
  In msg required_messages
  /\ names_key msg k = true
  /\ match required with
     | [_] => msg = k +:+ " is required"
     | _ => ResourceUsage.endswith msg " are required" = true
     end.

(** The context that [ask_llm] hands to the manager: the [context] argument,
    with the URL of the connected cluster in front of it when there is a
    handle. *)
Definition ask_llm_context (X : Externals) (c : option OpenShiftCluster) (context : Value)
    : Value :=
  match c with
  | Some cluster =>
      let cluster_context :=
        "Connected to OpenShift cluster: " +:+ py_str X (cluster_url cluster) in
      if truthy context
      then VStr (cluster_context +:+ NL +:+ NL +:+ py_str X context)
      else VStr cluster_context
  | None => context
  end.

(** The envelope that [ask_llm] builds from the manager's response. *)
Definition ask_llm_envelope (response : LLM.LLMResponse) : Dict :=
  if error_set (LLM.error response) then
    [("error", VStr ("LLM error: " +:+ default "" (LLM.error response)))]
  else
    [("response", LLM.content response);
     ("provider", VStr (LLM.provider response));
     ("model", VStr (LLM.model response));
     ("response_time", of_option_float (LLM.response_time response));
     ("tokens_used", of_option_Z (LLM.tokens_used response))].

(* ===================================================================== *)
(** * Part II: properties                                                 *)
(* ===================================================================== *)

(** ** The keyword router *)

(** The [list_pods] rule can only leave the namespace at ["default"]: its
    inner test for the word "namespace" is reached only when the first rule,
    which asks for "namespace" and "list", has already failed although "list"
    is present. *)
Lemma route_list_pods_namespace_default (q : string) (args : ArgumentBag) :
  DirectMCPClient.process_user_query_route q = ("list_pods", args) ->
  args = {[ "namespace" := VStr "default" ]}.
Proof.
  unfold DirectMCPClient.process_user_query_route.
  destruct (py_in "namespace" (lower q)) eqn:Hns;
  destruct (py_in "list" (lower q)) eqn:Hl;
  destruct (py_in "pod" (lower q)) eqn:Hp; simpl;
  repeat (case_match; simpl); intros Hr; inversion Hr; reflexivity.
Qed.

(** C1: the query "list pods in production namespace" contains both
    "namespace" and "list", so the first rule of [process_user_query] fires:
    the router answers [list_namespaces] with an empty argument bag, and not
    [list_pods] with [{"namespace": "production"}]. *)
Theorem C1_production_namespace_query_routes_to_list_namespaces :
  DirectMCPClient.process_user_query_route "list pods in production namespace"
    = ("list_namespaces", ∅)
  /\ DirectMCPClient.process_user_query_route "list pods in production namespace"
    <> ("list_pods", {[ "namespace" := VStr "production" ]}).
Proof.
  split.
  - vm_compute. reflexivity.
  - vm_compute. intros H. discriminate H.
Qed.

(** The other routing examples of the specification. *)
Example route_list_all_namespaces :
  DirectMCPClient.process_user_query_route "list all namespaces" = ("list_namespaces", ∅).
Proof. vm_compute. reflexivity. Qed.

Example route_something_random :
  DirectMCPClient.process_user_query_route "show me something random"
    = ("ask_llm", {[ "question" := VStr "show me something random" ]}).
Proof. vm_compute. reflexivity. Qed.

(** ** The conversation history *)

Lemma client_session_app (xs : list Interaction) (h : list Dict) :
  client_session xs h = h ++ map record_of xs.
Proof.
  revert h. induction xs as [|x xs IH]; intros h; simpl.
  - by rewrite app_nil_r.
  - unfold client_session in *. simpl. rewrite IH.
    unfold DirectMCPClient.add_to_history. by rewrite <- app_assoc.
Qed.

Lemma host_session_app (xs : list Interaction) (h : list Dict) :
  host_session xs h = h ++ map record_of xs.
Proof.
  revert h. induction xs as [|x xs IH]; intros h; simpl.
  - by rewrite app_nil_r.
  - unfold host_session in *. simpl. rewrite IH.
    unfold WorkingOpenShiftHostApp.add_to_history. by rewrite <- app_assoc.
Qed.

(** [l[-(k+1):]] drops all but the last [k+1] elements. *)
Lemma py_slice_from_last {A : Type} (k : nat) (l : list A) :
  py_slice_from (- Z.of_nat (S k)) l = drop (length l - S k) l.
Proof.
  unfold py_slice_from.
  assert ((- Z.of_nat (S k) <? 0)%Z = true) as -> by (apply Z.ltb_lt; lia).
  f_equal. lia.
Qed.

Lemma py_slice_from_last_length {A : Type} (k : nat) (l : list A) :
  length (py_slice_from (- Z.of_nat (S k)) l) = Nat.min (length l) (S k).
Proof. rewrite py_slice_from_last, length_drop. lia. Qed.

(** After any session the display of the direct client walks over the records
    of the last five interactions, oldest first. *)
Lemma last_entries_session (xs : list Interaction) :
  DirectMCPClient.last_entries (client_session xs []) =
  map record_of (drop (length xs - 5) xs).
Proof.
  unfold DirectMCPClient.last_entries. rewrite client_session_app. simpl.
  change (-5)%Z with (- Z.of_nat 5)%Z. rewrite py_slice_from_last.
  rewrite length_map. apply skipn_map.
Qed.

Lemma last_entries_session_length (xs : list Interaction) :
  length (DirectMCPClient.last_entries (client_session xs [])) = Nat.min (length xs) 5.
Proof. rewrite last_entries_session, length_map, length_drop. lia. Qed.

Lemma show_entries_records (X : Externals) (xs : list Interaction) : forall i,
  DirectMCPClient.show_entries X i (map record_of xs) = Ret (numbered_lines X i xs).
Proof.
  induction xs as [|x xs IH]; intros i; simpl; [reflexivity|].
  rewrite IH. reflexivity.
Qed.

(** [s[:stop]] counts code points, not bytes: "é" is two bytes long. *)
Example str_slice_to_counts_code_points :
  str_slice_to 3 "héllo" = "hél"
  /\ String.length "hél" = 4
  /\ str_slice_to 50 "éééééééééééééééééééééééééééééé" = "éééééééééééééééééééééééééééééé"
  /\ String.length "éééééééééééééééééééééééééééééé" = 60.
Proof. repeat split; vm_compute; reflexivity. Qed.

(** [_show_history] of the direct client never raises on a history written by
    [add_to_history], and prints the last five interactions in order. *)
Lemma show_history_session (X : Externals) (xs : list Interaction) :
  xs <> [] ->
  DirectMCPClient._show_history X (client_session xs []) =
  Ret ((NL +:+ "📚 Conversation History (" +:+
        py_str X (VInt (Z.of_nat (length xs))) +:+ " interactions):")
       :: numbered_lines X 1 (drop (length xs - 5) xs)).
Proof.
  intros Hne. unfold DirectMCPClient._show_history.
  rewrite last_entries_session, show_entries_records.
  rewrite client_session_app. simpl. rewrite length_map.
  destruct xs; [done|]. reflexivity.
Qed.

Lemma show_history_session_witness :
  DirectMCPClient._show_history quiet_world (client_session seven_interactions []) =
  Ret ((NL +:+ "📚 Conversation History ( interactions):")
       :: numbered_lines quiet_world 1 (drop 2 seven_interactions)).
Proof. apply (show_history_session quiet_world seven_interactions). discriminate. Defined.

(** [get_history_summary] of the working host reads each entry under the key
    ['query'], which [add_to_history] never writes: it raises on every
    history that is not empty. *)
Lemma get_history_summary_key_error (X : Externals) (xs : list Interaction) :
  xs <> [] ->
  WorkingOpenShiftHostApp.get_history_summary X (host_session xs []) =
  Raise (KeyError "query").
Proof.
  intros Hne. rewrite host_session_app. simpl.
  unfold WorkingOpenShiftHostApp.get_history_summary.
  change (-5)%Z with (- Z.of_nat 5)%Z. rewrite py_slice_from_last.
  rewrite skipn_map, length_map.
  destruct (drop (length xs - 5) xs) as [|y ys] eqn:Hd.
  - apply (f_equal length) in Hd. rewrite length_drop in Hd. simpl in Hd.
    destruct xs; [done|]. simpl in Hd. lia.
  - destruct xs; [done|]. simpl map at 1. cbv iota. reflexivity.
Qed.

Lemma get_history_summary_key_error_witness :
  WorkingOpenShiftHostApp.get_history_summary quiet_world
    (host_session [interaction "1"] []) = Raise (KeyError "query").
Proof. apply (get_history_summary_key_error quiet_world [interaction "1"]). discriminate. Defined.

(** C8: after seven appends the slice [conversation_history[-5:]] holds the
    records of interactions 3 to 7 in their original order, and the direct
    client prints them; the history summary of the working host, which reads
    the key ['query'] where the records have ['user_query'], raises
    [KeyError] instead of returning them. *)
Theorem C8_last_five_after_seven_appends (X : Externals) :
  py_slice_from (-5) (host_session seven_interactions []) =
    map record_of (map interaction ["3"; "4"; "5"; "6"; "7"])
  /\ DirectMCPClient._show_history X (client_session seven_interactions []) =
     Ret ((NL +:+ "📚 Conversation History (" +:+ py_str X (VInt 7) +:+ " interactions):")
          :: numbered_lines X 1 (map interaction ["3"; "4"; "5"; "6"; "7"]))
  /\ WorkingOpenShiftHostApp.get_history_summary X (host_session seven_interactions []) =
     Raise (KeyError "query").
Proof.
  split; [|split].
  - vm_compute. reflexivity.
  - rewrite show_history_session by discriminate. reflexivity.
  - apply get_history_summary_key_error. discriminate.
Qed.

(** ** The LLM providers and the manager *)

Section LLMProperties.

Import LLM.

Variable X : Externals.

(** A provider always answers, and an answer with an error has no content. *)
Lemma provider_response_total (p : BaseLLMProvider) (prompt context : Value) (w : World) :
  exists r w', provider_generate_response X p prompt context w = (Ret r, w')
    /\ (forall msg, error r = Some msg -> content r = VStr "").
Proof.
  unfold provider_generate_response, try_except, bind, outbound, elapsed, ret.
  destruct p as [c|c|c|c]; simpl;
  match goal with |- context [match ?o with Ret _ => _ | Raise _ => _ end] => destruct o end;
  simpl; eexists _, _; (split; [reflexivity|]); simpl; intros msg He; congruence.
Qed.

Lemma error_set_Some (o : option string) :
  error_set o = true -> exists msg, o = Some msg.
Proof. destruct o; [eauto | discriminate]. Qed.

Lemma generate_with_invariant self sel prompt context w r w' :
  generate_with X self sel prompt context w = (Ret r, w') -> error_implies_empty r.
Proof.
  unfold generate_with. destruct (providers_lookup _ _) as [p|]; [|discriminate].
  destruct (provider_response_total p prompt context w) as (r0 & w0 & Hr & Hinv).
  rewrite Hr. intros [= <- <-] He. apply error_set_Some in He as [msg He]. eauto.
Qed.

Lemma generate_with_default_invariant self prompt context w r w' :
  generate_with_default X self prompt context w = (Ret r, w') -> error_implies_empty r.
Proof.
  unfold generate_with_default.
  destruct (default_provider self) as [d|].
  - destruct (negb (String.eqb d "")).
    + apply generate_with_invariant.
    + intros [= <- <-] _. reflexivity.
  - intros [= <- <-] _. reflexivity.
Qed.

Lemma manager_response_invariant self prompt context provider w r w' :
  generate_response X self prompt context provider w = (Ret r, w') -> error_implies_empty r.
Proof.
  unfold generate_response.
  destruct provider as [| | | |s|l|d]; try apply generate_with_default_invariant.
  - destruct (_ && _); [apply generate_with_invariant | apply generate_with_default_invariant].
  - destruct l; [apply generate_with_default_invariant | discriminate].
  - destruct d; [apply generate_with_default_invariant | discriminate].
Qed.

(** C7: every response of the four providers, every response that the manager
    returns, and the response of its no-provider path satisfy: a non-empty
    [error] comes with the empty string as [content].  The providers always
    return a response. *)
Theorem C7_error_implies_empty_content :
  (forall p prompt context w,
     exists r w', provider_generate_response X p prompt context w = (Ret r, w')
                  /\ error_implies_empty r)
  /\ (forall self prompt context provider w r w',
        generate_response X self prompt context provider w = (Ret r, w') ->
        error_implies_empty r)
  /\ error_implies_empty no_provider_response.
Proof.
  split; [|split].
  - intros p prompt context w.
    destruct (provider_response_total p prompt context w) as (r & w' & Hr & Hinv).
    exists r, w'. split; [exact Hr|].
    intros He. apply error_set_Some in He as [msg He]. eauto.
  - intros self prompt context provider w r w'. apply manager_response_invariant.
  - intros _. reflexivity.
Qed.

(** *** What [setup_providers] builds *)

Lemma setup_providers_keys (env : gmap string string) (self : LLMManager) :
  setup_providers X env = Ret self ->
  get_available_providers self = List.filter (configured env) preference_order
  /\ default_provider self = (if configured env "gemini" then Some "gemini" else None).
Proof.
  unfold setup_providers, get_available_providers, preference_order, configured.
  simpl List.filter. simpl String.eqb.
  intros H.
  destruct (env_truthy (getenv env "GEMINI_API_KEY"));
  destruct (env_truthy (getenv env "OPENAI_API_KEY"));
  destruct (env_truthy (getenv env "ANTHROPIC_API_KEY"));
  destruct (env_truthy (getenv env "CUSTOM_LLM_API_KEY"));
  destruct (env_truthy (getenv env "CUSTOM_LLM_BASE_URL"));
  simpl in H |- *;
  repeat (match type of H with
          | context [getenv_int ?a ?b ?c ?d] =>
              destruct (getenv_int a b c d); simpl in H; [|discriminate H]
          | context [getenv_float ?a ?b ?c ?d] =>
              destruct (getenv_float a b c d); simpl in H; [|discriminate H]
          | context [new_GeminiProvider ?x ?c] =>
              destruct (new_GeminiProvider x c); simpl in H; [|discriminate H]
          | context [new_OpenAIProvider ?x ?c] =>
              destruct (new_OpenAIProvider x c); simpl in H; [|discriminate H]
          | context [new_ClaudeProvider ?x ?c] =>
              destruct (new_ClaudeProvider x c); simpl in H; [|discriminate H]
          | context [new_CustomLLMProvider ?c] =>
              destruct (new_CustomLLMProvider c); simpl in H; [|discriminate H]
          end);
  inversion H; subst; simpl; split; reflexivity.
Qed.

Lemma providers_lookup_keys (ps : list (string * BaseLLMProvider)) (k : string) :
  (exists p, providers_lookup ps k = Some p) <-> In k (map fst ps).
Proof.
  induction ps as [|[k' p'] ps IH]; simpl.
  - split; [intros [p H]; discriminate | intros []].
  - destruct (String.eqb k' k) eqn:E.
    + apply String.eqb_eq in E. split; [auto | eauto].
    + apply String.eqb_neq in E. rewrite IH. split; [auto | intros [?|?]; [done | auto]].
Qed.

Lemma setup_providers_key_nonempty env self k p :
  setup_providers X env = Ret self ->
  providers_lookup (providers self) k = Some p -> k <> "".
Proof.
  intros Hs Hl. apply setup_providers_keys in Hs as [Hk _].
  assert (In k (map fst (providers self))) as Hin by (apply providers_lookup_keys; eauto).
  unfold get_available_providers in Hk. rewrite Hk in Hin.
  apply filter_In in Hin as [Hin _]. unfold preference_order in Hin. simpl in Hin.
  intros ->. intuition discriminate.
Qed.

Lemma setup_providers_default env self d :
  setup_providers X env = Ret self ->
  default_provider self = Some d ->
  d = "gemini" /\ exists p, providers_lookup (providers self) d = Some p.
Proof.
  intros Hs Hd. apply setup_providers_keys in Hs as [Hk Hdef].
  rewrite Hdef in Hd. destruct (configured env "gemini") eqn:Hc; [|discriminate].
  injection Hd as <-. split; [reflexivity|].
  apply providers_lookup_keys. unfold get_available_providers in Hk. rewrite Hk.
  apply filter_In. split; [simpl; auto | exact Hc].
Qed.

Lemma generate_response_no_explicit self prompt context provider w :
  names_no_provider self provider ->
  generate_response X self prompt context provider w =
  generate_with_default X self prompt context w.
Proof.
  intros [-> | (s & -> & Hs)]; [reflexivity|].
  unfold generate_response. rewrite Hs. by rewrite andb_false_r.
Qed.

End LLMProperties.

(** The witness of C7: the Gemini provider in a world where every vendor call
    is refused. *)
Lemma C7_error_implies_empty_content_witness :
  exists r w',
    LLM.generate_response failing_world gemini_manager (VStr "hi") VNone VNone no_cluster
      = (Ret r, w')
    /\ LLM.error r = Some "connection refused"
    /\ LLM.content r = VStr "".
Proof.
  eexists _, _. split; [vm_compute; reflexivity|]. split; [reflexivity|].
  eapply (proj1 (proj2 (C7_error_implies_empty_content failing_world))
            gemini_manager (VStr "hi") VNone VNone no_cluster).
  - vm_compute. reflexivity.
  - reflexivity.
Defined.

(** [ask_llm] with a question hands the question, the context and the
    provider argument to the manager, and builds its envelope from the
    response; an exception of the manager becomes the dispatcher's error
    envelope. *)
Lemma ask_llm_asks_manager (X : Externals) (self : LLM.LLMManager)
    (arguments : ArgumentBag) (question : Value) (w : World) :
  arguments !! "question" = Some question -> truthy question = true ->
  EnhancedOpenShiftMCPServer.call_tool X self "ask_llm" arguments w =
  match LLM.generate_response X self question
          (ask_llm_context X (cluster w) (args_get_default arguments "context" (VStr "")))
          (args_get arguments "provider") w with
  | (Ret response, w') => (Ret (ask_llm_envelope response), w')
  | (Raise e, w') => (Ret [("error", VStr (exn_str e))], w')
  end.
Proof.
  intros Hq Ht.
  unfold EnhancedOpenShiftMCPServer.call_tool, try_except.
  change (EnhancedOpenShiftMCPServer.call_tool_body X self "ask_llm" arguments)
    with (EnhancedOpenShiftMCPServer._handle_ask_llm X self arguments).
  unfold EnhancedOpenShiftMCPServer._handle_ask_llm.
  assert (args_get arguments "question" = question) as Hq'
    by (unfold args_get; rewrite Hq; reflexivity).
  rewrite !Hq', Ht.
  change (negb true) with false. cbv iota.
  destruct w as [c tr].
  unfold bind, get_cluster, ask_llm_context, ask_llm_envelope, ret,
    EnhancedOpenShiftMCPServer.error_result.
  cbn [cluster trace].
  destruct c as [h|];
  try destruct (truthy (args_get_default arguments "context" (VStr "")));
  cbv zeta;
  match goal with
  | |- context [LLM.generate_response ?a ?b ?c ?d ?e ?w0] =>
      destruct (LLM.generate_response a b c d e w0) as [[r|e0] w3]
  end;
  try match goal with |- context [error_set ?x] => destruct (error_set x) end;
  reflexivity.
Qed.

(** The counterexample to C4 as stated: with no provider available the error
    of [ask_llm] is not "No LLM provider available" but that text behind the
    prefix "LLM error: ". *)
Lemma C4_ask_llm_error_is_prefixed :
  exists msg,
    EnhancedOpenShiftMCPServer.call_tool quiet_world no_providers "ask_llm"
      {[ "question" := VStr "What is a route?" ]} no_cluster
      = (Ret [("error", VStr msg)], no_cluster)
    /\ msg = "LLM error: No LLM provider available"
    /\ msg <> "No LLM provider available".
Proof.
  eexists. split; [vm_compute; reflexivity|]. split; [reflexivity | discriminate].
Qed.

(** C4, amended: for a manager built by [setup_providers], [generate_response]
    uses the explicit provider when it names a configured one; otherwise (no
    provider argument, or one that names no configured provider) it uses the
    default provider when there is one; otherwise it returns the response
    with error "No LLM provider available" and the world, hence the trace of
    outbound calls, is unchanged.  [ask_llm] with a question follows the same
    chain with its [provider] argument: the question and the context (behind
    the URL of the connected cluster, when there is a handle) go to the
    selected provider, and the answer is the envelope of that provider's
    response; with no provider available the answer is the error
    "LLM error: No LLM provider available" and the world is unchanged. *)
Theorem C4_provider_selection_fallback_chain (X : Externals)
    (env : gmap string string) (self : LLM.LLMManager) (prompt context : Value) (w : World) :
  LLM.setup_providers X env = Ret self ->
  (forall s p, LLM.providers_lookup (LLM.providers self) s = Some p ->
     LLM.generate_response X self prompt context (VStr s) w =
     LLM.provider_generate_response X p prompt context w)
  /\ (forall provider d, names_no_provider self provider ->
        LLM.default_provider self = Some d ->
        exists p, LLM.providers_lookup (LLM.providers self) d = Some p /\
          LLM.generate_response X self prompt context provider w =
          LLM.provider_generate_response X p prompt context w)
  /\ (forall provider, names_no_provider self provider ->
        LLM.default_provider self = None ->
        LLM.generate_response X self prompt context provider w =
        (Ret LLM.no_provider_response, w))
  /\ (forall arguments question, arguments !! "question" = Some question ->
        truthy question = true ->
        let provider := args_get arguments "provider" in
        let asked :=
          ask_llm_context X (cluster w) (args_get_default arguments "context" (VStr "")) in
        (forall s p, provider = VStr s ->
           LLM.providers_lookup (LLM.providers self) s = Some p ->
           exists response w',
             LLM.provider_generate_response X p question asked w = (Ret response, w')
             /\ EnhancedOpenShiftMCPServer.call_tool X self "ask_llm" arguments w =
                (Ret (ask_llm_envelope response), w'))
        /\ (forall d, names_no_provider self provider ->
              LLM.default_provider self = Some d ->
              exists p response w',
                LLM.providers_lookup (LLM.providers self) d = Some p
                /\ LLM.provider_generate_response X p question asked w = (Ret response, w')
                /\ EnhancedOpenShiftMCPServer.call_tool X self "ask_llm" arguments w =
                   (Ret (ask_llm_envelope response), w'))
        /\ (names_no_provider self provider ->
            LLM.default_provider self = None ->
            EnhancedOpenShiftMCPServer.call_tool X self "ask_llm" arguments w =
            (Ret [("error", VStr "LLM error: No LLM provider available")], w))).
Proof.
  intros Hs.
  assert (Hexplicit : forall prompt context s p,
    LLM.providers_lookup (LLM.providers self) s = Some p ->
    LLM.generate_response X self prompt context (VStr s) w =
    LLM.provider_generate_response X p prompt context w).
  { intros pr ctx s p Hl. unfold LLM.generate_response.
    pose proof (setup_providers_key_nonempty _ _ _ _ _ Hs Hl) as Hne.
    apply String.eqb_neq in Hne. rewrite Hne, Hl. simpl.
    unfold LLM.generate_with. by rewrite Hl. }
  assert (Hdefault : forall prompt context provider d,
    names_no_provider self provider -> LLM.default_provider self = Some d ->
    exists p, LLM.providers_lookup (LLM.providers self) d = Some p /\
      LLM.generate_response X self prompt context provider w =
      LLM.provider_generate_response X p prompt context w).
  { intros pr ctx provider d Hno Hd.
    destruct (setup_providers_default _ _ _ _ Hs Hd) as (-> & p & Hp).
    exists p. split; [exact Hp|].
    rewrite generate_response_no_explicit by exact Hno.
    unfold LLM.generate_with_default. rewrite Hd. simpl.
    unfold LLM.generate_with. by rewrite Hp. }
  assert (Hnone : forall prompt context provider,
    names_no_provider self provider -> LLM.default_provider self = None ->
    LLM.generate_response X self prompt context provider w =
    (Ret LLM.no_provider_response, w)).
  { intros pr ctx provider Hno Hd.
    rewrite generate_response_no_explicit by exact Hno.
    unfold LLM.generate_with_default. by rewrite Hd. }
  split; [apply Hexplicit|]. split; [apply Hdefault|]. split; [apply Hnone|].
  intros arguments question Hq Ht provider asked.
  pose proof (ask_llm_asks_manager X self arguments question w Hq Ht) as Hask.
  fold provider asked in Hask.
  split; [|split].
  - intros s p Hprov Hl. rewrite Hprov in Hask.
    rewrite (Hexplicit question asked s p Hl) in Hask.
    destruct (provider_response_total X p question asked w) as (r & w' & Hr & _).
    exists r, w'. split; [exact Hr|]. rewrite Hr in Hask. exact Hask.
  - intros d Hno Hd.
    destruct (Hdefault question asked provider d Hno Hd) as (p & Hp & Hg).
    rewrite Hg in Hask.
    destruct (provider_response_total X p question asked w) as (r & w' & Hr & _).
    exists p, r, w'. split; [exact Hp|]. split; [exact Hr|]. rewrite Hr in Hask. exact Hask.
  - intros Hno Hd. rewrite (Hnone question asked provider Hno Hd) in Hask. exact Hask.
Qed.

(** The witness of C4: Gemini and OpenAI configured; an explicit "openai" is
    used, an unknown "mistral" falls back to the default, Gemini, and
    [ask_llm] with the provider "openai" returns the envelope of OpenAI's
    response. *)
Lemma C4_provider_selection_fallback_chain_witness :
  exists self,
    LLM.setup_providers quiet_world gemini_openai_env = Ret self
    /\ (exists p, LLM.providers_lookup (LLM.providers self) "openai" = Some p /\
          LLM.generate_response quiet_world self (VStr "hi") VNone (VStr "openai") no_cluster =
          LLM.provider_generate_response quiet_world p (VStr "hi") VNone no_cluster)
    /\ (exists p, LLM.providers_lookup (LLM.providers self) "gemini" = Some p /\
          LLM.generate_response quiet_world self (VStr "hi") VNone (VStr "mistral") no_cluster =
          LLM.provider_generate_response quiet_world p (VStr "hi") VNone no_cluster)
    /\ (exists response w',
          LLM.provider response = "openai"
          /\ EnhancedOpenShiftMCPServer.call_tool quiet_world self "ask_llm"
               {[ "question" := VStr "hi"; "provider" := VStr "openai" ]} no_cluster =
             (Ret (ask_llm_envelope response), w')).
Proof.
  eexists. split; [vm_compute; reflexivity|].
  match goal with |- context [LLM.providers ?m] => set (self := m) end.
  assert (LLM.setup_providers quiet_world gemini_openai_env = Ret self) as Hs
    by (vm_compute; reflexivity).
  pose proof (C4_provider_selection_fallback_chain quiet_world gemini_openai_env self
                (VStr "hi") VNone no_cluster Hs) as (Hexplicit & Hdefault & _ & Hask).
  split; [|split].
  - eexists. split; [reflexivity|]. apply Hexplicit. reflexivity.
  - apply (Hdefault (VStr "mistral") "gemini").
    + right. exists "mistral". split; reflexivity.
    + reflexivity.
  - destruct (Hask {[ "question" := VStr "hi"; "provider" := VStr "openai" ]} (VStr "hi"))
      as (Hone & _).
    + vm_compute. reflexivity.
    + reflexivity.
    + destruct (Hone "openai"
                  (LLM.OpenAIProvider
                     (mkLLMConfig OPENAI "sk-key" "gpt-4" None (Some 2048%Z) 0.5%float 30)))
        as (response & w' & Hr & Hcall).
      * vm_compute. reflexivity.
      * vm_compute. reflexivity.
      * exists response, w'. split; [|exact Hcall].
        vm_compute in Hr. injection Hr as <- _. reflexivity.
Defined.

(** The counterexample to C5 as stated: with the OpenAI key alone, OpenAI is
    configured and there is no default provider. *)
Lemma C5_openai_only_has_no_default :
  exists self,
    LLM.setup_providers quiet_world openai_only_env = Ret self
    /\ LLM.get_available_providers self = ["openai"]
    /\ LLM.get_default_provider self = None.
Proof. eexists. split; [vm_compute; reflexivity|]. split; reflexivity. Qed.

(** C5, amended: after [setup_providers] the configured providers are those
    whose key is present, in the order Gemini, OpenAI, Claude, Custom; the
    default provider is "gemini" when the Gemini key is present, and it is
    then the first configured provider; without the Gemini key there is no
    default provider, whichever other providers are configured. *)
Theorem C5_default_provider_is_gemini_or_none (X : Externals)
    (env : gmap string string) (self : LLM.LLMManager) :
  LLM.setup_providers X env = Ret self ->
  LLM.get_available_providers self = List.filter (configured env) preference_order
  /\ LLM.get_default_provider self =
     (if LLM.env_truthy (LLM.getenv env "GEMINI_API_KEY") then Some "gemini" else None)
  /\ (LLM.env_truthy (LLM.getenv env "GEMINI_API_KEY") = true ->
      head (LLM.get_available_providers self) = LLM.get_default_provider self).
Proof.
  intros Hs. destruct (setup_providers_keys X env self Hs) as [Hk Hd].
  split; [exact Hk|]. split; [exact Hd|].
  intros Hg. unfold LLM.get_default_provider. rewrite Hd, Hk.
  unfold configured, preference_order. simpl. rewrite Hg. reflexivity.
Qed.

Lemma C5_default_provider_is_gemini_or_none_witness :
  exists self,
    LLM.setup_providers quiet_world gemini_openai_env = Ret self
    /\ LLM.get_available_providers self = ["gemini"; "openai"]
    /\ LLM.get_default_provider self = Some "gemini".
Proof.
  eexists. split; [vm_compute; reflexivity|].
  match goal with |- context [LLM.get_available_providers ?m] => set (self := m) end.
  assert (LLM.setup_providers quiet_world gemini_openai_env = Ret self) as Hs
    by (vm_compute; reflexivity).
  destruct (C5_default_provider_is_gemini_or_none quiet_world gemini_openai_env self Hs)
    as (Hk & Hd & _).
  split; [rewrite Hk | rewrite Hd]; vm_compute; reflexivity.
Defined.

(** ** The dispatchers *)

Ltac in_cases H :=
  repeat (destruct H as [H|H]; [try (injection H as <- <-); try subst | ]);
  try contradiction.

(** The counterexample to C2 as stated: without a handle [list_namespaces]
    fails with a longer message than "Not connected to cluster". *)
Lemma C2_not_connected_message_is_longer :
  exists msg,
    EnhancedOpenShiftMCPServer.call_tool quiet_world no_providers "list_namespaces" ∅ no_cluster
      = (Ret [("error", VStr msg)], no_cluster)
    /\ msg <> "Not connected to cluster".
Proof. eexists. split; [reflexivity | discriminate]. Qed.

(** C2, amended: with no cluster handle, every cluster tool of the
    LLM-enabled server answers the error envelope with the message
    "Not connected to cluster. Use connect_cluster first.", and every cluster
    tool of the base server answers the text "Error: Not connected to a
    cluster. Please connect first using connect_cluster."; the base server
    does not know [delete_pod], [create_namespace] and [delete_namespace].
    No call raises, and the world (handle and trace of outbound calls) is
    left as it was. *)
Theorem C2_cluster_tools_without_handle (X : Externals) (mgr : LLM.LLMManager)
    (name : string) (args : ArgumentBag) (w : World) :
  cluster w = None ->
  (In name EnhancedOpenShiftMCPServer.cluster_tools ->
     EnhancedOpenShiftMCPServer.call_tool X mgr name args w =
     (Ret [("error", VStr "Not connected to cluster. Use connect_cluster first.")], w))
  /\ (In name OpenShiftMCPServer.cluster_tools ->
        OpenShiftMCPServer.handle_call_tool X name args w =
        (Ret "Error: Not connected to a cluster. Please connect first using connect_cluster.", w))
  /\ (In name ["delete_pod"; "create_namespace"; "delete_namespace"] ->
        OpenShiftMCPServer.handle_call_tool X name args w = (Ret ("Unknown tool: " +:+ name), w)).
Proof.
  intros Hc. destruct w as [c tr]. simpl in Hc. subst c.
  split; [|split]; intros Hin; simpl in Hin; in_cases Hin; reflexivity.
Qed.

Lemma C2_cluster_tools_without_handle_witness :
  EnhancedOpenShiftMCPServer.call_tool quiet_world no_providers "scale_deployment" ∅ no_cluster =
    (Ret [("error", VStr "Not connected to cluster. Use connect_cluster first.")], no_cluster)
  /\ OpenShiftMCPServer.handle_call_tool quiet_world "scale_deployment" ∅ no_cluster =
    (Ret "Error: Not connected to a cluster. Please connect first using connect_cluster.",
     no_cluster).
Proof.
  destruct (C2_cluster_tools_without_handle quiet_world no_providers "scale_deployment"
              ∅ no_cluster eq_refl) as (He & Hb & _).
  split; [apply He | apply Hb]; simpl; tauto.
Defined.

(** The counterexamples to C3 as stated: without a handle the error of
    [list_pods] does not mention the missing key; with a handle the error of
    [get_pod_logs] names the missing [pod_name] but not in the form
    "pod_name is required". *)
Lemma C3_missing_key_not_always_mentioned :
  (exists msg,
     EnhancedOpenShiftMCPServer.call_tool quiet_world no_providers "list_pods" ∅ no_cluster
       = (Ret [("error", VStr msg)], no_cluster)
     /\ py_in "namespace" msg = false)
  /\ (exists msg,
        EnhancedOpenShiftMCPServer.call_tool quiet_world no_providers "get_pod_logs"
          {[ "namespace" := VStr "demo" ]} some_cluster
          = (Ret [("error", VStr msg)], some_cluster)
        /\ py_in "pod_name is required" msg = false).
Proof.
  split; eexists; (split; [vm_compute; reflexivity | vm_compute; reflexivity]).
Qed.

(** C3, amended: in the LLM-enabled server, a call whose argument bag lacks
    a required key of the tool returns an error envelope and leaves the world
    untouched, so no cluster or LLM call is made.  When the tool needs no
    handle or a handle exists, the message is one of the seven messages of
    the handlers, it names the missing key, and it is "<key> is required"
    for the handlers that test one key and ends in " are required" for the
    handlers that test several keys at once; for a cluster tool without a
    handle the message is the not-connected one. *)
Theorem C3_missing_required_argument (X : Externals) (mgr : LLM.LLMManager)
    (name : string) (required : list string) (k : string) (args : ArgumentBag) (w : World) :
  In (name, required) EnhancedOpenShiftMCPServer.tool_schemas -> In k required -> args !! k = None ->
  exists msg,
    EnhancedOpenShiftMCPServer.call_tool X mgr name args w = (Ret [("error", VStr msg)], w)
    /\ match cluster w with
       | None => if needs_cluster name
                 then msg = "Not connected to cluster. Use connect_cluster first."
                 else required_form required k msg
       | Some _ => required_form required k msg
       end.
Proof.
  intros Hs Hk Hmiss. destruct w as [c tr].
  simpl in Hs. in_cases Hs; simpl in Hk; in_cases Hk;
  unfold EnhancedOpenShiftMCPServer.call_tool, EnhancedOpenShiftMCPServer.call_tool_body, try_except; simpl String.eqb; cbv iota;
  unfold EnhancedOpenShiftMCPServer._handle_connect_cluster, EnhancedOpenShiftMCPServer._handle_list_applications, EnhancedOpenShiftMCPServer._handle_list_pods,
    EnhancedOpenShiftMCPServer._handle_list_services, EnhancedOpenShiftMCPServer._handle_list_routes, EnhancedOpenShiftMCPServer._handle_list_configmaps,
    EnhancedOpenShiftMCPServer._handle_list_secrets, EnhancedOpenShiftMCPServer._handle_get_pod_logs, EnhancedOpenShiftMCPServer._handle_get_resource_usage,
    EnhancedOpenShiftMCPServer._handle_scale_deployment, EnhancedOpenShiftMCPServer._handle_delete_pod, EnhancedOpenShiftMCPServer._handle_create_namespace,
    EnhancedOpenShiftMCPServer._handle_delete_namespace, EnhancedOpenShiftMCPServer._handle_ask_llm, EnhancedOpenShiftMCPServer._handle_get_troubleshooting_help,
    EnhancedOpenShiftMCPServer.handle_listing, EnhancedOpenShiftMCPServer.with_cluster, bind, get_cluster, ret;
  unfold args_get, args_get_default; rewrite Hmiss; simpl;
  rewrite ?orb_true_r; simpl;
  destruct c as [h|]; simpl; eexists; (split; [reflexivity|]);
  first [ reflexivity
        | split; [simpl; tauto | split; vm_compute; reflexivity] ].
Qed.

Lemma C3_missing_required_argument_witness :
  (exists msg,
     EnhancedOpenShiftMCPServer.call_tool quiet_world no_providers "ask_llm"
       {[ "context" := VStr "production" ]} no_cluster
       = (Ret [("error", VStr msg)], no_cluster)
     /\ required_form ["question"] "question" msg)
  /\ (exists msg,
        EnhancedOpenShiftMCPServer.call_tool quiet_world no_providers "scale_deployment"
          {[ "namespace" := VStr "demo"; "deployment_name" := VStr "web" ]} some_cluster
          = (Ret [("error", VStr msg)], some_cluster)
        /\ required_form ["namespace"; "deployment_name"; "replicas"] "replicas" msg).
Proof.
  split.
  - apply (C3_missing_required_argument quiet_world no_providers "ask_llm"
             ["question"] "question" {[ "context" := VStr "production" ]} no_cluster).
    + simpl. tauto.
    + simpl. tauto.
    + vm_compute. reflexivity.
  - apply (C3_missing_required_argument quiet_world no_providers "scale_deployment"
             ["namespace"; "deployment_name"; "replicas"] "replicas"
             {[ "namespace" := VStr "demo"; "deployment_name" := VStr "web" ]} some_cluster).
    + simpl. tauto.
    + simpl. tauto.
    + vm_compute. reflexivity.
Defined.

(** The constructor of the base server's [connect_cluster] runs [_connect];
    when the Kubernetes client refuses, the exception becomes the catch-all
    text and the handle is left as it was. *)
Lemma base_connect_failure (X : Externals) (args : ArgumentBag) (w : World)
    (url tok : Value) (e : PyExn) :
  args !! "cluster_url" = Some url -> args !! "token" = Some tok ->
  k8s_connect X (trace w) url tok = Raise e ->
  OpenShiftMCPServer.handle_call_tool X "connect_cluster" args w =
  (Ret ("Error executing tool 'connect_cluster': " +:+ exn_str e),
   mkWorld (cluster w) (trace w ++ [EvConnect url tok])).
Proof.
  intros Hu Ht He.
  unfold OpenShiftMCPServer.handle_call_tool, try_except.
  unfold OpenShiftMCPServer.handle_call_tool_body. simpl String.eqb. cbv iota.
  unfold bind, lift, args_getitem, Gateway.new_OpenShiftCluster, outbound.
  rewrite Hu, Ht. simpl. unfold bind. rewrite He. reflexivity.
Qed.

(** C6: both dispatchers always return a value; an exception that leaves the
    chain of handlers is answered, by the LLM-enabled server, with the
    envelope [{"error": str(e)}] and, by the base server, with the text
    "Error executing tool '<name>': <str(e)>"; in particular a refusal of the
    Kubernetes client during [connect_cluster] ends as such a text. *)
Theorem C6_exceptions_become_error_results (X : Externals) (mgr : LLM.LLMManager)
    (name : string) (args : ArgumentBag) (w : World) :
  (exists r w', EnhancedOpenShiftMCPServer.call_tool X mgr name args w = (Ret r, w'))
  /\ (forall e w', EnhancedOpenShiftMCPServer.call_tool_body X mgr name args w = (Raise e, w') ->
        EnhancedOpenShiftMCPServer.call_tool X mgr name args w = (Ret [("error", VStr (exn_str e))], w'))
  /\ (exists t w', OpenShiftMCPServer.handle_call_tool X name args w = (Ret t, w'))
  /\ (forall e w', OpenShiftMCPServer.handle_call_tool_body X name args w = (Raise e, w') ->
        OpenShiftMCPServer.handle_call_tool X name args w =
        (Ret ("Error executing tool '" +:+ name +:+ "': " +:+ exn_str e), w'))
  /\ (forall url tok e,
        args !! "cluster_url" = Some url -> args !! "token" = Some tok ->
        k8s_connect X (trace w) url tok = Raise e ->
        OpenShiftMCPServer.handle_call_tool X "connect_cluster" args w =
        (Ret ("Error executing tool 'connect_cluster': " +:+ exn_str e),
         mkWorld (cluster w) (trace w ++ [EvConnect url tok]))).
Proof.
  split; [|split; [|split; [|split]]].
  - unfold EnhancedOpenShiftMCPServer.call_tool, try_except.
    destruct (EnhancedOpenShiftMCPServer.call_tool_body X mgr name args w) as [[r|e] w']; eauto.
  - intros e w' Hb. unfold EnhancedOpenShiftMCPServer.call_tool, try_except. rewrite Hb. reflexivity.
  - unfold OpenShiftMCPServer.handle_call_tool, try_except.
    destruct (OpenShiftMCPServer.handle_call_tool_body X name args w) as [[r|e] w']; eauto.
  - intros e w' Hb. unfold OpenShiftMCPServer.handle_call_tool, try_except. rewrite Hb. reflexivity.
  - intros url tok e. apply base_connect_failure.
Qed.

(** The witness of C6: [delete_pod] on a connected LLM-enabled server looks up
    a method that the gateway class does not have. *)
Lemma C6_exceptions_become_error_results_witness :
  EnhancedOpenShiftMCPServer.call_tool quiet_world no_providers "delete_pod"
    {[ "namespace" := VStr "demo"; "pod_name" := VStr "web-1" ]} some_cluster =
  (Ret [("error", VStr (exn_str (AttributeError "OpenShiftCluster" "delete_pod")))],
   some_cluster).
Proof.
  apply (proj1 (proj2 (C6_exceptions_become_error_results quiet_world no_providers
           "delete_pod" {[ "namespace" := VStr "demo"; "pod_name" := VStr "web-1" ]}
           some_cluster))).
  vm_compute. reflexivity.
Defined.

(** The auto-connect of [main] passes three arguments as well: a server that
    starts without a handle still has none afterwards. *)
Lemma main_auto_connect_never_connects (X : Externals) (env : gmap string string)
    (tr : list Event) :
  EnhancedOpenShiftMCPServer.main_auto_connect X env (mkWorld None tr) = (Ret tt, mkWorld None tr).
Proof.
  unfold EnhancedOpenShiftMCPServer.main_auto_connect.
  destruct (LLM.env_truthy _ && LLM.env_truthy _); reflexivity.
Qed.

(** C9: in the LLM-enabled server, [connect_cluster] with both [cluster_url]
    and [token] in the argument bag returns an error envelope and leaves the
    world, hence the global handle, as it was; when both values are truthy
    the error is the [TypeError] of the constructor, which is called with
    three arguments and takes two. *)
Theorem C9_connect_cluster_always_fails (X : Externals) (mgr : LLM.LLMManager)
    (args : ArgumentBag) (w : World) (url tok : Value) :
  args !! "cluster_url" = Some url -> args !! "token" = Some tok ->
  exists msg,
    EnhancedOpenShiftMCPServer.call_tool X mgr "connect_cluster" args w = (Ret [("error", VStr msg)], w)
    /\ (truthy url = true -> truthy tok = true ->
        msg = "OpenShiftCluster.__init__() takes 3 positional arguments but 4 were given").
Proof.
  intros Hu Ht.
  unfold EnhancedOpenShiftMCPServer.call_tool, EnhancedOpenShiftMCPServer.call_tool_body, EnhancedOpenShiftMCPServer._handle_connect_cluster, try_except.
  simpl String.eqb. cbv iota.
  unfold args_get, args_get_default. rewrite Hu, Ht. simpl.
  destruct (truthy url), (truthy tok); simpl; eexists; (split; [reflexivity|]);
    intros; try discriminate; reflexivity.
Qed.

Lemma C9_connect_cluster_always_fails_witness :
  exists msg,
    EnhancedOpenShiftMCPServer.call_tool quiet_world no_providers "connect_cluster"
      {[ "cluster_url" := VStr "https://api.example:6443"; "token" := VStr "sha256~t" ]}
      some_cluster
      = (Ret [("error", VStr msg)], some_cluster)
    /\ (truthy (VStr "https://api.example:6443") = true -> truthy (VStr "sha256~t") = true ->
        msg = "OpenShiftCluster.__init__() takes 3 positional arguments but 4 were given").
Proof.
  apply (C9_connect_cluster_always_fails quiet_world no_providers
           {[ "cluster_url" := VStr "https://api.example:6443"; "token" := VStr "sha256~t" ]}
           some_cluster (VStr "https://api.example:6443") (VStr "sha256~t")).
  - vm_compute. reflexivity.
  - vm_compute. reflexivity.
Defined.

Lemma load_name_self : OpenShiftMCPServer.load_name "self" = Raise (NameError "self").
Proof. reflexivity. Qed.

(** C10: in the base server, when a handle exists and the gateway returns a
    usage dictionary without the key ['error'], [get_resource_usage] answers
    the catch-all text: formatting the CPU total may already raise, and
    otherwise the name [self] is looked up and is not defined.  The rendered
    report is never returned. *)
Theorem C10_resource_usage_report_never_returned (X : Externals) (args : ArgumentBag)
    (w : World) (h : OpenShiftCluster) (ns : Value) (usage : Dict) (w1 : World) :
  cluster w = Some h -> args !! "namespace" = Some ns ->
  Gateway.get_resource_usage X h ns w = (Ret usage, w1) ->
  dict_has usage "error" = false ->
  exists e,
    OpenShiftMCPServer.handle_call_tool X "get_resource_usage" args w =
      (Ret ("Error executing tool 'get_resource_usage': " +:+ exn_str e), w1)
    /\ (forall cpu, dict_lookup usage "total_cpu_request" = Some cpu ->
        (exists s, format_2f X cpu = Ret s) -> e = NameError "self").
Proof.
  intros Hc Hns Hgw Herr.
  unfold OpenShiftMCPServer.handle_call_tool, try_except.
  change (OpenShiftMCPServer.handle_call_tool_body X "get_resource_usage" args)
    with (OpenShiftMCPServer.handle_get_resource_usage X args).
  unfold OpenShiftMCPServer.handle_get_resource_usage, OpenShiftMCPServer.with_cluster, bind, get_cluster, lift, args_getitem.
  cbv beta. rewrite Hc, Hns. cbv beta iota. rewrite Hgw. cbv beta iota.
  rewrite Herr. simpl negb. cbv beta iota.
  unfold dict_getitem.
  destruct (dict_lookup usage "total_cpu_request") as [cpu|] eqn:Hcpu.
  - destruct (format_2f X cpu) as [s|e] eqn:Hf.
    + exists (NameError "self"). split; [reflexivity | auto].
    + exists e. split; [reflexivity|]. intros cpu' [= <-] [s Hs]. congruence.
  - eexists. split; [reflexivity|]. intros cpu' [=].
Qed.

Lemma C10_resource_usage_report_never_returned_witness :
  exists e,
    OpenShiftMCPServer.handle_call_tool usage_world "get_resource_usage" {[ "namespace" := VStr "demo" ]}
      some_cluster =
    (Ret ("Error executing tool 'get_resource_usage': " +:+ exn_str e),
     mkWorld (cluster some_cluster) [EvCluster "get_resource_usage" [VStr "demo"]])
    /\ (forall cpu, dict_lookup usage_ok "total_cpu_request" = Some cpu ->
        (exists s, format_2f usage_world cpu = Ret s) -> e = NameError "self").
Proof.
  apply (C10_resource_usage_report_never_returned usage_world
           {[ "namespace" := VStr "demo" ]} some_cluster
           (mkCluster (VStr "https://api.example:6443") (VStr "sha256~t"))
           (VStr "demo") usage_ok).
  - reflexivity.
  - vm_compute. reflexivity.
  - reflexivity.
  - reflexivity.
Defined.

(** On that example the text is the [NameError] for [self]. *)
Example resource_usage_name_error :
  fst (OpenShiftMCPServer.handle_call_tool usage_world "get_resource_usage" {[ "namespace" := VStr "demo" ]}
         some_cluster) =
  Ret "Error executing tool 'get_resource_usage': name 'self' is not defined".
Proof. vm_compute. reflexivity. Qed.

(* ===================================================================== *)
(** * Part III: further properties of the code                            *)
(* ===================================================================== *)

(** ** The handle and the trace: how computations compose *)

Lemma keeps_ret {A : Type} (a : A) : keeps_handle (ret a).
Proof. intros w. reflexivity. Qed.

Lemma keeps_raise {A : Type} (e : PyExn) : keeps_handle (@raise A e).
Proof. intros w. reflexivity. Qed.

Lemma keeps_lift {A : Type} (o : Outcome A) : keeps_handle (lift o).
Proof. intros w. reflexivity. Qed.

Lemma keeps_get_cluster : keeps_handle get_cluster.
Proof. intros w. reflexivity. Qed.

Lemma keeps_outbound {A : Type} (ev : Event) (oracle : list Event -> Outcome A) :
  keeps_handle (outbound ev oracle).
Proof. intros w. reflexivity. Qed.

Lemma keeps_elapsed (X : Externals) : keeps_handle (LLM.elapsed X).
Proof. intros w. reflexivity. Qed.

Lemma keeps_bind {A B : Type} (m : M A) (k : A -> M B) :
  keeps_handle m -> (forall a, keeps_handle (k a)) -> keeps_handle (bind m k).
Proof.
  intros Hm Hk w. unfold bind. specialize (Hm w).
  destruct (m w) as [[a|e] w']; simpl in *; [rewrite Hk | ]; exact Hm.
Qed.

Lemma keeps_try {A : Type} (m : M A) (h : PyExn -> M A) :
  keeps_handle m -> (forall e, keeps_handle (h e)) -> keeps_handle (try_except m h).
Proof.
  intros Hm Hh w. unfold try_except. specialize (Hm w).
  destruct (m w) as [[a|e] w']; simpl in *; [|rewrite Hh]; exact Hm.
Qed.

Ltac keeps_step :=
  match goal with
  | |- keeps_handle (bind _ _) => apply keeps_bind; [|intros ?]
  | |- keeps_handle (try_except _ _) => apply keeps_try; [|intros ?]
  | |- keeps_handle (ret _) => apply keeps_ret
  | |- keeps_handle (raise _) => apply keeps_raise
  | |- keeps_handle (lift _) => apply keeps_lift
  | |- keeps_handle get_cluster => apply keeps_get_cluster
  | |- keeps_handle (outbound _ _) => apply keeps_outbound
  | |- keeps_handle (LLM.elapsed _) => apply keeps_elapsed
  | |- keeps_handle (if ?b then _ else _) => destruct b
  | |- keeps_handle (match ?x with _ => _ end) => destruct x
  end.

Lemma keeps_list_method X name h args : keeps_handle (Gateway.list_method X name h args).
Proof. unfold Gateway.list_method. repeat keeps_step. Qed.

Lemma keeps_dict_method X name h args f : keeps_handle (Gateway.dict_method X name h args f).
Proof. unfold Gateway.dict_method. repeat keeps_step. Qed.

Lemma keeps_get_pod_logs X h a b c : keeps_handle (Gateway.get_pod_logs X h a b c).
Proof. unfold Gateway.get_pod_logs. repeat keeps_step. Qed.

Lemma keeps_missing_method {A : Type} (n : string) : keeps_handle (@Gateway.missing_method A n).
Proof. unfold Gateway.missing_method. repeat keeps_step. Qed.

Lemma keeps_provider X p prompt context :
  keeps_handle (LLM.provider_generate_response X p prompt context).
Proof. unfold LLM.provider_generate_response. repeat keeps_step. Qed.

Lemma keeps_generate_response X self prompt context provider :
  keeps_handle (LLM.generate_response X self prompt context provider).
Proof.
  unfold LLM.generate_response, LLM.generate_with_default, LLM.generate_with.
  repeat keeps_step; apply keeps_provider.
Qed.

Lemma keeps_test_connection X p : keeps_handle (LLM.test_connection X p).
Proof. unfold LLM.test_connection. repeat keeps_step. Qed.

Lemma keeps_test_connections X ps : keeps_handle (LLM.test_connections X ps).
Proof.
  induction ps as [|[n p] ps IH]; simpl; repeat keeps_step; auto using keeps_test_connection.
Qed.

Ltac keeps_gateway :=
  first [ apply keeps_list_method | apply keeps_dict_method | apply keeps_get_pod_logs
        | apply keeps_missing_method | apply keeps_generate_response
        | apply keeps_test_connection | apply keeps_test_connections | apply keeps_provider ].

(** The constructor called with three arguments raises before anything else
    happens. *)
Lemma new_with_three_arguments_raises X a b c w :
  Gateway.new_OpenShiftCluster X [a; b; c] w =
  (Raise (TypeError "OpenShiftCluster.__init__() takes 3 positional arguments but 4 were given"),
   w).
Proof. reflexivity. Qed.

Lemma keeps_connect_cluster X args :
  keeps_handle (EnhancedOpenShiftMCPServer._handle_connect_cluster X args).
Proof.
  unfold EnhancedOpenShiftMCPServer._handle_connect_cluster.
  destruct (_ || _); [apply keeps_ret|].
  intros w. unfold bind. rewrite new_with_three_arguments_raises. reflexivity.
Qed.

(** ** The cluster gateway *)

(** The methods of [OpenShiftCluster] never raise, whatever the
    Kubernetes client does: each one returns a value, issues exactly one
    client call and leaves the handle alone; when the client raises, a
    listing returns the empty list, a dictionary method its error dictionary
    and [get_pod_logs] the text "Error retrieving logs: <e>". *)
Lemma gateway_methods_never_raise (X : Externals) (name : string) (h : OpenShiftCluster)
    (args : list Value) (on_error : PyExn -> Dict) (ns pod tail : Value) (w : World) :
  Gateway.list_method X name h args w =
    (Ret (match k8s_list X (trace w) name h args with Ret l => l | Raise _ => [] end),
     mkWorld (cluster w) (trace w ++ [EvCluster name args]))
  /\ Gateway.dict_method X name h args on_error w =
    (Ret (match k8s_dict X (trace w) name h args with Ret d => d | Raise e => on_error e end),
     mkWorld (cluster w) (trace w ++ [EvCluster name args]))
  /\ Gateway.get_pod_logs X h ns pod tail w =
    (Ret (match k8s_text X (trace w) "get_pod_logs" h [ns; pod; tail] with
          | Ret v => v
          | Raise e => VStr ("Error retrieving logs: " +:+ exn_str e)
          end),
     mkWorld (cluster w) (trace w ++ [EvCluster "get_pod_logs" [ns; pod; tail]])).
Proof.
  unfold Gateway.list_method, Gateway.dict_method, Gateway.get_pod_logs,
    try_except, outbound, ret.
  split; [|split].
  - destruct (k8s_list X (trace w) name h args); reflexivity.
  - destruct (k8s_dict X (trace w) name h args); reflexivity.
  - destruct (k8s_text X (trace w) "get_pod_logs" h [ns; pod; tail]); reflexivity.
Qed.

(** ** The LLM-enabled server *)

Lemma handle_kept_by_calls (X : Externals) (mgr : LLM.LLMManager)
    (calls : list (string * ArgumentBag)) (name : string) (args : ArgumentBag) (w : World) :
  cluster (snd (EnhancedOpenShiftMCPServer.call_tool X mgr name args w)) = cluster w
  /\ cluster (snd (serve X mgr calls w)) = cluster w.
Proof.
  assert (Hone : forall n a, keeps_handle (EnhancedOpenShiftMCPServer.call_tool X mgr n a)).
  { intros n a. unfold EnhancedOpenShiftMCPServer.call_tool.
    apply keeps_try; [|intros; apply keeps_ret].
    unfold EnhancedOpenShiftMCPServer.call_tool_body.
    repeat match goal with
           | |- keeps_handle (if String.eqb ?a ?b then _ else _) => destruct (String.eqb a b)
           end;
    try apply keeps_connect_cluster;
    unfold EnhancedOpenShiftMCPServer._handle_list_namespaces,
      EnhancedOpenShiftMCPServer._handle_list_applications,
      EnhancedOpenShiftMCPServer._handle_list_pods,
      EnhancedOpenShiftMCPServer._handle_list_services,
      EnhancedOpenShiftMCPServer._handle_list_routes,
      EnhancedOpenShiftMCPServer._handle_list_configmaps,
      EnhancedOpenShiftMCPServer._handle_list_secrets,
      EnhancedOpenShiftMCPServer._handle_get_pod_logs,
      EnhancedOpenShiftMCPServer._handle_get_resource_usage,
      EnhancedOpenShiftMCPServer._handle_scale_deployment,
      EnhancedOpenShiftMCPServer._handle_delete_pod,
      EnhancedOpenShiftMCPServer._handle_create_namespace,
      EnhancedOpenShiftMCPServer._handle_delete_namespace,
      EnhancedOpenShiftMCPServer._handle_ask_llm,
      EnhancedOpenShiftMCPServer._handle_get_llm_providers,
      EnhancedOpenShiftMCPServer._handle_test_llm_connection,
      EnhancedOpenShiftMCPServer._handle_intelligent_cluster_analysis,
      EnhancedOpenShiftMCPServer._handle_get_troubleshooting_help,
      EnhancedOpenShiftMCPServer.handle_listing, EnhancedOpenShiftMCPServer.with_cluster,
      Gateway.list_namespaces, Gateway.list_applications, Gateway.list_pods,
      Gateway.list_services, Gateway.list_routes, Gateway.list_configmaps,
      Gateway.list_secrets, Gateway.get_resource_usage, Gateway.scale_deployment,
      LLM.test_all_connections;
    repeat first [keeps_gateway | keeps_step]. }
  split; [apply Hone|].
  revert w. induction calls as [|[n a] calls IH]; intros w; simpl; [reflexivity|].
  pose proof (Hone n a w) as H1.
  destruct (EnhancedOpenShiftMCPServer.call_tool X mgr n a w) as [r w1]. simpl in H1.
  specialize (IH w1). destruct (serve X mgr calls w1) as [rs w2]. simpl in *. congruence.
Qed.

(** X1: no tool call of the LLM-enabled server changes the global cluster
    handle, whatever the tool, the arguments and the outside world; the same
    holds for any sequence of calls. *)
Theorem call_tool_keeps_handle (X : Externals) (mgr : LLM.LLMManager)
    (calls : list (string * ArgumentBag)) (name : string) (args : ArgumentBag) (w : World) :
  cluster (snd (EnhancedOpenShiftMCPServer.call_tool X mgr name args w)) = cluster w
  /\ cluster (snd (serve X mgr calls w)) = cluster w.
Proof. exact (handle_kept_by_calls X mgr calls name args w). Qed.

Lemma cluster_tool_answer_without_handle (X : Externals) (mgr : LLM.LLMManager)
    (name : string) (args : ArgumentBag) (w : World) :
  cluster w = None -> In name EnhancedOpenShiftMCPServer.cluster_tools ->
  EnhancedOpenShiftMCPServer.call_tool X mgr name args w =
  (Ret [("error", VStr "Not connected to cluster. Use connect_cluster first.")], w).
Proof.
  intros Hc Hin. destruct w as [c tr]. simpl in Hc. subst c.
  simpl in Hin. in_cases Hin; reflexivity.
Qed.

(** X2: a server that starts without a handle never gets one: after the
    auto-connect of [main] and any sequence of tool calls, every cluster tool
    still answers "Not connected to cluster. Use connect_cluster first." *)
Theorem cluster_tools_never_connected (X : Externals) (mgr : LLM.LLMManager)
    (env : gmap string string) (tr : list Event)
    (calls : list (string * ArgumentBag)) (name : string) (args : ArgumentBag) :
  In name EnhancedOpenShiftMCPServer.cluster_tools ->
  let started := snd (EnhancedOpenShiftMCPServer.main_auto_connect X env (mkWorld None tr)) in
  let w := snd (serve X mgr calls started) in
  EnhancedOpenShiftMCPServer.call_tool X mgr name args w =
  (Ret [("error", VStr "Not connected to cluster. Use connect_cluster first.")], w).
Proof.
  intros Hin started w.
  assert (cluster w = None) as Hc.
  { unfold w. rewrite (proj2 (handle_kept_by_calls X mgr calls "" ∅ started)).
    unfold started. rewrite main_auto_connect_never_connects. reflexivity. }
  exact (cluster_tool_answer_without_handle X mgr name args w Hc Hin).
Qed.

Lemma cluster_tools_never_connected_witness :
  let started :=
    snd (EnhancedOpenShiftMCPServer.main_auto_connect quiet_world
           {[ "OPENSHIFT_CLUSTER_URL" := "https://api.example:6443";
              "OPENSHIFT_TOKEN" := "sha256~t" ]} no_cluster) in
  let w :=
    snd (serve quiet_world no_providers
           [ ("connect_cluster",
              {[ "cluster_url" := VStr "https://api.example:6443";
                 "token" := VStr "sha256~t" ]}) ] started) in
  EnhancedOpenShiftMCPServer.call_tool quiet_world no_providers "list_pods"
    {[ "namespace" := VStr "demo" ]} w =
  (Ret [("error", VStr "Not connected to cluster. Use connect_cluster first.")], w).
Proof.
  apply (cluster_tools_never_connected quiet_world no_providers
           {[ "OPENSHIFT_CLUSTER_URL" := "https://api.example:6443";
              "OPENSHIFT_TOKEN" := "sha256~t" ]} []
           [ ("connect_cluster",
              {[ "cluster_url" := VStr "https://api.example:6443";
                 "token" := VStr "sha256~t" ]}) ] "list_pods"
           {[ "namespace" := VStr "demo" ]}).
  simpl. tauto.
Defined.

(** X3: [delete_pod], [create_namespace] and [delete_namespace] of the
    LLM-enabled server can never succeed: the gateway class defines none of
    these methods, so with a handle and complete arguments the call ends in
    the [AttributeError] text; in every case the answer is an error envelope
    and the world is unchanged. *)
Theorem unsupported_mutations_always_fail (X : Externals) (mgr : LLM.LLMManager)
    (name : string) (args : ArgumentBag) (w : World) :
  In name ["delete_pod"; "create_namespace"; "delete_namespace"] ->
  exists msg,
    EnhancedOpenShiftMCPServer.call_tool X mgr name args w = (Ret [("error", VStr msg)], w)
    /\ (msg = "Not connected to cluster. Use connect_cluster first."
        \/ says_required msg "name" = true \/ says_required msg "namespace" = true
        \/ msg = exn_str (AttributeError "OpenShiftCluster" name)).
Proof.
  intros Hin. simpl in Hin. destruct w as [c tr]. in_cases Hin;
  unfold EnhancedOpenShiftMCPServer.call_tool, EnhancedOpenShiftMCPServer.call_tool_body,
    try_except; simpl String.eqb; cbv iota;
  unfold EnhancedOpenShiftMCPServer._handle_delete_pod,
    EnhancedOpenShiftMCPServer._handle_create_namespace,
    EnhancedOpenShiftMCPServer._handle_delete_namespace,
    EnhancedOpenShiftMCPServer.with_cluster, bind, get_cluster, ret; simpl;
  destruct c as [h|]; simpl; try (eexists; split; [reflexivity|]; auto; fail).
  - destruct (truthy (args_get args "namespace")), (truthy (args_get args "pod_name")); simpl;
      eexists; (split; [reflexivity|]); auto 6.
  - destruct (truthy (args_get args "name")); simpl;
      eexists; (split; [reflexivity|]); auto 6.
  - destruct (truthy (args_get args "name")); simpl;
      eexists; (split; [reflexivity|]); auto 6.
Qed.

Lemma unsupported_mutations_always_fail_witness :
  exists msg,
    EnhancedOpenShiftMCPServer.call_tool quiet_world no_providers "create_namespace"
      {[ "name" := VStr "demo" ]} some_cluster = (Ret [("error", VStr msg)], some_cluster)
    /\ (msg = "Not connected to cluster. Use connect_cluster first."
        \/ says_required msg "name" = true \/ says_required msg "namespace" = true
        \/ msg = exn_str (AttributeError "OpenShiftCluster" "create_namespace")).
Proof.
  apply (unsupported_mutations_always_fail quiet_world no_providers "create_namespace").
  simpl. tauto.
Defined.

(** X4: in the LLM-enabled server a listing with a handle and a namespace
    issues exactly one gateway call and answers under its key with the list
    of the Kubernetes client; when the client raises, the answer is the empty
    list: a failed listing and an empty namespace look the same. *)
Theorem listing_hides_client_failure (X : Externals) (mgr : LLM.LLMManager)
    (name key : string) (args : ArgumentBag) (w : World) (h : OpenShiftCluster) (ns : Value) :
  In (name, key) listing_tools ->
  cluster w = Some h -> args !! "namespace" = Some ns -> truthy ns = true ->
  EnhancedOpenShiftMCPServer.call_tool X mgr name args w =
  (Ret [(key, VList (client_list X (trace w) name h [ns]))],
   mkWorld (cluster w) (trace w ++ [EvCluster name [ns]])).
Proof.
  intros Hin Hc Hns Ht. destruct w as [c tr]. simpl in Hc. subst c.
  simpl in Hin. in_cases Hin;
  unfold EnhancedOpenShiftMCPServer.call_tool, EnhancedOpenShiftMCPServer.call_tool_body,
    try_except; simpl String.eqb; cbv iota;
  unfold EnhancedOpenShiftMCPServer._handle_list_applications,
    EnhancedOpenShiftMCPServer._handle_list_pods,
    EnhancedOpenShiftMCPServer._handle_list_services,
    EnhancedOpenShiftMCPServer._handle_list_routes,
    EnhancedOpenShiftMCPServer._handle_list_configmaps,
    EnhancedOpenShiftMCPServer._handle_list_secrets,
    EnhancedOpenShiftMCPServer.handle_listing, EnhancedOpenShiftMCPServer.with_cluster,
    bind, get_cluster, args_get;
  rewrite Hns; simpl; rewrite Ht; simpl;
  unfold Gateway.list_applications, Gateway.list_pods, Gateway.list_services,
    Gateway.list_routes, Gateway.list_configmaps, Gateway.list_secrets,
    Gateway.list_method, try_except, outbound, client_list; simpl;
  match goal with |- context [k8s_list ?a ?b ?c ?d ?e] => destruct (k8s_list a b c d e) end;
  reflexivity.
Qed.

Lemma listing_hides_client_failure_witness :
  EnhancedOpenShiftMCPServer.call_tool failing_world no_providers "list_pods"
    {[ "namespace" := VStr "demo" ]} some_cluster =
  (Ret [("pods", VList (client_list failing_world (trace some_cluster) "list_pods"
                          (mkCluster (VStr "https://api.example:6443") (VStr "sha256~t"))
                          [VStr "demo"]))],
   mkWorld (cluster some_cluster) (trace some_cluster ++ [EvCluster "list_pods" [VStr "demo"]])).
Proof.
  apply (listing_hides_client_failure failing_world no_providers "list_pods" "pods").
  - simpl. tauto.
  - reflexivity.
  - vm_compute. reflexivity.
  - reflexivity.
Defined.

(** ** The vendor requests *)

Lemma provider_world_after (X : Externals) (p : LLM.BaseLLMProvider)
    (prompt context : Value) (w : World) :
  snd (LLM.provider_generate_response X p prompt context w) =
  mkWorld (cluster w)
    (trace w ++ [EvGenerate (LLM.provider_name p) (LLM.full_prompt X prompt context)]).
Proof.
  unfold LLM.provider_generate_response, try_except, bind, outbound, LLM.elapsed, ret.
  destruct p as [c|c|c|c]; simpl;
  match goal with |- context [match ?o with Ret _ => _ | Raise _ => _ end] => destruct o end;
  reflexivity.
Qed.

(** X5: every call of a provider's [generate_response] issues exactly one
    vendor request, for the prompt with the context in front of it, whether
    the vendor answers or raises; there is no retry and the cluster handle
    is not touched. *)
Theorem provider_issues_one_request (X : Externals) (p : LLM.BaseLLMProvider)
    (prompt context : Value) (w : World) :
  snd (LLM.provider_generate_response X p prompt context w) =
  mkWorld (cluster w)
    (trace w ++ [EvGenerate (LLM.provider_name p) (LLM.full_prompt X prompt context)]).
Proof. exact (provider_world_after X p prompt context w). Qed.

Lemma providers_lookup_In (ps : list (string * LLM.BaseLLMProvider)) (k : string)
    (p : LLM.BaseLLMProvider) :
  LLM.providers_lookup ps k = Some p -> In p (map snd ps).
Proof.
  induction ps as [|[k' p'] ps IH]; simpl; [discriminate|].
  destruct (String.eqb k' k); [intros [= ->]; auto | auto].
Qed.

Lemma manager_world_after (X : Externals) (self : LLM.LLMManager)
    (prompt context provider : Value) (w : World) :
  snd (LLM.generate_response X self prompt context provider w) = w
  \/ exists p, In p (map snd (LLM.providers self)) /\
       snd (LLM.generate_response X self prompt context provider w) =
       mkWorld (cluster w)
         (trace w ++ [EvGenerate (LLM.provider_name p) (LLM.full_prompt X prompt context)]).
Proof.
  assert (Hw : forall sel,
    snd (LLM.generate_with X self sel prompt context w) = w
    \/ exists p, In p (map snd (LLM.providers self)) /\
       snd (LLM.generate_with X self sel prompt context w) =
       mkWorld (cluster w)
         (trace w ++ [EvGenerate (LLM.provider_name p) (LLM.full_prompt X prompt context)])).
  { intros sel. unfold LLM.generate_with.
    destruct (LLM.providers_lookup _ sel) as [p|] eqn:Hp; [right|left; reflexivity].
    exists p. split; [eapply providers_lookup_In; eauto | apply provider_world_after]. }
  assert (Hd :
    snd (LLM.generate_with_default X self prompt context w) = w
    \/ exists p, In p (map snd (LLM.providers self)) /\
       snd (LLM.generate_with_default X self prompt context w) =
       mkWorld (cluster w)
         (trace w ++ [EvGenerate (LLM.provider_name p) (LLM.full_prompt X prompt context)])).
  { unfold LLM.generate_with_default. destruct (LLM.default_provider self) as [d|];
      [destruct (negb _); [apply Hw|left; reflexivity] | left; reflexivity]. }
  unfold LLM.generate_response.
  destruct provider as [| | | |s|l|d]; try exact Hd.
  - destruct (_ && _); [apply Hw | exact Hd].
  - destruct l; [exact Hd | left; reflexivity].
  - destruct d; [exact Hd | left; reflexivity].
Qed.

(** X6: [LLMManager.generate_response] issues at most one vendor request,
    and only to a provider that is configured: either the world is unchanged
    or the trace grows by one request to one of [providers]. *)
Theorem manager_issues_at_most_one_request (X : Externals) (self : LLM.LLMManager)
    (prompt context provider : Value) (w : World) :
  snd (LLM.generate_response X self prompt context provider w) = w
  \/ exists p, In p (map snd (LLM.providers self)) /\
       snd (LLM.generate_response X self prompt context provider w) =
       mkWorld (cluster w)
         (trace w ++ [EvGenerate (LLM.provider_name p) (LLM.full_prompt X prompt context)]).
Proof. exact (manager_world_after X self prompt context provider w). Qed.

Lemma test_connection_total (X : Externals) (p : LLM.BaseLLMProvider) (w : World) :
  exists b, LLM.test_connection X p w =
    (Ret b, mkWorld (cluster w) (trace w ++ [EvProbe (LLM.provider_name p)])).
Proof.
  unfold LLM.test_connection, try_except, bind, outbound, ret.
  destruct (vendor_probe X (trace w) (LLM.config p)); eexists; reflexivity.
Qed.

Lemma test_connections_total (X : Externals) (ps : list (string * LLM.BaseLLMProvider)) :
  forall w, exists results,
    LLM.test_connections X ps w =
      (Ret results,
       mkWorld (cluster w)
         (trace w ++ map (fun kp => EvProbe (LLM.provider_name (snd kp))) ps))
    /\ map fst results = map fst ps
    /\ Forall (fun kv => exists b, snd kv = VBool b) results.
Proof.
  induction ps as [|[n p] ps IH]; intros w; simpl.
  - exists []. rewrite app_nil_r. destruct w. repeat split; constructor.
  - unfold bind. destruct (test_connection_total X p w) as [b ->].
    destruct (IH (mkWorld (cluster w) (trace w ++ [EvProbe (LLM.provider_name p)])))
      as (rs & -> & Hk & Hv).
    exists ((n, VBool b) :: rs). simpl. rewrite <- app_assoc. simpl.
    repeat split; [by rewrite Hk | constructor; [eauto|exact Hv]].
Qed.

Lemma test_all_connections_total (X : Externals) (self : LLM.LLMManager)
    (w : World) :
  exists results,
    LLM.test_all_connections X self w =
      (Ret results,
       mkWorld (cluster w)
         (trace w ++ map (fun kp => EvProbe (LLM.provider_name (snd kp))) (LLM.providers self)))
    /\ map fst results = LLM.get_available_providers self
    /\ Forall (fun kv => exists b, snd kv = VBool b) results.
Proof.
  unfold LLM.test_all_connections, LLM.get_available_providers.
  destruct (test_connections_total X (LLM.providers self) w) as (rs & Hrun & Hkeys & Hvals).
  exists rs. split; [exact Hrun|]. split; [exact Hkeys | exact Hvals].
Qed.

(** X7: [test_all_connections] never raises: it probes every configured
    provider exactly once, in the order of configuration, and returns one
    boolean per provider under the provider's key, in the same order. *)
Theorem test_all_connections_probes_each_once (X : Externals) (self : LLM.LLMManager)
    (w : World) :
  exists results,
    LLM.test_all_connections X self w =
      (Ret results,
       mkWorld (cluster w)
         (trace w ++ map (fun kp => EvProbe (LLM.provider_name (snd kp))) (LLM.providers self)))
    /\ map fst results = LLM.get_available_providers self
    /\ Forall (fun kv => exists b, snd kv = VBool b) results.
Proof. exact (test_all_connections_total X self w). Qed.

(** ** The LLM tools of the server *)

Ltac world_of_request H :=
  match type of H with
  | LLM.generate_response ?a ?b ?c ?d ?e ?w0 = (_, ?w3) =>
      let Hreq := fresh "Hreq" in
      pose proof (manager_world_after a b c d e w0) as Hreq;
      rewrite H in Hreq; simpl in Hreq;
      destruct Hreq as [-> | (? & _ & ->)]
  end.

(** X8: with a handle, [intelligent_cluster_analysis] never lets an exception
    reach the dispatcher: its handler always returns.  It first lists the
    namespaces and, when a namespace is given, the pods, services and routes
    of that namespace, in this order; after that at most one vendor request
    follows, and the handle is unchanged. *)
Theorem analysis_gathers_then_asks (X : Externals) (mgr : LLM.LLMManager)
    (args : ArgumentBag) (w : World) (h : OpenShiftCluster) :
  cluster w = Some h ->
  exists r w' evs,
    EnhancedOpenShiftMCPServer.call_tool_body X mgr "intelligent_cluster_analysis" args w
      = (Ret r, w')
    /\ cluster w' = cluster w
    /\ trace w' = trace w ++ analysis_calls (args_get args "namespace") ++ evs
    /\ (evs = [] \/ exists p fp, evs = [EvGenerate p fp]).
Proof.
  intros Hc. destruct w as [c tr]. simpl in Hc. subst c.
  change (EnhancedOpenShiftMCPServer.call_tool_body X mgr "intelligent_cluster_analysis" args)
    with (EnhancedOpenShiftMCPServer._handle_intelligent_cluster_analysis X mgr args).
  unfold EnhancedOpenShiftMCPServer._handle_intelligent_cluster_analysis,
    EnhancedOpenShiftMCPServer.with_cluster, analysis_calls,
    Gateway.list_namespaces, Gateway.list_pods, Gateway.list_services, Gateway.list_routes,
    Gateway.list_method, try_except, bind, get_cluster, outbound, lift, ret.
  cbn [cluster trace fst snd].
  destruct (truthy (args_get args "namespace")) eqn:Hns; cbn [cluster trace];
  repeat match goal with
         | |- context [k8s_list ?a ?b ?c ?d ?e] =>
             destruct (k8s_list a b c d e); cbn [cluster trace]
         | |- context [EnhancedOpenShiftMCPServer.names_of ?l] =>
             destruct (EnhancedOpenShiftMCPServer.names_of l); cbn [cluster trace]
         end;
  try match goal with
      | |- context [LLM.generate_response ?a ?b ?c ?d ?e ?w0] =>
          let Hg := fresh "Hg" in
          destruct (LLM.generate_response a b c d e w0) as [[?|?] ?] eqn:Hg;
          world_of_request Hg
      end;
  try match goal with |- context [error_set ?x] => destruct (error_set x) end;
  cbn [cluster trace];
  eexists _, _, _; (split; [reflexivity|]); cbn [cluster trace];
  (split; [reflexivity|]); rewrite <- ?app_assoc; cbn [app];
  first [ solve [split; [reflexivity | right; eexists _, _; reflexivity]]
        | solve [instantiate (1 := []); rewrite ?app_nil_r;
                 split; [reflexivity | left; reflexivity]] ].
Qed.

Lemma analysis_gathers_then_asks_witness :
  exists r w' evs,
    EnhancedOpenShiftMCPServer.call_tool_body quiet_world gemini_manager
      "intelligent_cluster_analysis" {[ "namespace" := VStr "demo" ]} some_cluster
      = (Ret r, w')
    /\ cluster w' = cluster some_cluster
    /\ trace w' = trace some_cluster ++
         analysis_calls (args_get {[ "namespace" := VStr "demo" ]} "namespace") ++ evs
    /\ (evs = [] \/ exists p fp, evs = [EvGenerate p fp]).
Proof.
  apply (analysis_gathers_then_asks quiet_world gemini_manager
           {[ "namespace" := VStr "demo" ]} some_cluster
           (mkCluster (VStr "https://api.example:6443") (VStr "sha256~t"))).
  reflexivity.
Defined.




(** X10: [test_llm_connection] with the name of a provider that is not
    configured answers "Provider '<name>' not found" without probing any
    vendor; without a provider argument it probes every configured provider
    once and answers with one boolean per provider. *)
Theorem test_llm_connection_probes (X : Externals) (self : LLM.LLMManager)
    (arguments : ArgumentBag) (w : World) :
  (forall s, arguments !! "provider" = Some (VStr s) -> s <> "" ->
     LLM.providers_lookup (LLM.providers self) s = None ->
     EnhancedOpenShiftMCPServer.call_tool X self "test_llm_connection" arguments w =
     (Ret [("error", VStr ("Provider '" +:+ py_str X (VStr s) +:+ "' not found"))], w))
  /\ (arguments !! "provider" = None ->
      exists results,
        EnhancedOpenShiftMCPServer.call_tool X self "test_llm_connection" arguments w =
        (Ret [("connection_results", VDict results)],
         mkWorld (cluster w)
           (trace w ++ map (fun kp => EvProbe (LLM.provider_name (snd kp)))
                           (LLM.providers self)))
        /\ map fst results = LLM.get_available_providers self).
Proof.
  split.
  - intros s Hp Hne Hl.
    unfold EnhancedOpenShiftMCPServer.call_tool, try_except.
    change (EnhancedOpenShiftMCPServer.call_tool_body X self "test_llm_connection" arguments)
      with (EnhancedOpenShiftMCPServer._handle_test_llm_connection X self arguments).
    unfold EnhancedOpenShiftMCPServer._handle_test_llm_connection, args_get.
    rewrite Hp. change (default VNone (Some (VStr s))) with (VStr s).
    apply String.eqb_neq in Hne. unfold truthy. rewrite Hne.
    change (negb false) with true. cbv iota.
    rewrite Hl. reflexivity.
  - intros Hp.
    destruct (test_all_connections_total X self w) as (rs & Hrun & Hkeys & _).
    exists rs. split; [|exact Hkeys].
    unfold EnhancedOpenShiftMCPServer.call_tool, try_except.
    change (EnhancedOpenShiftMCPServer.call_tool_body X self "test_llm_connection" arguments)
      with (EnhancedOpenShiftMCPServer._handle_test_llm_connection X self arguments).
    unfold EnhancedOpenShiftMCPServer._handle_test_llm_connection, args_get.
    rewrite Hp. change (default VNone None) with VNone. unfold truthy. cbv iota.
    unfold bind. rewrite Hrun. reflexivity.
Qed.

Lemma test_llm_connection_probes_witness :
  EnhancedOpenShiftMCPServer.call_tool quiet_world gemini_manager "test_llm_connection"
    {[ "provider" := VStr "mistral" ]} no_cluster =
  (Ret [("error", VStr ("Provider '" +:+ py_str quiet_world (VStr "mistral") +:+ "' not found"))],
   no_cluster).
Proof.
  apply (proj1 (test_llm_connection_probes quiet_world gemini_manager
                  {[ "provider" := VStr "mistral" ]} no_cluster) "mistral").
  - vm_compute. reflexivity.
  - discriminate.
  - reflexivity.
Defined.

(** ** The base server *)

(** X11: in the base server, a call with a handle whose argument bag lacks
    ["namespace"] ends in the catch-all text with the [KeyError] of the
    look-up, "Error executing tool '<name>': 'namespace'"; no gateway call is
    made and the world is unchanged. *)
Theorem base_missing_namespace (X : Externals) (name : string) (args : ArgumentBag)
    (w : World) (h : OpenShiftCluster) :
  In name namespace_tools -> cluster w = Some h -> args !! "namespace" = None ->
  OpenShiftMCPServer.handle_call_tool X name args w =
  (Ret ("Error executing tool '" +:+ name +:+ "': 'namespace'"), w).
Proof.
  intros Hin Hc Hns. destruct w as [c tr]. simpl in Hc. subst c.
  simpl in Hin. in_cases Hin;
  unfold OpenShiftMCPServer.handle_call_tool, OpenShiftMCPServer.handle_call_tool_body,
    try_except; simpl String.eqb; cbv iota;
  unfold OpenShiftMCPServer.handle_listing, OpenShiftMCPServer.handle_get_resource_usage,
    OpenShiftMCPServer.with_cluster, bind, get_cluster, lift, args_getitem;
  rewrite Hns; reflexivity.
Qed.

Lemma base_missing_namespace_witness :
  OpenShiftMCPServer.handle_call_tool quiet_world "scale_deployment"
    {[ "deployment_name" := VStr "web"; "replicas" := VInt 3 ]} some_cluster =
  (Ret "Error executing tool 'scale_deployment': 'namespace'", some_cluster).
Proof.
  apply (base_missing_namespace quiet_world "scale_deployment"
           {[ "deployment_name" := VStr "web"; "replicas" := VInt 3 ]} some_cluster
           (mkCluster (VStr "https://api.example:6443") (VStr "sha256~t"))).
  - simpl. tauto.
  - reflexivity.
  - vm_compute. reflexivity.
Defined.

(** X12: [connect_cluster] of the base server calls the Kubernetes client
    once.  When the client accepts, the global handle is replaced by a handle
    for the given URL and token, whatever handle was there before; when the
    client raises, the previous handle (or its absence) is kept. *)
Theorem base_connect_replaces_or_keeps (X : Externals) (args : ArgumentBag) (w : World)
    (url tok : Value) :
  args !! "cluster_url" = Some url -> args !! "token" = Some tok ->
  (k8s_connect X (trace w) url tok = Ret tt ->
     OpenShiftMCPServer.handle_call_tool X "connect_cluster" args w =
     (Ret ("Successfully connected to OpenShift cluster: " +:+ py_str X url),
      mkWorld (Some (mkCluster url tok)) (trace w ++ [EvConnect url tok])))
  /\ (forall e, k8s_connect X (trace w) url tok = Raise e ->
        OpenShiftMCPServer.handle_call_tool X "connect_cluster" args w =
        (Ret ("Error executing tool 'connect_cluster': " +:+ exn_str e),
         mkWorld (cluster w) (trace w ++ [EvConnect url tok]))).
Proof.
  intros Hu Ht. split.
  - intros Hk.
    unfold OpenShiftMCPServer.handle_call_tool, try_except.
    unfold OpenShiftMCPServer.handle_call_tool_body. simpl String.eqb. cbv iota.
    unfold bind, lift, args_getitem, Gateway.new_OpenShiftCluster, outbound.
    rewrite Hu, Ht. simpl. unfold bind. rewrite Hk. reflexivity.
  - intros e. apply base_connect_failure; assumption.
Qed.

Lemma base_connect_replaces_or_keeps_witness :
  OpenShiftMCPServer.handle_call_tool quiet_world "connect_cluster"
    {[ "cluster_url" := VStr "https://other:6443"; "token" := VStr "sha256~u" ]} some_cluster =
  (Ret ("Successfully connected to OpenShift cluster: " +:+
        py_str quiet_world (VStr "https://other:6443")),
   mkWorld (Some (mkCluster (VStr "https://other:6443") (VStr "sha256~u")))
     (trace some_cluster ++ [EvConnect (VStr "https://other:6443") (VStr "sha256~u")])).
Proof.
  destruct (base_connect_replaces_or_keeps quiet_world
              {[ "cluster_url" := VStr "https://other:6443"; "token" := VStr "sha256~u" ]}
              some_cluster (VStr "https://other:6443") (VStr "sha256~u")) as [Hok _].
  - vm_compute. reflexivity.
  - vm_compute. reflexivity.
  - apply Hok. reflexivity.
Defined.

(** X13: in the base server a listing whose gateway call returns the empty
    list, or whose Kubernetes client raises, answers "No <things> found in
    namespace '<ns>' or error occurred.": the two cases cannot be told
    apart. *)
Theorem base_listing_empty_or_failed (X : Externals) (name what : string)
    (args : ArgumentBag) (w : World) (h : OpenShiftCluster) (ns : Value) :
  In (name, what) listing_tools ->
  cluster w = Some h -> args !! "namespace" = Some ns ->
  (k8s_list X (trace w) name h [ns] = Ret [] \/
   exists e, k8s_list X (trace w) name h [ns] = Raise e) ->
  OpenShiftMCPServer.handle_call_tool X name args w =
  (Ret ("No " +:+ what +:+ " found in namespace '" +:+ py_str X ns +:+ "' or error occurred."),
   mkWorld (cluster w) (trace w ++ [EvCluster name [ns]])).
Proof.
  intros Hin Hc Hns Hk. destruct w as [c tr]. simpl in Hc. subst c.
  simpl in Hin. in_cases Hin;
  unfold OpenShiftMCPServer.handle_call_tool, OpenShiftMCPServer.handle_call_tool_body,
    try_except; simpl String.eqb; cbv iota;
  unfold OpenShiftMCPServer.handle_listing, OpenShiftMCPServer.with_cluster,
    bind, get_cluster, lift, args_getitem;
  rewrite Hns; simpl;
  unfold Gateway.list_applications, Gateway.list_pods, Gateway.list_services,
    Gateway.list_routes, Gateway.list_configmaps, Gateway.list_secrets,
    Gateway.list_method, try_except, outbound; simpl in Hk |- *;
  destruct Hk as [-> | [e ->]]; reflexivity.
Qed.

Lemma base_listing_empty_or_failed_witness :
  OpenShiftMCPServer.handle_call_tool failing_world "list_routes"
    {[ "namespace" := VStr "demo" ]} some_cluster =
  (Ret ("No " +:+ "routes" +:+ " found in namespace '" +:+
        py_str failing_world (VStr "demo") +:+ "' or error occurred."),
   mkWorld (cluster some_cluster) (trace some_cluster ++ [EvCluster "list_routes" [VStr "demo"]])).
Proof.
  apply (base_listing_empty_or_failed failing_world "list_routes" "routes"
           {[ "namespace" := VStr "demo" ]} some_cluster
           (mkCluster (VStr "https://api.example:6443") (VStr "sha256~t")) (VStr "demo")).
  - simpl. tauto.
  - reflexivity.
  - vm_compute. reflexivity.
  - right. eexists. reflexivity.
Defined.

(** X14: in the base server only [connect_cluster] can change the global
    handle: every other tool call, known or unknown, leaves it as it was. *)
Theorem base_only_connect_changes_handle (X : Externals) (name : string)
    (args : ArgumentBag) (w : World) :
  name <> "connect_cluster" ->
  cluster (snd (OpenShiftMCPServer.handle_call_tool X name args w)) = cluster w.
Proof.
  intros Hne. apply String.eqb_neq in Hne.
  revert w. change (keeps_handle (OpenShiftMCPServer.handle_call_tool X name args)).
  unfold OpenShiftMCPServer.handle_call_tool.
  apply keeps_try; [|intros; apply keeps_ret].
  unfold OpenShiftMCPServer.handle_call_tool_body. rewrite Hne.
  repeat match goal with
         | |- keeps_handle (if String.eqb ?a ?b then _ else _) => destruct (String.eqb a b)
         end;
  unfold OpenShiftMCPServer.handle_listing, OpenShiftMCPServer.handle_get_resource_usage,
    OpenShiftMCPServer.with_cluster,
    Gateway.list_namespaces, Gateway.list_applications, Gateway.list_pods,
    Gateway.list_services, Gateway.list_routes, Gateway.list_configmaps,
    Gateway.list_secrets, Gateway.describe_resource, Gateway.get_namespace_info,
    Gateway.scale_deployment, Gateway.restart_deployment, Gateway.get_cluster_health,
    Gateway.get_resource_usage;
  repeat first [keeps_gateway | keeps_step].
Qed.

Lemma base_only_connect_changes_handle_witness :
  cluster (snd (OpenShiftMCPServer.handle_call_tool quiet_world "restart_deployment"
                  {[ "namespace" := VStr "demo"; "deployment_name" := VStr "web" ]}
                  some_cluster)) = cluster some_cluster.
Proof.
  apply (base_only_connect_changes_handle quiet_world "restart_deployment"). discriminate.
Defined.

(** ** Provider setup *)



Lemma setup_lookup_sound (X : Externals) (env : gmap string string)
    (self : LLM.LLMManager) (k : string) (p : LLM.BaseLLMProvider) :
  LLM.setup_providers X env = Ret self ->
  LLM.providers_lookup (LLM.providers self) k = Some p ->
  LLM.provider_name p = k
  /\ configured env k = true
  /\ LLM.getenv env (api_key_variable k) = Some (cfg_api_key (LLM.config p)).
Proof.
  unfold LLM.setup_providers, configured.
  intros H Hl. unfold LLM.getenv in *.
  destruct (env !! "GEMINI_API_KEY") as [g|] eqn:Hg;
  destruct (env !! "OPENAI_API_KEY") as [o|] eqn:Ho;
  destruct (env !! "ANTHROPIC_API_KEY") as [a|] eqn:Ha;
  destruct (env !! "CUSTOM_LLM_API_KEY") as [c|] eqn:Hc;
  destruct (env !! "CUSTOM_LLM_BASE_URL") as [u|] eqn:Hu;
  unfold LLM.env_truthy in *;
  repeat match type of H with
         | context [String.eqb ?x ""] =>
             let E := fresh "E" in destruct (String.eqb x "") eqn:E
         end;
  cbn [negb andb] in H |- *;
  repeat (match type of H with
          | context [LLM.getenv_int ?a ?b ?c ?d] =>
              destruct (LLM.getenv_int a b c d); cbn [obind] in H; [|discriminate H]
          | context [LLM.getenv_float ?a ?b ?c ?d] =>
              destruct (LLM.getenv_float a b c d); cbn [obind] in H; [|discriminate H]
          | context [LLM.new_GeminiProvider ?x ?c] =>
              unfold LLM.new_GeminiProvider in H;
              destruct (vendor_client x c); cbn [obind] in H; [|discriminate H]
          | context [LLM.new_OpenAIProvider ?x ?c] =>
              unfold LLM.new_OpenAIProvider in H;
              destruct (vendor_client x c); cbn [obind] in H; [|discriminate H]
          | context [LLM.new_ClaudeProvider ?x ?c] =>
              unfold LLM.new_ClaudeProvider in H;
              destruct (vendor_client x c); cbn [obind] in H; [|discriminate H]
          | context [LLM.new_CustomLLMProvider ?c] =>
              let E := fresh "E" in
              destruct (LLM.new_CustomLLMProvider c) eqn:E; cbn [obind] in H;
              [|discriminate H]
          end);
  cbn in H; injection H as <-; cbn [LLM.providers LLM.providers_lookup] in Hl;
  repeat match type of Hl with
         | context [String.eqb ?x k] =>
             let E := fresh "E" in
             destruct (String.eqb x k) eqn:E;
             [apply String.eqb_eq in E; subst k; injection Hl as <- | ]
         end;
  try discriminate Hl;
  try match goal with
      | E : LLM.new_CustomLLMProvider _ = Ret _ |- _ =>
          unfold LLM.new_CustomLLMProvider in E; cbn in E;
          repeat match type of E with
                 | context [String.eqb ?x ""] => destruct (String.eqb x "")
                 end;
          try discriminate E; injection E as <-
      end;
  cbn; rewrite ?Hg, ?Ho, ?Ha, ?Hc, ?Hu; cbn; rewrite ?E, ?E0, ?E1, ?E2, ?E3;
  repeat split; reflexivity.
Qed.

(** X16: after [setup_providers], looking a provider up under a key returns
    an object that belongs to that key: its [provider_name] is the key, the
    key is configured in the environment, and the API key it holds is the
    value of the key's environment variable. *)
Theorem setup_lookup_matches_key (X : Externals) (env : gmap string string)
    (self : LLM.LLMManager) (k : string) (p : LLM.BaseLLMProvider) :
  LLM.setup_providers X env = Ret self ->
  LLM.providers_lookup (LLM.providers self) k = Some p ->
  LLM.provider_name p = k
  /\ configured env k = true
  /\ LLM.getenv env (api_key_variable k) = Some (cfg_api_key (LLM.config p)).
Proof. exact (setup_lookup_sound X env self k p). Qed.

Lemma setup_lookup_matches_key_witness :
  exists self p,
    LLM.setup_providers quiet_world gemini_openai_env = Ret self
    /\ LLM.providers_lookup (LLM.providers self) "openai" = Some p
    /\ LLM.provider_name p = "openai"
    /\ configured gemini_openai_env "openai" = true
    /\ LLM.getenv gemini_openai_env (api_key_variable "openai") =
       Some (cfg_api_key (LLM.config p)).
Proof.
  eexists _, _. split; [vm_compute; reflexivity|]. split; [reflexivity|].
  eapply (setup_lookup_matches_key quiet_world gemini_openai_env).
  - vm_compute. reflexivity.
  - reflexivity.
Defined.

Lemma provider_response_fields (X : Externals) (p : LLM.BaseLLMProvider)
    (prompt context : Value) (w : World) (r : LLM.LLMResponse) (w' : World) :
  LLM.provider_generate_response X p prompt context w = (Ret r, w') ->
  LLM.provider r = LLM.provider_name p /\ LLM.model r = cfg_model (LLM.config p).
Proof.
  unfold LLM.provider_generate_response, try_except, bind, outbound, LLM.elapsed, ret.
  destruct p as [c|c|c|c]; simpl;
  match goal with |- context [match ?o with Ret _ => _ | Raise _ => _ end] => destruct o end;
  simpl; intros [= <- <-]; split; reflexivity.
Qed.

(** X17: when the explicit provider argument names a configured provider,
    the response that comes back carries that name in its [provider] field
    and the configured model in its [model] field, whether the vendor
    answered or raised. *)
Theorem response_names_selected_provider (X : Externals) (env : gmap string string)
    (self : LLM.LLMManager) (prompt context : Value) (s : string)
    (p : LLM.BaseLLMProvider) (w : World) :
  LLM.setup_providers X env = Ret self ->
  LLM.providers_lookup (LLM.providers self) s = Some p ->
  exists r w',
    LLM.generate_response X self prompt context (VStr s) w = (Ret r, w')
    /\ LLM.provider r = s
    /\ LLM.model r = cfg_model (LLM.config p).
Proof.
  intros Hs Hl.
  destruct (setup_lookup_sound X env self s p Hs Hl) as (Hname & _ & _).
  pose proof (setup_providers_key_nonempty X env self s p Hs Hl) as Hne.
  apply String.eqb_neq in Hne.
  unfold LLM.generate_response. rewrite Hne, Hl. simpl.
  unfold LLM.generate_with. rewrite Hl.
  destruct (provider_response_total X p prompt context w) as (r & w' & Hr & _).
  exists r, w'. split; [exact Hr|].
  destruct (provider_response_fields X p prompt context w r w' Hr) as [Hp Hm].
  split; [congruence | exact Hm].
Qed.

Lemma response_names_selected_provider_witness :
  exists self p r w',
    LLM.setup_providers failing_world gemini_openai_env = Ret self
    /\ LLM.providers_lookup (LLM.providers self) "openai" = Some p
    /\ LLM.generate_response failing_world self (VStr "hi") VNone (VStr "openai") no_cluster
       = (Ret r, w')
    /\ LLM.provider r = "openai"
    /\ LLM.model r = cfg_model (LLM.config p).
Proof.
  destruct (LLM.setup_providers failing_world gemini_openai_env) as [self|e] eqn:Hs;
    [|vm_compute in Hs; discriminate Hs].
  destruct (LLM.providers_lookup (LLM.providers self) "openai") as [p|] eqn:Hl;
    [|vm_compute in Hs; injection Hs as <-; vm_compute in Hl; discriminate Hl].
  destruct (response_names_selected_provider failing_world gemini_openai_env self
              (VStr "hi") VNone "openai" p no_cluster Hs Hl) as (r & w' & Hr & Hp & Hm).
  exists self, p, r, w'. repeat split; assumption.
Defined.

(** ** The router and the history of the direct client *)

Lemma route_cases (q : string) :
  DirectMCPClient.process_user_query_route q = ("list_namespaces", ∅)
  \/ DirectMCPClient.process_user_query_route q =
       ("list_pods", {[ "namespace" := VStr "default" ]})
  \/ DirectMCPClient.process_user_query_route q = ("connect_cluster", ∅)
  \/ DirectMCPClient.process_user_query_route q = ("ask_llm", {[ "question" := VStr q ]}).
Proof.
  unfold DirectMCPClient.process_user_query_route.
  destruct (py_in "namespace" (lower q)) eqn:Hns;
  destruct (py_in "list" (lower q)) eqn:Hl;
  destruct (py_in "pod" (lower q)) eqn:Hp; simpl;
  repeat (case_match; simpl); auto.
Qed.

(** X18: the router always answers one of four shapes: [list_namespaces]
    without arguments, [list_pods] with the namespace "default",
    [connect_cluster] without arguments, or [ask_llm] with the query text,
    verbatim, as the question.  The tool is therefore always one that
    [simulate_mcp_tool_execution] knows. *)
Theorem route_answers_one_of_four (q : string) :
  In (DirectMCPClient.process_user_query_route q)
     [ ("list_namespaces", ∅);
       ("list_pods", {[ "namespace" := VStr "default" ]});
       ("connect_cluster", ∅);
       ("ask_llm", {[ "question" := VStr q ]}) ]
  /\ In (fst (DirectMCPClient.process_user_query_route q)) simulated_tools.
Proof.
  destruct (route_cases q) as [H|[H|[H|H]]]; rewrite H; simpl; tauto.
Qed.

Lemma ascii_lower_idempotent (c : ascii) : ascii_lower (ascii_lower c) = ascii_lower c.
Proof. destruct c as [[] [] [] [] [] [] [] []]; reflexivity. Qed.

Lemma lower_idempotent (s : string) : lower (lower s) = lower s.
Proof.
  induction s as [|c s IH]; simpl; [reflexivity|].
  by rewrite ascii_lower_idempotent, IH.
Qed.

(** X19: routing does not depend on the case of the query: the lower-cased
    query is routed to the same tool, and to the same argument bag unless the
    tool is [ask_llm], whose question is the text as typed. *)
Theorem route_ignores_case (q : string) :
  fst (DirectMCPClient.process_user_query_route (lower q)) =
  fst (DirectMCPClient.process_user_query_route q)
  /\ (fst (DirectMCPClient.process_user_query_route q) <> "ask_llm" ->
      DirectMCPClient.process_user_query_route (lower q) =
      DirectMCPClient.process_user_query_route q).
Proof.
  unfold DirectMCPClient.process_user_query_route. rewrite lower_idempotent.
  destruct (py_in "namespace" (lower q));
  destruct (py_in "list" (lower q));
  destruct (py_in "pod" (lower q));
  destruct (py_in "connect" (lower q));
  destruct (py_in "cluster" (lower q)); simpl;
  repeat (case_match; simpl); split; try reflexivity; intros Hne; try reflexivity;
  exfalso; apply Hne; reflexivity.
Qed.

Lemma route_ignores_case_witness :
  DirectMCPClient.process_user_query_route (lower "LIST Pods") =
  DirectMCPClient.process_user_query_route "LIST Pods".
Proof.
  apply (proj2 (route_ignores_case "LIST Pods")). vm_compute. discriminate.
Defined.

Lemma process_user_query_appends (run_tool : string -> ArgumentBag -> Outcome string)
    (ts : string) (t : float) (h : list Dict) (q : string) :
  exists response tool,
    DirectMCPClient.process_user_query run_tool ts t h q =
      (response, h ++ [record_of (mkInteraction ts q response tool t)])
    /\ (In tool simulated_tools \/ tool = "error").
Proof.
  unfold DirectMCPClient.process_user_query.
  destruct (route_cases q) as [H|[H|[H|H]]]; rewrite H;
  match goal with |- context [run_tool ?a ?b] => destruct (run_tool a b) as [resp|e] end;
  eexists _, _; (split; [reflexivity|]); simpl; tauto.
Qed.

(** X20: a session of the direct client leaves exactly one history record per
    query, appended in the order of the queries and after whatever was there
    before; each record holds the query text verbatim and, as its tool, one
    of the four routed tools or "error". *)
Theorem query_session_records_every_query
    (run_tool : string -> ArgumentBag -> Outcome string) (qs : list Query) (h : list Dict) :
  exists added,
    query_session run_tool qs h = h ++ added
    /\ map (fun d => dict_lookup d "user_query") added =
       map (fun q => Some (VStr (q_text q))) qs
    /\ Forall (fun d => exists tool, dict_lookup d "tool_used" = Some (VStr tool)
                                     /\ (In tool simulated_tools \/ tool = "error")) added.
Proof.
  revert h. induction qs as [|q qs IH]; intros h.
  - exists []. simpl. rewrite app_nil_r. repeat split. constructor.
  - unfold query_session. simpl.
    destruct (process_user_query_appends run_tool (q_timestamp q) (q_time q) h (q_text q))
      as (resp & tool & Hrun & Htool).
    rewrite Hrun. simpl snd.
    destruct (IH (h ++ [record_of (mkInteraction (q_timestamp q) (q_text q) resp tool (q_time q))]))
      as (added & Hs & Hq & Ht).
    unfold query_session in Hs. rewrite Hs.
    exists (record_of (mkInteraction (q_timestamp q) (q_text q) resp tool (q_time q)) :: added).
    split; [by rewrite <- app_assoc|]. split.
    + simpl. by rewrite Hq.
    + constructor; [|exact Ht]. exists tool. split; [reflexivity | exact Htool].
Qed.

Lemma query_session_interactions (run_tool : string -> ArgumentBag -> Outcome string)
    (qs : list Query) : forall h,
  exists xs,
    query_session run_tool qs h = client_session xs h
    /\ map i_query xs = map q_text qs
    /\ Forall (fun x => In (i_tool x) simulated_tools \/ i_tool x = "error") xs.
Proof.
  induction qs as [|q qs IH]; intros h.
  - exists []. repeat split. constructor.
  - unfold query_session. cbn [fold_left].
    destruct (process_user_query_appends run_tool (q_timestamp q) (q_time q) h (q_text q))
      as (resp & tool & Hrun & Htool).
    rewrite Hrun. cbn [snd].
    destruct (IH (h ++ [record_of (mkInteraction (q_timestamp q) (q_text q) resp tool (q_time q))]))
      as (xs & Hs & Hq & Ht).
    unfold query_session in Hs. rewrite Hs.
    exists (mkInteraction (q_timestamp q) (q_text q) resp tool (q_time q) :: xs).
    split; [reflexivity|]. split.
    + cbn [map i_query]. by rewrite Hq.
    + constructor; [exact Htool | exact Ht].
Qed.

Lemma numbered_lines_length (X : Externals) (xs : list Interaction) : forall i,
  length (numbered_lines X i xs) = 3 * length xs.
Proof. induction xs as [|x xs IH]; intros i; simpl; [reflexivity | rewrite IH; lia]. Qed.

(** X21: after any session of the direct client, [_show_history] does not
    raise.  After no query it prints "No conversation history yet."; after
    [n > 0] queries it prints the header with the count [n] and three lines
    for each of the last [min n 5] queries, numbered from 1, oldest first,
    each with its query text cut to 50 characters and its tool. *)
Theorem show_history_after_queries (X : Externals)
    (run_tool : string -> ArgumentBag -> Outcome string) (qs : list Query) :
  exists xs,
    map i_query xs = map q_text qs
    /\ Forall (fun x => In (i_tool x) simulated_tools \/ i_tool x = "error") xs
    /\ DirectMCPClient._show_history X (query_session run_tool qs []) =
       Ret (match qs with
            | [] => [ "No conversation history yet." ]
            | _ => (NL +:+ "📚 Conversation History (" +:+
                    py_str X (VInt (Z.of_nat (length qs))) +:+ " interactions):")
                   :: numbered_lines X 1 (drop (length qs - 5) xs)
            end)
    /\ length (numbered_lines X 1 (drop (length qs - 5) xs)) = 3 * Nat.min (length qs) 5.
Proof.
  destruct (query_session_interactions run_tool qs []) as (xs & Hs & Hq & Ht).
  exists xs. split; [exact Hq|]. split; [exact Ht|].
  assert (length xs = length qs) as Hlen
    by (rewrite <- (length_map i_query xs), Hq; apply length_map).
  split.
  - rewrite Hs. destruct qs as [|q qs].
    + destruct xs; [reflexivity | discriminate Hlen].
    + rewrite <- Hlen. apply show_history_session. intros ->. discriminate Hlen.
  - rewrite numbered_lines_length, length_drop. lia.
Qed.

(** ** The tools of the direct client *)

Ltac decide_names :=
  repeat match goal with
         | |- context [String.eqb ?a ?b] =>
             let v := eval vm_compute in (String.eqb a b) in
             match v with
             | true => change (String.eqb a b) with true
             | false => change (String.eqb a b) with false
             end
         end;
  cbv iota.

(** X22: the direct cluster access of the direct client never succeeds.  It
    builds the handle with three arguments, as the LLM-enabled server does:
    whatever the environment and the outside world, the answer is the text
    of the import error, the missing-credentials text or the text of the
    constructor's [TypeError]; no cluster call is made, and this is also the
    answer of the simulated [list_namespaces] and [connect_cluster]. *)
Theorem direct_access_never_succeeds (X : Externals) (json_dumps : Value -> Outcome string)
    (test_llm_integration : M string) (env : gmap string string)
    (import_OpenShiftCluster : Outcome unit) (arguments : ArgumentBag) (w : World) :
  let answer :=
    match import_OpenShiftCluster with
    | Raise e => "❌ Error testing direct OpenShift access: " +:+ exn_str e
    | Ret _ =>
        if negb (LLM.env_truthy (LLM.getenv env "OPENSHIFT_CLUSTER_URL")) ||
           negb (LLM.env_truthy (LLM.getenv env "OPENSHIFT_TOKEN"))
        then "❌ Missing cluster credentials in environment variables"
        else "❌ Error testing direct OpenShift access: " +:+
             "OpenShiftCluster.__init__() takes 3 positional arguments but 4 were given"
    end in
  DirectMCPClientTools.test_direct_openshift_access X json_dumps env
    import_OpenShiftCluster w = (Ret answer, w)
  /\ DirectMCPClientTools.simulate_mcp_tool_execution X json_dumps test_llm_integration env
       import_OpenShiftCluster "list_namespaces" arguments w = (Ret answer, w)
  /\ DirectMCPClientTools.simulate_mcp_tool_execution X json_dumps test_llm_integration env
       import_OpenShiftCluster "connect_cluster" arguments w = (Ret answer, w).
Proof.
  cbv zeta.
  assert (Hd : DirectMCPClientTools.test_direct_openshift_access X json_dumps env
                 import_OpenShiftCluster w =
               (Ret (match import_OpenShiftCluster with
                     | Raise e => "❌ Error testing direct OpenShift access: " +:+ exn_str e
                     | Ret _ =>
                         if negb (LLM.env_truthy (LLM.getenv env "OPENSHIFT_CLUSTER_URL")) ||
                            negb (LLM.env_truthy (LLM.getenv env "OPENSHIFT_TOKEN"))
                         then "❌ Missing cluster credentials in environment variables"
                         else "❌ Error testing direct OpenShift access: " +:+
                              "OpenShiftCluster.__init__() takes 3 positional arguments but 4 were given"
                     end), w)).
  { unfold DirectMCPClientTools.test_direct_openshift_access, try_except, bind, lift.
    destruct import_OpenShiftCluster as [[]|e]; [|reflexivity].
    destruct (negb _ || negb _); [reflexivity|].
    rewrite new_with_three_arguments_raises. reflexivity. }
  split; [exact Hd|].
  split.
  - unfold DirectMCPClientTools.simulate_mcp_tool_execution, try_except.
    decide_names. rewrite Hd. reflexivity.
  - unfold DirectMCPClientTools.simulate_mcp_tool_execution, try_except.
    decide_names. rewrite Hd. reflexivity.
Qed.

(** X23: every query that the router sends to [list_pods] gets the same
    simulated answer, for the namespace "default", and no cluster call is
    made: the namespace named in the query never reaches the tool. *)
Theorem list_pods_queries_get_default_answer (X : Externals)
    (json_dumps : Value -> Outcome string) (test_llm_integration : M string)
    (env : gmap string string) (import_OpenShiftCluster : Outcome unit)
    (q : string) (w : World) :
  fst (DirectMCPClient.process_user_query_route q) = "list_pods" ->
  DirectMCPClientTools.simulate_mcp_tool_execution X json_dumps test_llm_integration env
    import_OpenShiftCluster
    (fst (DirectMCPClient.process_user_query_route q))
    (snd (DirectMCPClient.process_user_query_route q)) w =
  (Ret ("✅ Simulated MCP Tool Result for list_pods:" +:+ NL +:+
        "Namespace: " +:+ py_str X (VStr "default") +:+ NL +:+
        "Status: Would list pods in " +:+ py_str X (VStr "default") +:+ " namespace"),
   w).
Proof.
  intros Ht.
  destruct (route_cases q) as [H|[H|[H|H]]]; rewrite H in Ht |- *; simpl in Ht;
    try discriminate Ht.
  unfold DirectMCPClientTools.simulate_mcp_tool_execution, try_except.
  cbn [fst snd]. decide_names. unfold args_get_default.
  rewrite lookup_singleton_eq. reflexivity.
Qed.

Lemma list_pods_queries_get_default_answer_witness :
  DirectMCPClientTools.simulate_mcp_tool_execution quiet_world (fun _ => Ret "")
    (ret "") ∅ (Ret tt)
    (fst (DirectMCPClient.process_user_query_route "list pods in production"))
    (snd (DirectMCPClient.process_user_query_route "list pods in production")) no_cluster =
  (Ret ("✅ Simulated MCP Tool Result for list_pods:" +:+ NL +:+
        "Namespace: " +:+ py_str quiet_world (VStr "default") +:+ NL +:+
        "Status: Would list pods in " +:+ py_str quiet_world (VStr "default") +:+ " namespace"),
   no_cluster).
Proof.
  apply (list_pods_queries_get_default_answer quiet_world (fun _ => Ret "") (ret "") ∅
           (Ret tt) "list pods in production" no_cluster).
  vm_compute. reflexivity.
Defined.

(** ** Quantities and the usage report *)

Lemma string_length_app (s1 s2 : string) :
  String.length (s1 +:+ s2) = String.length s1 + String.length s2.
Proof. induction s1 as [|c s1 IH]; simpl; [reflexivity | by rewrite IH]. Qed.

Lemma substring_app_skip (d s : string) (j m : nat) :
  String.substring (String.length d + j) m (d +:+ s) = String.substring j m s.
Proof. induction d as [|c d IH]; simpl; [reflexivity | exact IH]. Qed.

Lemma substring_app_prefix (d s : string) :
  String.substring 0 (String.length d) (d +:+ s) = d.
Proof.
  induction d as [|c d IH]; simpl; [destruct s; reflexivity | by rewrite IH].
Qed.

Lemma substring_full (x : string) : String.substring 0 (String.length x) x = x.
Proof. induction x as [|c x IH]; simpl; [reflexivity | by rewrite IH]. Qed.

Lemma substring_split (x : string) : forall k, k <= String.length x ->
  x = String.substring 0 k x +:+ String.substring k (String.length x - k) x.
Proof.
  induction x as [|c x IH]; intros k Hk.
  - destruct k; [reflexivity | simpl in Hk; lia].
  - destruct k as [|k].
    + rewrite Nat.sub_0_r, substring_full. reflexivity.
    + change (String c x =
              String c (String.substring 0 k x +:+
                        String.substring k (String.length x - k) x)).
      f_equal. apply IH. simpl in Hk. lia.
Qed.


Lemma last_char_app (s1 s2 : string) :
  s2 <> "" -> last_char (s1 +:+ s2) = last_char s2.
Proof.
  intros Hne. induction s1 as [|c s1 IH]; [reflexivity|].
  change (String c s1 +:+ s2) with (String c (s1 +:+ s2)). cbn [last_char].
  destruct (s1 +:+ s2) eqn:E; [|exact IH].
  destruct s1 as [|c' s1].
  - change ("" +:+ s2) with s2 in E. congruence.
  - change (String c' s1 +:+ s2) with (String c' (s1 +:+ s2)) in E. discriminate E.
Qed.

Lemma endswith_true (x t : string) :
  ResourceUsage.endswith x t = true -> exists y, x = y +:+ t.
Proof.
  unfold ResourceUsage.endswith. intros H.
  apply andb_true_iff in H as [Hle Heq].
  apply Nat.leb_le in Hle. apply String.eqb_eq in Heq.
  exists (String.substring 0 (String.length x - String.length t) x).
  pose proof (substring_split x (String.length x - String.length t)
                ltac:(lia)) as Hsp.
  replace (String.length x - (String.length x - String.length t))
    with (String.length t) in Hsp by lia.
  rewrite Heq in Hsp. exact Hsp.
Qed.

(** The suffix test on a string that ends in [s]: it is the test on [s]
    itself when the tested suffix is no longer than [s], and it fails when
    the last characters differ. *)
Lemma endswith_app (d s t : string) :
  s <> "" -> t <> "" ->
  String.length t <= String.length s \/ last_char s <> last_char t ->
  ResourceUsage.endswith (d +:+ s) t =
  (String.length t <=? String.length s)%nat && ResourceUsage.endswith s t.
Proof.
  intros Hs Ht Hc.
  destruct (Nat.le_gt_cases (String.length t) (String.length s)) as [Hle|Hgt].
  - assert ((String.length t <=? String.length s)%nat = true) as -> by (apply Nat.leb_le; lia).
    unfold ResourceUsage.endswith. rewrite string_length_app. simpl andb.
    assert ((String.length t <=? String.length d + String.length s)%nat = true) as ->
      by (apply Nat.leb_le; lia).
    assert ((String.length t <=? String.length s)%nat = true) as -> by (apply Nat.leb_le; lia).
    simpl. f_equal.
    replace (String.length d + String.length s - String.length t)
      with (String.length d + (String.length s - String.length t)) by lia.
    apply substring_app_skip.
  - assert ((String.length t <=? String.length s)%nat = false) as -> by (apply Nat.leb_gt; lia).
    simpl. destruct Hc as [Hle|Hlast]; [lia|].
    destruct (ResourceUsage.endswith (d +:+ s) t) eqn:E; [|reflexivity].
    apply endswith_true in E as [y Hy].
    apply (f_equal last_char) in Hy. rewrite !last_char_app in Hy by assumption.
    contradiction.
Qed.

Lemma drop_last_app (d s : string) (k : nat) :
  String.length s = k -> ResourceUsage.drop_last k (d +:+ s) = d.
Proof.
  intros <-. unfold ResourceUsage.drop_last. rewrite string_length_app.
  replace (String.length d + String.length s - String.length s) with (String.length d) by lia.
  apply substring_app_prefix.
Qed.

Ltac decide_suffix d :=
  repeat match goal with
         | |- context [ResourceUsage.endswith (d +:+ ?s) ?t] =>
             rewrite (endswith_app d s t)
               by first [ discriminate
                        | left; simpl; lia
                        | right; simpl; discriminate ];
             let v := eval vm_compute in
                        ((String.length t <=? String.length s)%nat
                         && ResourceUsage.endswith s t) in
             change ((String.length t <=? String.length s)%nat
                     && ResourceUsage.endswith s t) with v
         end;
  cbn [orb]; cbv iota.

(** X24: [_parse_memory_value] reads a number followed by a unit: for digits
    [d] that [int()] reads as [n], the string [d] followed by "Ki", "Mi",
    "Gi", "Ti" is [n] times the power of 1024, followed by "K", "k", "M",
    "G", "T" it is [n] times the power of 1000.  Other units ("Pi", "Ei",
    "P", "E", "m", "g", "t", "B") are not stripped: the whole string is handed
    to [int()]. *)
Theorem parse_memory_value_units (X : Externals) (d : string) :
  (forall n suffix factor, In (suffix, factor) memory_units -> py_int X d = Some n ->
     ResourceUsage._parse_memory_value X (d +:+ suffix) = Ret (n * factor)%Z)
  /\ (forall suffix, In suffix unknown_memory_units ->
        ResourceUsage._parse_memory_value X (d +:+ suffix) =
        ResourceUsage.int_of X (d +:+ suffix)).
Proof.
  split.
  - intros n suffix factor Hin Hd. simpl in Hin. in_cases Hin;
    unfold ResourceUsage._parse_memory_value; decide_suffix d;
    rewrite drop_last_app by reflexivity;
    unfold ResourceUsage.int_of; rewrite Hd; cbn [obind]; f_equal; lia.
  - intros suffix Hin. simpl in Hin. in_cases Hin;
    unfold ResourceUsage._parse_memory_value; decide_suffix d; reflexivity.
Qed.

Lemma parse_memory_value_units_witness :
  ResourceUsage._parse_memory_value quiet_world ("512" +:+ "Mi") = Ret (512 * (1024 * 1024))%Z.
Proof.
  apply (proj1 (parse_memory_value_units quiet_world "512") 512%Z "Mi" (1024 * 1024)%Z).
  - simpl. tauto.
  - reflexivity.
Defined.

Import ResourceUsage.

Lemma sum_field_app (k : string) (l1 l2 : list Dict) :
  sum_field k (l1 ++ l2) = (sum_field k l1 + sum_field k l2)%Z.
Proof. induction l1 as [|d l1 IH]; simpl; [reflexivity | rewrite IH; lia]. Qed.

(** A container adds the same bytes to the pod's sums and to the
    namespace's. *)
Lemma add_container_memory (X : Externals) (c : Container) (p u p' u' : Sums) :
  add_container X c p u = Ret (p', u') ->
  (memory_request p' - memory_request p = memory_request u' - memory_request u)%Z /\
  (memory_limit p' - memory_limit p = memory_limit u' - memory_limit u)%Z.
Proof.
  intros H. unfold add_container, obind in H.
  repeat case_match; simplify_eq; cbn; lia.
Qed.

Lemma add_containers_memory (X : Externals) (cs : list Container) :
  forall p u p' u',
  add_containers X cs p u = Ret (p', u') ->
  (memory_request p' - memory_request p = memory_request u' - memory_request u)%Z /\
  (memory_limit p' - memory_limit p = memory_limit u' - memory_limit u)%Z.
Proof.
  induction cs as [|c cs IH]; intros p u p' u' H; cbn [add_containers] in H.
  - injection H as <- <-. lia.
  - unfold obind in H. destruct (add_container X c p u) as [[p1 u1]|e] eqn:Hc;
      [|discriminate H].
    cbn [fst snd] in H. apply IH in H. apply add_container_memory in Hc. lia.
Qed.

Lemma add_pods_invariant (X : Externals) (pods : list Pod) :
  forall listed u listed' u',
  add_pods X pods listed u = Ret (listed', u') ->
  exists new,
    listed' = listed ++ new /\
    map (fun d => dict_lookup d "name") new = map (fun p => Some (pod_name p)) pods /\
    map (fun d => dict_lookup d "status") new = map (fun p => Some (pod_phase p)) pods /\
    memory_request u' = (memory_request u + sum_field "memory_request" new)%Z /\
    memory_limit u' = (memory_limit u + sum_field "memory_limit" new)%Z.
Proof.
  induction pods as [|p pods IH]; intros listed u listed' u' H; cbn [add_pods] in H.
  - injection H as <- <-. exists []. rewrite app_nil_r. cbn. repeat split; lia.
  - unfold obind in H.
    destruct (add_containers X (containers p) zero_sums u) as [[p1 u1]|e] eqn:Hc;
      [|discriminate H].
    cbn [fst snd] in H. apply IH in H as (new & -> & Hn & Hs & Hr & Hl).
    apply add_containers_memory in Hc. cbn [memory_request memory_limit zero_sums] in Hc.
    exists (pod_usage_dict p p1 :: new). rewrite <- app_assoc. cbn [app map].
    rewrite Hn, Hs.
    change (sum_field "memory_request" (pod_usage_dict p p1 :: new))
      with (memory_request p1 + sum_field "memory_request" new)%Z.
    change (sum_field "memory_limit" (pod_usage_dict p p1 :: new))
      with (memory_limit p1 + sum_field "memory_limit" new)%Z.
    repeat split; lia.
Qed.

(** X25: a usage report that [get_resource_usage] returns lists one entry per
    pod, in the order of the pods and under their names and phases, and its
    memory totals are the sums of the entries' memory figures. *)
Theorem usage_report_totals (X : Externals) (namespace : Value) (pods : list Pod)
    (usage_info : Dict) :
  usage_report X namespace pods = Ret usage_info ->
  exists listed,
    dict_lookup usage_info "namespace" = Some namespace /\
    dict_lookup usage_info "pods" = Some (VList (map VDict listed)) /\
    map (fun d => dict_lookup d "name") listed = map (fun p => Some (pod_name p)) pods /\
    map (fun d => dict_lookup d "status") listed = map (fun p => Some (pod_phase p)) pods /\
    dict_lookup usage_info "total_memory_request" =
      Some (VInt (sum_field "memory_request" listed)) /\
    dict_lookup usage_info "total_memory_limit" =
      Some (VInt (sum_field "memory_limit" listed)).
Proof.
  unfold usage_report, obind. intros H.
  destruct (add_pods X pods [] zero_sums) as [[listed u]|e] eqn:Hp; [|discriminate H].
  injection H as <-. apply add_pods_invariant in Hp as (new & -> & Hn & Hs & Hr & Hl).
  exists new. cbn [app fst snd]. cbn [memory_request memory_limit zero_sums] in Hr, Hl.
  rewrite Hr, Hl. repeat split; assumption.
Qed.

Lemma usage_report_totals_witness :
  exists usage_info,
    usage_report quiet_world (VStr "shop") sample_pods = Ret usage_info /\
    dict_lookup usage_info "total_memory_request" = Some (VInt (192 * 1024 * 1024)) /\
    dict_lookup usage_info "total_memory_limit" =
      Some (VInt (1024 * 1024 * 1024 + 2000000000)) /\
    exists listed,
      dict_lookup usage_info "namespace" = Some (VStr "shop") /\
      dict_lookup usage_info "pods" = Some (VList (map VDict listed)) /\
      map (fun d => dict_lookup d "name") listed =
        map (fun p => Some (pod_name p)) sample_pods /\
      map (fun d => dict_lookup d "status") listed =
        map (fun p => Some (pod_phase p)) sample_pods /\
      dict_lookup usage_info "total_memory_request" =
        Some (VInt (sum_field "memory_request" listed)) /\
      dict_lookup usage_info "total_memory_limit" =
        Some (VInt (sum_field "memory_limit" listed)).
Proof.
  destruct (usage_report quiet_world (VStr "shop") sample_pods) as [usage_info|e] eqn:Hu;
    [|vm_compute in Hu; discriminate Hu].
  exists usage_info. split; [reflexivity|].
  pose proof (usage_report_totals _ _ _ _ Hu) as Ht.
  vm_compute in Hu. injection Hu as <-.
  split; [vm_compute; reflexivity|]. split; [vm_compute; reflexivity|]. exact Ht.
Defined.

Lemma add_container_raises (X : Externals) (c : Container) (r : list (string * string))
    (q : string) (e : PyExn) (p u : Sums) :
  present (requests c) = Some r -> quantity r "memory" = Some q ->
  _parse_memory_value X q = Raise e ->
  exists e', add_container X c p u = Raise e'.
Proof.
  intros Hr Hq He. unfold add_container. rewrite Hr, Hq, He.
  destruct (quantity r "cpu") as [qc|]; cbn [obind].
  - destruct (_parse_cpu_value X qc) as [f|e1]; cbn [obind]; eauto.
  - eauto.
Qed.

Lemma add_containers_raises (X : Externals) (cs : list Container) (c : Container)
    (r : list (string * string)) (q : string) (e : PyExn) :
  In c cs -> present (requests c) = Some r -> quantity r "memory" = Some q ->
  _parse_memory_value X q = Raise e ->
  forall p u, exists e', add_containers X cs p u = Raise e'.
Proof.
  intros Hin Hr Hq He. induction cs as [|c0 cs IH]; [contradiction|].
  intros p u. cbn [add_containers].
  destruct Hin as [->|Hin].
  - destruct (add_container_raises X c r q e p u Hr Hq He) as [e' ->]. cbn [obind]. eauto.
  - destruct (add_container X c0 p u) as [[p1 u1]|e1]; cbn [obind fst snd]; eauto.
Qed.

Lemma add_pods_raises (X : Externals) (pods : list Pod) (p : Pod) (c : Container)
    (r : list (string * string)) (q : string) (e : PyExn) :
  In p pods -> In c (containers p) ->
  present (requests c) = Some r -> quantity r "memory" = Some q ->
  _parse_memory_value X q = Raise e ->
  forall listed u, exists e', add_pods X pods listed u = Raise e'.
Proof.
  intros Hin Hc Hr Hq He. induction pods as [|p0 pods IH]; [contradiction|].
  intros listed u. cbn [add_pods].
  destruct Hin as [->|Hin].
  - destruct (add_containers_raises X _ c r q e Hc Hr Hq He zero_sums u) as [e' ->].
    cbn [obind]. eauto.
  - destruct (add_containers X (containers p0) zero_sums u) as [[p1 u1]|e1];
      cbn [obind fst snd]; eauto.
Qed.

(** X26: one unreadable memory request voids the report of the namespace:
    when [_parse_memory_value] raises on the memory request of some container
    of some pod, [get_resource_usage] answers with an error dictionary only;
    the figures of the other pods are not returned. *)
Theorem unreadable_quantity_voids_report (X : Externals) (namespace : Value)
    (pods : list Pod) (p : Pod) (c : Container) (r : list (string * string))
    (q : string) (e : PyExn) :
  In p pods -> In c (containers p) ->
  present (requests c) = Some r -> quantity r "memory" = Some q ->
  _parse_memory_value X q = Raise e ->
  exists msg, get_resource_usage_answer X namespace pods = [("error", VStr msg)].
Proof.
  intros Hin Hc Hr Hq He. unfold get_resource_usage_answer, usage_report.
  destruct (add_pods_raises X pods p c r q e Hin Hc Hr Hq He [] zero_sums) as [e' ->].
  cbn [obind]. eauto.
Qed.

Lemma unreadable_quantity_voids_report_witness :
  exists msg,
    get_resource_usage_answer quiet_world (VStr "shop")
      (sample_pods ++
       [ mkPod (VStr "cache") (VStr "Running")
           [ mkContainer (Some [("cpu", "250m"); ("memory", "1Pi")]) None ] ])
    = [("error", VStr msg)].
Proof.
  apply (unreadable_quantity_voids_report quiet_world (VStr "shop") _
           (mkPod (VStr "cache") (VStr "Running")
              [ mkContainer (Some [("cpu", "250m"); ("memory", "1Pi")]) None ])
           (mkContainer (Some [("cpu", "250m"); ("memory", "1Pi")]) None)
           [("cpu", "250m"); ("memory", "1Pi")] "1Pi"
           (ValueError "invalid literal for int() with base 10: '1Pi'")).
  - apply in_or_app. right. left. reflexivity.
  - left. reflexivity.
  - reflexivity.
  - reflexivity.
  - vm_compute. reflexivity.
Defined.

(** ** The working host *)

(** X27: the working host records every query as answered: whatever the
    query, the environment and the outside world, [process_user_query]
    returns a response and appends one entry with that response and the tool
    name "intelligent_response"; the entry with the tool name "error" is never
    written, since [_generate_intelligent_response] catches every exception
    itself.  At most one vendor request is issued and the cluster handle is
    untouched. *)
Theorem host_records_intelligent_response (X : Externals) (found : bool)
    (env : gmap string string) (timestamp : string) (history : list Dict)
    (query : string) (w : World) :
  exists response w',
    WorkingHost.process_user_query X found env timestamp history query w =
      (Ret (response,
            WorkingOpenShiftHostApp.add_to_history timestamp history query response
              "intelligent_response" (clock_elapsed X (trace w'))), w')
    /\ cluster w' = cluster w
    /\ (trace w' = trace w \/ exists p fp, trace w' = trace w ++ [EvGenerate p fp]).
Proof.
  unfold WorkingHost.process_user_query, WorkingHost._generate_intelligent_response,
    try_except, bind, lift, ret, LLM.elapsed.
  destruct (WorkingHost.import_llm_manager X found env) as [mgr|e].
  - match goal with
    | |- context [LLM.generate_response ?a ?b ?c ?d ?e ?w0] =>
        pose proof (manager_world_after a b c d e w0) as Hreq;
        destruct (LLM.generate_response a b c d e w0) as [[r|e0] w3]
    end; cbn [fst snd] in Hreq;
    [destruct (error_set (LLM.error r));
     [|destruct (format_2f X (of_option_float (LLM.response_time r)))]|];
    (do 2 eexists; split; [reflexivity|]);
    (destruct Hreq as [-> | (p & _ & ->)];
     [split; [reflexivity | left; reflexivity]
     |split; [reflexivity | right; cbn [trace]; eauto]]).
  - do 2 eexists. split; [reflexivity|]. split; [reflexivity | left; reflexivity].
Qed.

(** X28: the host asks for the provider "gemini" by name, and the manager's
    only default is Gemini: when the manager has been set up from an
    environment without a Gemini API key, every query is answered with
    "LLM Error: No LLM provider available" and no vendor is contacted,
    whichever other providers are configured. *)
Theorem host_answers_only_through_gemini (X : Externals) (env : gmap string string)
    (self : LLM.LLMManager) (timestamp : string) (history : list Dict)
    (query : string) (w : World) :
  LLM.setup_providers X env = Ret self ->
  configured env "gemini" = false ->
  WorkingHost.process_user_query X true env timestamp history query w =
    (Ret ("❌ LLM Error: No LLM provider available",
          WorkingOpenShiftHostApp.add_to_history timestamp history query
            "❌ LLM Error: No LLM provider available" "intelligent_response"
            (clock_elapsed X (trace w))), w).
Proof.
  intros Hs Hg.
  destruct (setup_providers_keys X env self Hs) as [Hk Hd]. rewrite Hg in Hd.
  assert (LLM.providers_lookup (LLM.providers self) "gemini" = None) as Hl.
  { destruct (LLM.providers_lookup (LLM.providers self) "gemini") as [p|] eqn:Hp;
      [|reflexivity].
    assert (In "gemini" (map fst (LLM.providers self))) as Hin
      by (apply providers_lookup_keys; eauto).
    unfold LLM.get_available_providers in Hk. rewrite Hk in Hin.
    apply filter_In in Hin as [_ Hin]. congruence. }
  unfold WorkingHost.process_user_query, WorkingHost._generate_intelligent_response,
    WorkingHost.import_llm_manager, try_except, bind, lift, ret, LLM.elapsed.
  rewrite Hs. unfold LLM.generate_response. rewrite Hl.
  change (negb ("gemini" =? "")%string && false) with false. cbv iota.
  unfold LLM.generate_with_default. rewrite Hd. reflexivity.
Qed.

Lemma host_answers_only_through_gemini_witness :
  exists self,
    LLM.setup_providers quiet_world openai_only_env = Ret self
    /\ LLM.get_available_providers self = ["openai"]
    /\ WorkingHost.process_user_query quiet_world true openai_only_env
         "2025-01-01T00:00:00" [] "How do I scale a deployment?" no_cluster =
       (Ret ("❌ LLM Error: No LLM provider available",
             WorkingOpenShiftHostApp.add_to_history "2025-01-01T00:00:00" []
               "How do I scale a deployment?"
               "❌ LLM Error: No LLM provider available" "intelligent_response"
               (clock_elapsed quiet_world (trace no_cluster))), no_cluster).
Proof.
  destruct (LLM.setup_providers quiet_world openai_only_env) as [self|e] eqn:Hs;
    [|vm_compute in Hs; discriminate Hs].
  exists self. split; [reflexivity|]. split.
  - vm_compute in Hs. injection Hs as <-. reflexivity.
  - apply (host_answers_only_through_gemini quiet_world openai_only_env self).
    + exact Hs.
    + reflexivity.
Defined.
